(** * HRM: hierarchical reasoning machine -- classification, patterns,
      retrying orchestration and convergence analysis

    A shallow embedding of

    - [src/hrm_core.py]                 ([Module Core], [Module CoreSystem]),
    - [src/hrm_automation_engine.py]    ([Module Engine], [Module Status]),
    - [src/hrm_advanced_convergence.py] ([Module Convergence],
                                         [Module Learning]),

    followed by the properties proved about them.

    Conventions of the embedding.

    - Python [float] is idealised as the real numbers [R]: comparisons are
      the decidable comparisons of [R] turned into [bool], [math.sqrt] is
      [sqrt].  Rounding is not modelled.
    - Python [str] is [string] (a list of bytes); [str.lower] and [re.I]
      fold the ASCII letters only.
    - A [dict] with string keys is a [gmap string _]; where the iteration
      order of a dict is observed an association list is used instead.
    - Code that may raise is written in the exception monad [exc]; a
      method that also mutates [self] returns the new object next to
      its outcome, so that mutations made before an exception survive it. *)

From Stdlib Require Import Reals Lra Lia List String Ascii Bool Arith DecimalString.
From stdpp Require Import gmap strings.
Import ListNotations.

Local Open Scope string_scope.
Local Open Scope list_scope.
Local Open Scope R_scope.

(** ** Python builtins used by the sources *)

Module Py.

(** The exceptions that the modelled code can see. [Exception] stands for
    anything raised by an external tool call. *)
Inductive PyError : Type :=
| KeyError (key : string)
| StatisticsError (msg : string)
| ZeroDivisionError (msg : string)
| AttributeError (msg : string)
| TypeError (msg : string)
| Exception (msg : string).

Definition exc (A : Type) : Type := (PyError + A)%type.

Definition ret {A} (a : A) : exc A := inr a.
Definition raise {A} (e : PyError) : exc A := inl e.
Definition bind {A B} (m : exc A) (k : A -> exc B) : exc B :=
  match m with
  | inl e => inl e
  | inr a => k a
  end.

(** [str(e)]: a [KeyError] prints the repr of its key. *)
Definition str_of_error (e : PyError) : string :=
  match e with
  | KeyError k => "'" +:+ k +:+ "'"
  | StatisticsError m => m
  | ZeroDivisionError m => m
  | AttributeError m => m
  | TypeError m => m
  | Exception m => m
  end.

(** The [AttributeError] of reading an attribute that an object of the
    class [type_name] does not have. *)
Definition no_attribute (type_name attribute : string) : PyError :=
  AttributeError ("'" +:+ type_name +:+ "' object has no attribute '"
                  +:+ attribute +:+ "'").

(** *** Floats as reals *)

Definition Rleb (x y : R) : bool := if Rle_dec x y then true else false.
Definition Rltb (x y : R) : bool := if Rlt_dec x y then true else false.
Definition Reqb (x y : R) : bool := if Req_dec_T x y then true else false.

(** [a / b] on floats. *)
Definition truediv (a b : R) : exc R :=
  if Reqb b 0 then raise (ZeroDivisionError "float division by zero")
  else ret (a / b).

(** [sum(xs)], starting from 0 and adding left to right. *)
Definition sum (xs : list R) : R := fold_left Rplus xs 0.

(** [statistics.mean]. *)
Definition mean (data : list R) : exc R :=
  match data with
  | [] => raise (StatisticsError "mean requires at least one data point")
  | _ => ret (sum data / INR (length data))
  end.

(** [statistics.variance]: the sample variance, n - 1 in the denominator. *)
Definition variance (data : list R) : exc R :=
  match data with
  | [] | [_] =>
      raise (StatisticsError "variance requires at least two data points")
  | _ =>
      let m := sum data / INR (length data) in
      ret (sum (map (fun x => (x - m) * (x - m)) data)
           / INR (length data - 1))
  end.

(** [statistics.stdev]. *)
Definition stdev (data : list R) : exc R :=
  bind (variance data) (fun v => ret (sqrt v)).

(** [max(iterable, key=...)] on a non-empty iterable [x :: l]: the first
    element whose key is largest. *)
Fixpoint max_by {A} (key : A -> R) (x : A) (l : list A) : A :=
  match l with
  | [] => x
  | y :: l' => if Rltb (key x) (key y) then max_by key y l' else max_by key x l'
  end.

(** [l[-n:]] for [n > 0]. *)
Definition last_n {A} (n : nat) (l : list A) : list A :=
  skipn (length l - n) l.

(** *** Strings *)

Definition lower_ascii (c : ascii) : ascii :=
  let n := nat_of_ascii c in
  if ((65 <=? n) && (n <=? 90))%nat then ascii_of_nat (n + 32) else c.

Fixpoint lower (s : string) : string :=
  match s with
  | EmptyString => EmptyString
  | String c s' => String (lower_ascii c) (lower s')
  end.

(** [sub in s]. *)
Fixpoint contains (sub s : string) : bool :=
  String.prefix sub s ||
  match s with
  | EmptyString => false
  | String _ s' => contains sub s'
  end.

(** [s[:n]]. *)
Definition take (n : nat) (s : string) : string := String.substring 0 n s.

(** [str(n)] for a non-negative [int]. *)
Definition str_of_nat (n : nat) : string :=
  NilEmpty.string_of_uint (Nat.to_uint n).

(** [sep.join(parts)]. *)
Fixpoint join (sep : string) (parts : list string) : string :=
  match parts with
  | [] => ""
  | [p] => p
  | p :: rest => p +:+ sep +:+ join sep rest
  end.

(** [d[key]]. *)
Definition getitem {V} (d : gmap string V) (key : string) : exc V :=
  match d !! key with
  | Some v => ret v
  | None => raise (KeyError key)
  end.

(** [d.get(key, dflt)]. *)
Definition get {V} (d : gmap string V) (key : string) (dflt : V) : V :=
  match d !! key with
  | Some v => v
  | None => dflt
  end.

(** *** The fragment of [re] used by [hrm_core]: literal characters,
    [.], [.*] and top-level alternation, searched with [re.I]. *)

Inductive atom : Type :=
| AChar (c : ascii)
| ADot
| ADotStar.

(** A compiled pattern: the alternatives, each a sequence of atoms. *)
Definition regex : Type := list (list atom).

Definition bar : ascii := "|"%char.
Definition dot : ascii := "."%char.
Definition star : ascii := "*"%char.
Definition newline : ascii := ascii_of_nat 10.

(** [parse cur s] reads [s] with [cur] the alternative being built, in
    reverse. *)
Fixpoint parse (cur : list atom) (s : string) : regex :=
  match s with
  | EmptyString => [rev cur]
  | String c s' =>
      if Ascii.eqb c bar then rev cur :: parse [] s'
      else if Ascii.eqb c dot then
        match s' with
        | String d s'' =>
            if Ascii.eqb d star then parse (ADotStar :: cur) s''
            else parse (ADot :: cur) s'
        | EmptyString => parse (ADot :: cur) s'
        end
      else parse (AChar c :: cur) s'
  end.

(** [re.compile(pattern, re.I)]. *)
Definition compile (pattern : string) : regex := parse [] pattern.

(** [.*] followed by [k]: [.] matches anything but a newline. *)
Fixpoint dotstar (k : string -> bool) (s : string) : bool :=
  k s ||
  match s with
  | EmptyString => false
  | String c s' => negb (Ascii.eqb c newline) && dotstar k s'
  end.

(** Does the sequence match at the start of [s]? *)
Fixpoint match_here (atoms : list atom) (s : string) : bool :=
  match atoms with
  | [] => true
  | AChar c :: rest =>
      match s with
      | String d s' =>
          Ascii.eqb (lower_ascii c) (lower_ascii d) && match_here rest s'
      | EmptyString => false
      end
  | ADot :: rest =>
      match s with
      | String d s' => negb (Ascii.eqb d newline) && match_here rest s'
      | EmptyString => false
      end
  | ADotStar :: rest => dotstar (match_here rest) s
  end.

Definition match_at (r : regex) (s : string) : bool :=
  existsb (fun alt => match_here alt s) r.

(** [pattern.search(s)] as a truth value. *)
Fixpoint search (r : regex) (s : string) : bool :=
  match_at r s ||
  match s with
  | EmptyString => false
  | String _ s' => search r s'
  end.

End Py.

Module PyNotations.
Notation "'let*' x ':=' m 'in' k" := (Py.bind m (fun x => k))
  (at level 10, x name, m at level 100, k at level 200).
End PyNotations.
Import PyNotations.

(** ** [hrm_core.py] *)

Module Core.

(** [ComplexityAssessor.patterns]. *)
Definition patterns : gmap string (list Py.regex) :=
  list_to_map
    [ ("expert",
       [ Py.compile "consciousness|emergent|recursive|paradigm.*shift|bootstrap|self.*modifying";
         Py.compile "meta.*cognition|artificial.*general|superintelligence|singularity";
         Py.compile "recursive.*improvement|intelligence.*explosion|cognitive.*architecture" ]);
      ("complex",
       [ Py.compile "design.*system|multi.*step.*process|causal.*reasoning|emergent.*properties";
         Py.compile "synthesize.*from.*multiple|cross.*domain.*analysis|systematic.*approach";
         Py.compile "optimize.*across.*dimensions|hierarchical.*structure|feedback.*loop" ]);
      ("medium",
       [ Py.compile "compare.*and.*contrast|analyze.*relationship|evaluate.*trade.*offs";
         Py.compile "pros.*and.*cons|advantages.*disadvantages|correlation.*between";
         Py.compile "investigate.*connection|examine.*impact|assess.*implications" ]);
      ("simple",
       [ Py.compile "what.*is|define|explain.*simply|basic.*concept|fundamental";
         Py.compile "how.*to.*do|step.*by.*step|guide.*for|tutorial";
         Py.compile "list.*of|enumerate|show.*me.*examples|tell.*me.*about" ]) ].

(** The [for complexity_level in [...]] loop of [assess_complexity]. *)
Fixpoint assess_loop (levels : list string) (query : string) : Py.exc string :=
  match levels with
  | [] => Py.ret "medium"
  | complexity_level :: rest =>
      let* pats := Py.getitem patterns complexity_level in
      if existsb (fun pattern => Py.search pattern query) pats
      then Py.ret complexity_level
      else assess_loop rest query
  end.

(** [ComplexityAssessor.assess_complexity]. *)
Definition assess_complexity (query : string) : Py.exc string :=
  assess_loop ["expert"; "complex"; "medium"; "simple"] query.

Inductive Level : Type := HIGH | LOW.

Record Step : Type := mkStep
  { tool : string; level : Level; purpose : string }.

(** [PatternSelector.execution_patterns]. *)
Definition execution_patterns : gmap string (list Step) :=
  list_to_map
    [ ("simple",
       [ mkStep "brain_recall" HIGH "Retrieve existing knowledge" ]);
      ("medium",
       [ mkStep "brain_recall" HIGH "Load context";
         mkStep "web_search" LOW "Gather information";
         mkStep "brain_remember" HIGH "Store synthesis" ]);
      ("complex",
       [ mkStep "brain_recall" HIGH "Deep context loading";
         mkStep "sequential_thinking" LOW "Problem decomposition";
         mkStep "web_search" HIGH "Research validation";
         mkStep "reasoning_tools" LOW "Multi-perspective analysis";
         mkStep "brain_remember" HIGH "Comprehensive storage" ]);
      ("expert",
       [ mkStep "brain_recall" HIGH "Context + breakthroughs";
         mkStep "sequential_thinking" LOW "Initial analysis";
         mkStep "web_search" HIGH "Current state research";
         mkStep "reasoning_tools" LOW "Deep reasoning";
         mkStep "sequential_thinking" LOW "Synthesis validation";
         mkStep "brain_remember" HIGH "Breakthrough storage" ]) ].

(** [PatternSelector.get_pattern]: the default of [dict.get] is itself a
    subscript and is evaluated first. *)
Definition get_pattern (complexity : string) : Py.exc (list Step) :=
  let* dflt := Py.getitem execution_patterns "medium" in
  Py.ret (Py.get execution_patterns complexity dflt).

End Core.

(** ** [hrm_automation_engine.py] *)

Module Engine.

Inductive ExecutionPhase : Type :=
| ANALYSIS | ORCHESTRATION | CONVERGENCE | SYNTHESIS.

(** The value under ['final_answer'], as far as the context update looks
    at it, [data] being of type [Any]:
    - [StrAnswer s]: the [str] [s], of which [value[:100]] is the first
      hundred characters;
    - [OtherAnswer excerpt]: any other object; [excerpt] is the text that
      [f"{value[:100]}"] gives (for a list, a tuple or bytes the
      rendering of the slice, which can be longer than a hundred
      characters), or the exception that evaluating it raises (a
      [TypeError] for a value that cannot be sliced). *)
Inductive Answer : Type :=
| StrAnswer (s : string)
| OtherAnswer (excerpt : Py.exc string).

(** The payload [data] of a result, as far as the engine looks at it when
    it chains the context:
    - [NoData]: [None], or anything that is falsy or not a [dict];
    - [FinalAnswer a]: a dict with the value [a] under ['final_answer'];
    - [SearchData s]: a dict without ['final_answer'] but with
      ['search_confidence'], and [s] is what [str(data)] gives: the
      rendering of the dict, or the exception that rendering one of its
      values raises;
    - [OtherData]: any other non-empty dict. *)
Inductive Data : Type :=
| NoData
| FinalAnswer (final_answer : Answer)
| SearchData (str_of_data : Py.exc string)
| OtherData.

Record MCPExecutionResult : Type := mkResult
  { tool_name : string;
    success : bool;
    data : Data;
    confidence : R;
    execution_time : R;
    phase : ExecutionPhase;
    error_message : option string;
    retry_count : nat }.

Definition set_retry_count (r : MCPExecutionResult) (n : nat) : MCPExecutionResult :=
  mkResult (tool_name r) (success r) (data r) (confidence r)
           (execution_time r) (phase r) (error_message r) n.

(** The tool interface object held in [self.mcp_interface]: five
    coroutines, each of which returns a result or raises and may change
    the state [St] of the interface.  A coroutine that returns an object
    that is no result record makes [result.retry_count = attempt] or
    [result.success] raise, inside the same [try] and before anything is
    appended: it counts as one that raises. *)
Record ToolInterface (St : Type) : Type := mkInterface
  { execute_brain_recall : string -> St -> Py.exc MCPExecutionResult * St;
    execute_web_search : string -> St -> Py.exc MCPExecutionResult * St;
    execute_brain_remember : string -> string -> St -> Py.exc MCPExecutionResult * St;
    execute_sequential_thinking : string -> St -> Py.exc MCPExecutionResult * St;
    execute_reasoning_tools : string -> St -> Py.exc MCPExecutionResult * St }.
Arguments execute_brain_recall {St}.
Arguments execute_web_search {St}.
Arguments execute_brain_remember {St}.
Arguments execute_sequential_thinking {St}.
Arguments execute_reasoning_tools {St}.

(** *** [MCPToolInterface], the interface shipped with the engine *)

Record MCPToolInterface : Type := mkMCP
  { execution_count : nat;
    success_count : nat;
    error_log : list string }.

Definition counted (self : MCPToolInterface) : MCPToolInterface :=
  mkMCP (S (execution_count self)) (S (success_count self)) (error_log self).

(** The [try] blocks of the five methods build a literal dict and cannot
    raise, so the [except] handlers are never entered; [elapsed] is the
    measured [time.time() - start_time]. *)
Definition mcp_tool_interface (elapsed : R) : ToolInterface MCPToolInterface :=
  {| execute_brain_recall := fun query self =>
       let found := if Py.contains "existing" (Py.lower query) then "2" else "0" in
       let mock_data :=
         SearchData (Py.ret ("{'memories_found': " +:+ found
                             +:+ ", 'memories': [], 'search_confidence': 0.78}")) in
       (Py.ret (mkResult "brain_recall" true mock_data 0.78 elapsed ANALYSIS None 0),
        counted self);
     execute_web_search := fun query self =>
       let mock_data :=
         SearchData
           (Py.ret "{'results_count': 8, 'results': [], 'search_confidence': 0.82}") in
       (Py.ret (mkResult "web_search" true mock_data 0.82 elapsed ORCHESTRATION None 0),
        counted self);
     execute_brain_remember := fun key value self =>
       (Py.ret (mkResult "brain_remember" true OtherData 0.95 elapsed SYNTHESIS None 0),
        counted self);
     execute_sequential_thinking := fun thought self =>
       let mock_data :=
         FinalAnswer (StrAnswer ("Sequential analysis of " +:+ Py.take 30 thought)) in
       (Py.ret (mkResult "sequential_thinking" true mock_data 0.76 elapsed ORCHESTRATION None 0),
        counted self);
     execute_reasoning_tools := fun problem self =>
       (Py.ret (mkResult "reasoning_tools" true OtherData 0.84 elapsed CONVERGENCE None 0),
        counted self) |}.

(** *** [ComplexityAnalyzer] *)

Definition complexity_patterns : gmap string (list string) :=
  list_to_map
    [ ("expert",
       [ "consciousness"; "emergent"; "recursive"; "bootstrap"; "agi";
         "superintelligence"; "singularity"; "self-modification" ]);
      ("complex",
       [ "design system"; "architecture"; "framework"; "multi-step";
         "systematic approach"; "hierarchical"; "feedback loop" ]);
      ("medium",
       [ "compare"; "contrast"; "analyze"; "evaluate"; "relationship";
         "trade-offs"; "pros and cons"; "differences" ]);
      ("simple",
       [ "what is"; "define"; "explain"; "basic"; "fundamental";
         "how to"; "list of"; "tell me about" ]) ].

(** The [for complexity_level in [...]] loop of [assess]. *)
Fixpoint assess_loop (levels : list string) (query_lower : string) : Py.exc string :=
  match levels with
  | [] => Py.ret "medium"
  | complexity_level :: rest =>
      let* patterns := Py.getitem complexity_patterns complexity_level in
      if existsb (fun pattern => Py.contains pattern query_lower) patterns
      then Py.ret complexity_level
      else assess_loop rest query_lower
  end.

(** [ComplexityAnalyzer.assess]. *)
Definition assess (query : string) : Py.exc string :=
  let query_lower := Py.lower query in
  assess_loop ["expert"; "complex"; "medium"; "simple"] query_lower.

(** *** [PatternOrchestrator] *)

Definition execution_patterns : gmap string (list string) :=
  list_to_map
    [ ("simple", [ "brain_recall" ]);
      ("medium", [ "brain_recall"; "web_search"; "brain_remember" ]);
      ("complex", [ "brain_recall"; "sequential_thinking"; "web_search";
                    "reasoning_tools"; "brain_remember" ]);
      ("expert", [ "brain_recall"; "sequential_thinking"; "web_search";
                   "reasoning_tools"; "brain_remember"; "brain_recall" ]) ].

(** [PatternOrchestrator.get_pattern]. *)
Definition get_pattern (complexity : string) : Py.exc (list string) :=
  let* dflt := Py.getitem execution_patterns "medium" in
  Py.ret (Py.get execution_patterns complexity dflt).

(** *** [ConvergenceAnalyzer] *)

(** The text under ['reason']; the formatted floats are kept as numbers. *)
Inductive Reason : Type :=
| NoResultsToAnalyze
| ConvergenceAchieved
| LowConfidence (avg_confidence convergence_threshold : R).

(** The dict returned by [analyze] or built by the handler of [execute]:
    a key that is absent is [None]. *)
Record ConvergenceData : Type := mkConvergenceData
  { converged : bool;
    reason : option Reason;
    success_rate : option R;
    average_confidence : option R;
    total_execution_time : option R;
    successful_tools : option nat;
    failed_tools : option nat;
    error : option string }.

(** [convergence_data[key]] for an optional key. *)
Definition subscript {V} (key : string) (field : option V) : Py.exc V :=
  match field with
  | Some v => Py.ret v
  | None => Py.raise (Py.KeyError key)
  end.

(** [ConvergenceAnalyzer.analyze]. *)
Definition analyze (convergence_threshold : R)
           (mcp_results : list MCPExecutionResult) : ConvergenceData :=
  match mcp_results with
  | [] => mkConvergenceData false (Some NoResultsToAnalyze)
                            None None None None None None
  | _ =>
      let success_rate :=
        INR (length (List.filter success mcp_results)) / INR (length mcp_results) in
      let successful_results := List.filter success mcp_results in
      let avg_confidence :=
        Py.sum (map confidence successful_results)
        / INR (Nat.max (length successful_results) 1) in
      let total_time := Py.sum (map execution_time mcp_results) in
      let converged :=
        Py.Rleb 0.8 success_rate && Py.Rleb convergence_threshold avg_confidence in
      mkConvergenceData
        converged
        (Some (if converged then ConvergenceAchieved
               else LowConfidence avg_confidence convergence_threshold))
        (Some success_rate) (Some avg_confidence) (Some total_time)
        (Some (length successful_results))
        (Some (length mcp_results - length successful_results)%nat)
        None
  end.

(** *** [InsightGenerator] *)

(** The insight lines; formatted values are kept as data and
    [', '.join(set(...))] as the set. *)
Inductive Insight : Type :=
| QueryProcessed (success_rate : R)
| HighConfidence (average_confidence : R)
| EffectiveTools (tools : gset string)
| NotAchieved (reason : Reason)
| FailedTools (tools : gset string)
| LongExecution (total_execution_time : R)
| ExecutionFailed (error_msg : string).

(** [InsightGenerator.generate]. *)
Definition generate (query : string) (mcp_results : list MCPExecutionResult)
           (convergence_data : ConvergenceData)
  : Py.exc (list Insight * list string) :=
  let successful_tools := map tool_name (List.filter success mcp_results) in
  let failed_tools := map tool_name (List.filter (fun r => negb (success r)) mcp_results) in
  let* first :=
    if converged convergence_data then
      let* sr := subscript "success_rate" (success_rate convergence_data) in
      let* avg := subscript "average_confidence" (average_confidence convergence_data) in
      Py.ret
        ([QueryProcessed sr; HighConfidence avg]
         ++ match successful_tools with
            | [] => []
            | _ => [EffectiveTools (list_to_set successful_tools)]
            end,
         ["Review synthesis results for actionable insights";
          "Consider expanding analysis to related areas"])
    else
      let* why := subscript "reason" (reason convergence_data) in
      Py.ret
        ([NotAchieved why]
         ++ match failed_tools with
            | [] => []
            | _ => [FailedTools (list_to_set failed_tools)]
            end,
         match failed_tools with
         | [] => []
         | _ => ["Debug failed tool executions";
                 "Consider alternative tool combinations"]
         end
         ++ ["Retry with adjusted parameters";
             "Investigate root causes of low confidence"]) in
  let '(insights, next_actions) := first in
  let* total := subscript "total_execution_time" (total_execution_time convergence_data) in
  if Py.Rltb 10 total
  then Py.ret (insights ++ [LongExecution total],
               next_actions ++ ["Optimize tool selection for better performance"])
  else Py.ret (insights, next_actions).

(** *** [AutomatedExecutionEngine] *)

Record HRMExecutionResult : Type := mkHRMResult
  { res_query : string;
    res_complexity : string;
    res_pattern : list string;
    res_mcp_results : list MCPExecutionResult;
    res_convergence_data : ConvergenceData;
    res_total_execution_time : R;
    res_success : bool;
    res_insights : list Insight;
    res_next_actions : list string }.

(** An entry of [self.execution_history]. *)
Record HistoryEntry : Type := mkHistoryEntry
  { h_timestamp : R;
    h_query : string;
    h_complexity : string;
    h_success : bool;
    h_execution_time : R }.

Section AutomatedExecutionEngine.

Context {St : Type}.
Variable iface : ToolInterface St.

(** The engine object: [mcp_interface] is the state of the interface
    object, whose methods are [iface]; a [max_retries] below zero
    behaves as zero, since [range] is then empty. *)
Record AutomatedExecutionEngine : Type := mkEngine
  { mcp_interface : St;
    max_retries : nat;
    convergence_threshold : R;
    execution_history : list HistoryEntry }.

(** The [if]/[elif] chain that routes a tool name to its method. *)
Definition route (self : AutomatedExecutionEngine)
           (tool_name query context : string) (st : St)
  : Py.exc MCPExecutionResult * St :=
  if String.eqb tool_name "brain_recall" then
    execute_brain_recall iface context st
  else if String.eqb tool_name "web_search" then
    execute_web_search iface context st
  else if String.eqb tool_name "brain_remember" then
    let synthesis_key :=
      "hrm_synthesis_" +:+ Py.str_of_nat (length (execution_history self))
      +:+ "_" +:+ tool_name in
    let synthesis_content :=
      "HRM synthesis for: " +:+ query +:+ " | Context: " +:+ Py.take 200 context in
    execute_brain_remember iface synthesis_key synthesis_content st
  else if String.eqb tool_name "sequential_thinking" then
    execute_sequential_thinking iface context st
  else if String.eqb tool_name "reasoning_tools" then
    execute_reasoning_tools iface context st
  else
    execute_brain_recall iface context st.

(** [f"{final_answer[:100]}"]. *)
Definition excerpt_of (final_answer : Answer) : Py.exc string :=
  match final_answer with
  | StrAnswer s => Py.ret (Py.take 100 s)
  | OtherAnswer excerpt => excerpt
  end.

(** The context update after a successful step; it raises when the
    excerpt of the final answer cannot be taken or the dict cannot be
    rendered. *)
Definition chain_context (context : string) (d : Data) : Py.exc string :=
  match d with
  | FinalAnswer final_answer =>
      let* excerpt := excerpt_of final_answer in
      Py.ret (context +:+ " | " +:+ excerpt)
  | SearchData str_of_data =>
      let* rendering := str_of_data in
      Py.ret (context +:+ " | Search: " +:+ Py.take 100 rendering)
  | NoData | OtherData => Py.ret context
  end.

(** The record appended when the last attempt raises, in the tool call or
    in the context update that follows a successful call. *)
Definition error_result (tool_name : string) (e : Py.PyError) (attempt : nat)
  : MCPExecutionResult :=
  mkResult tool_name false NoData 0.0 0.0 ORCHESTRATION
           (Some (Py.str_of_error e)) attempt.

(** The loop [for attempt in range(self.max_retries)] for one tool:
    [remaining] iterations are left and the next one has index
    [attempt].  [break] ends the loop; after an append on the last
    attempt the loop runs out by itself.  The sleep between attempts
    only passes time.  The context update stands inside the [try], after
    [results.append(result)]: when it raises, the successful record is
    already kept, the handler runs as for a failed call, and the loop goes
    on with the next attempt.  Every call of a tool returns a new result
    object, on which [retry_count] is set. *)
Fixpoint retry_loop (self : AutomatedExecutionEngine) (tool_name query : string)
         (remaining attempt : nat)
         (results : list MCPExecutionResult) (context : string) (st : St)
  : list MCPExecutionResult * string * St :=
  match remaining with
  | O => (results, context, st)
  | S remaining' =>
      match route self tool_name query context st with
      | (inr result, st') =>
          let result := set_retry_count result attempt in
          if success result then
            let results := results ++ [result] in
            match chain_context context (data result) with
            | inr context => (results, context, st')
            | inl e =>
                if (attempt =? max_retries self - 1)%nat then
                  retry_loop self tool_name query remaining' (S attempt)
                             (results ++ [error_result tool_name e attempt])
                             context st'
                else
                  retry_loop self tool_name query remaining' (S attempt)
                             results context st'
            end
          else if (attempt =? max_retries self - 1)%nat then
            retry_loop self tool_name query remaining' (S attempt)
                       (results ++ [result]) context st'
          else
            retry_loop self tool_name query remaining' (S attempt)
                       results context st'
      | (inl e, st') =>
          if (attempt =? max_retries self - 1)%nat then
            retry_loop self tool_name query remaining' (S attempt)
                       (results ++ [error_result tool_name e attempt]) context st'
          else
            retry_loop self tool_name query remaining' (S attempt)
                       results context st'
      end
  end.

(** The loop [for tool_name in pattern]. *)
Fixpoint pattern_loop (self : AutomatedExecutionEngine) (pattern : list string)
         (query : string)
         (results : list MCPExecutionResult) (context : string) (st : St)
  : list MCPExecutionResult * St :=
  match pattern with
  | [] => (results, st)
  | tool_name :: rest =>
      let '(results', context', st') :=
        retry_loop self tool_name query (max_retries self) 0 results context st in
      pattern_loop self rest query results' context' st'
  end.

(** [AutomatedExecutionEngine._execute_pattern_with_retries]. *)
Definition _execute_pattern_with_retries (self : AutomatedExecutionEngine)
           (pattern : list string) (query : string)
  : list MCPExecutionResult * St :=
  let results := [] in
  let context := query in
  pattern_loop self pattern query results context (mcp_interface self).

Definition with_interface (self : AutomatedExecutionEngine) (st : St)
  : AutomatedExecutionEngine :=
  mkEngine st (max_retries self) (convergence_threshold self)
           (execution_history self).

Definition with_history (self : AutomatedExecutionEngine) (h : HistoryEntry)
  : AutomatedExecutionEngine :=
  mkEngine (mcp_interface self) (max_retries self) (convergence_threshold self)
           (execution_history self ++ [h]).

(** The result built by the [except Exception] handler of [execute]. *)
Definition failed_execution (query : string) (e : Py.PyError) (elapsed : R)
  : HRMExecutionResult :=
  let error_msg := "HRM execution failed: " +:+ Py.str_of_error e in
  mkHRMResult query "unknown" [] []
              (mkConvergenceData false None None None None None None (Some error_msg))
              elapsed false
              [ExecutionFailed error_msg]
              ["Debug execution error"; "Retry with different approach"].

(** [AutomatedExecutionEngine.execute].  [elapsed] is the measured
    [time.time() - start_time] and [timestamp] the [time.time()] of the
    history entry.  Whatever the tools did to the interface before an
    exception stays done. *)
Definition execute (self : AutomatedExecutionEngine) (query : string)
           (elapsed timestamp : R)
  : HRMExecutionResult * AutomatedExecutionEngine :=
  match assess query with
  | inl e => (failed_execution query e elapsed, self)
  | inr complexity =>
      match get_pattern complexity with
      | inl e => (failed_execution query e elapsed, self)
      | inr pattern =>
          let '(mcp_results, st) :=
            _execute_pattern_with_retries self pattern query in
          let self := with_interface self st in
          let convergence_data :=
            analyze (convergence_threshold self) mcp_results in
          match generate query mcp_results convergence_data with
          | inl e => (failed_execution query e elapsed, self)
          | inr (insights, next_actions) =>
              let result :=
                mkHRMResult query complexity pattern mcp_results
                            convergence_data elapsed
                            (forallb success mcp_results)
                            insights next_actions in
              (result,
               with_history self
                 (mkHistoryEntry timestamp query complexity
                                 (res_success result)
                                 (res_total_execution_time result)))
          end
      end
  end.

End AutomatedExecutionEngine.





End Engine.

(** ** [hrm_advanced_convergence.py] *)

Module Convergence.

Inductive ConvergenceStrategy : Type :=
| CONFIDENCE_THRESHOLD
| DIMINISHING_RETURNS
| CONSENSUS_VALIDATION
| ADAPTIVE_LEARNING.

(** [strategy.value]. *)
Definition value (s : ConvergenceStrategy) : string :=
  match s with
  | CONFIDENCE_THRESHOLD => "confidence_threshold"
  | DIMINISHING_RETURNS => "diminishing_returns"
  | CONSENSUS_VALIDATION => "consensus_validation"
  | ADAPTIVE_LEARNING => "adaptive_learning"
  end.

(** An element of [mcp_results] as the analyzer reads it.  The list is
    not typed and the code tests with [hasattr] what it reads, so each of
    the three attributes is there or not ([None]); [type_name] is the name
    of the object's class, which the message of an [AttributeError]
    shows.  The module's [MockResult] and [MCPExecutionResult] have all
    three. *)
Record Result : Type := mkResult
  { type_name : string;
    tool_name : option string;
    success : option bool;
    confidence : option R }.

(** [r.success], read without a test. *)
Definition get_success (r : Result) : Py.exc bool :=
  match success r with
  | Some b => Py.ret b
  | None => Py.raise (Py.no_attribute (type_name r) "success")
  end.

(** [hasattr(r, 'success') and r.success]. *)
Definition succeeded (r : Result) : bool :=
  match success r with
  | Some b => b
  | None => false
  end.

(** [[r.confidence for r in results if hasattr(r, 'confidence') and r.success]]:
    the success flag of a result that has a confidence is read without a
    test. *)
Fixpoint confidences_of (results : list Result) : Py.exc (list R) :=
  match results with
  | [] => Py.ret []
  | r :: rest =>
      let* here :=
        match confidence r with
        | None => Py.ret []
        | Some c =>
            let* ok := get_success r in
            Py.ret (if ok then [c] else [])
        end in
      let* others := confidences_of rest in
      Py.ret (here ++ others)
  end.

(** The ['metrics'] entry of a strategy's dict, when there is one. *)
Inductive Metrics : Type :=
| NoMetrics
| ThresholdMetrics (avg_confidence threshold success_rate stability : R)
| ReturnsMetrics (information_gains : list R) (average_gain : R)
                 (recent_trend : list R)
| ConsensusMetrics (tool_consensus : list (string * R))
                   (overall_consensus stability : R)
| AdaptiveMetrics (current_confidence historical_avg performance_delta
                   adaptive_threshold : R) (executions : nat).

(** The ['reason'] entry: a fixed text, or the values that are formatted
    into it. *)
Inductive Reason : Type :=
| Text (s : string)
| ThresholdReason (avg_confidence threshold success_rate stability : R)
| ReturnsReason (recent_trend : list R) (avg_gain : R)
| ConsensusReason (overall_consensus stability : R)
| AdaptiveReason (adaptive_threshold performance_delta : R).

(** The dict returned by each of the four strategies. *)
Record Analysis : Type := mkAnalysis
  { converged : bool;
    strategy : ConvergenceStrategy;
    score : R;
    metrics : Metrics;
    reason : Reason }.

(** The dict built by [_create_convergence_result]. *)
Record StandardResult : Type := mkStandard
  { s_converged : bool;
    s_confidence : R;
    s_reason : string;
    s_strategy : string;
    s_recommendation : string }.

(** The dict built at the end of [_combine_convergence_strategies]; its
    ['reason'] formats [convergence_votes] and [primary_strategy]. *)
Record CombinedResult : Type := mkCombined
  { c_converged : bool;
    combined_score : R;
    convergence_votes : R;
    primary_strategy : string;
    strategy_details : gmap string Analysis;
    c_confidence : R;
    c_recommendation : string }.

Inductive ConvergenceResult : Type :=
| Standard (r : StandardResult)
| Combined (r : CombinedResult).

(** An entry of [self.pattern_performance]. *)
Record Performance : Type := mkPerformance
  { executions : nat;
    avg_confidence : R;
    success_rate : R;
    confidence_history : list R }.

(** An entry of [self.convergence_history]. *)
Record HistoryEntry : Type := mkHistoryEntry
  { h_pattern : list string;
    h_complexity : string;
    h_convergence_result : ConvergenceResult;
    h_timestamp : string }.

Record AdvancedConvergenceAnalyzer : Type := mkAnalyzer
  { base_threshold : R;
    convergence_history : list HistoryEntry;
    pattern_performance : gmap string Performance }.

(** [_create_convergence_result]. *)
Definition _create_convergence_result (converged : bool) (reason : string)
           (strategy : ConvergenceStrategy) : StandardResult :=
  mkStandard converged 0.0 reason (value strategy)
    "System needs attention - review input data and tool configuration".

Definition complexity_thresholds : gmap string R :=
  list_to_map
    [ ("simple", 0.65); ("medium", 0.75); ("complex", 0.80); ("expert", 0.85) ].

(** [_analyze_confidence_threshold]. *)
Definition _analyze_confidence_threshold (self : AdvancedConvergenceAnalyzer)
           (confidences : list R) (success_rate : R) (complexity : string)
  : Py.exc Analysis :=
  let threshold := Py.get complexity_thresholds complexity (base_threshold self) in
  let* avg_confidence := Py.mean confidences in
  let* confidence_std :=
    if (1 <? length confidences)%nat then Py.stdev confidences else Py.ret 0 in
  let* confidence_stability :=
    if Py.Rltb 0 avg_confidence then
      let* ratio := Py.truediv confidence_std avg_confidence in
      Py.ret (1.0 - Rmin ratio 1.0)
    else Py.ret 0 in
  let converged :=
    Py.Rleb threshold avg_confidence
    && Py.Rleb 0.8 success_rate
    && Py.Rleb 0.7 confidence_stability in
  Py.ret
    (mkAnalysis converged CONFIDENCE_THRESHOLD
       (avg_confidence * success_rate * confidence_stability)
       (ThresholdMetrics avg_confidence threshold success_rate confidence_stability)
       (ThresholdReason avg_confidence threshold success_rate confidence_stability)).

(** The loop [for i in range(1, len(confidences))] that collects the
    gains. *)
Fixpoint gains_of (confidences : list R) : list R :=
  match confidences with
  | previous :: (current :: _) as rest =>
      Rmax 0 (current - previous) :: gains_of rest
  | _ => []
  end.

(** [_analyze_diminishing_returns]. *)
Definition _analyze_diminishing_returns (confidences : list R)
           (mcp_results : list Result) : Py.exc Analysis :=
  if (length confidences <? 3)%nat then
    Py.ret (mkAnalysis false DIMINISHING_RETURNS 0.0 NoMetrics
              (Text "Insufficient data for diminishing returns analysis"))
  else
    let gains := gains_of confidences in
    if (2 <=? length gains)%nat then
      let recent_trend := Py.last_n 2 gains in
      let diminishing := forallb (fun g => Py.Rleb g 0.05) recent_trend in
      let* avg_gain := Py.mean gains in
      let converged := diminishing && Py.Rltb avg_gain 0.1 in
      Py.ret (mkAnalysis converged DIMINISHING_RETURNS
                (if converged then 1.0 - avg_gain else avg_gain)
                (ReturnsMetrics gains avg_gain recent_trend)
                (ReturnsReason recent_trend avg_gain))
    else
      Py.ret (mkAnalysis false DIMINISHING_RETURNS 0.5 NoMetrics
                (Text "Insufficient trend data")).

(** [tool_results[tool_name].append(result)], creating the list first when
    the key is new; the dict keeps insertion order. *)
Fixpoint group_add (tool_results : list (string * list Result))
         (name : string) (result : Result) : list (string * list Result) :=
  match tool_results with
  | [] => [(name, [result])]
  | (k, rs) :: rest =>
      if String.eqb k name then (k, rs ++ [result]) :: rest
      else (k, rs) :: group_add rest name result
  end.

(** [result.tool_name if hasattr(result, 'tool_name') else pattern[i] if
    i < len(pattern) else 'unknown']. *)
Definition name_of (pattern : list string) (i : nat) (result : Result) : string :=
  match tool_name result with
  | Some name => name
  | None => nth i pattern "unknown"
  end.

(** The loop [for i, result in enumerate(mcp_results)] from index [i] on. *)
Fixpoint group_loop (pattern : list string) (i : nat) (mcp_results : list Result)
         (tool_results : list (string * list Result))
  : list (string * list Result) :=
  match mcp_results with
  | [] => tool_results
  | result :: rest =>
      group_loop pattern (S i) rest
                 (group_add tool_results (name_of pattern i result) result)
  end.

(** The loop over [tool_results.items()] that collects the per-tool means. *)
Fixpoint consensus_of (tool_results : list (string * list Result))
  : Py.exc (list R) :=
  match tool_results with
  | [] => Py.ret []
  | (_, results) :: rest =>
      let* here :=
        if (1 <=? length results)%nat then
          let* confidences := confidences_of results in
          match confidences with
          | [] => Py.ret []
          | _ => let* tool_consensus := Py.mean confidences in
                 Py.ret [tool_consensus]
          end
        else Py.ret [] in
      let* others := consensus_of rest in
      Py.ret (here ++ others)
  end.

(** [not pattern] for an argument that defaults to [None]. *)
Definition no_pattern (pattern : option (list string)) : bool :=
  match pattern with
  | None | Some [] => true
  | Some (_ :: _) => false
  end.

(** [_analyze_consensus_validation]. *)
Definition _analyze_consensus_validation (mcp_results : list Result)
           (pattern : option (list string)) : Py.exc Analysis :=
  if no_pattern pattern || (length mcp_results <? 2)%nat then
    Py.ret (mkAnalysis false CONSENSUS_VALIDATION 0.0 NoMetrics
              (Text "Insufficient results for consensus validation"))
  else
    let tool_results :=
      group_loop (match pattern with Some p => p | None => [] end)
                 0 mcp_results [] in
    let* consensus_scores := consensus_of tool_results in
    match consensus_scores with
    | [] =>
        Py.ret (mkAnalysis false CONSENSUS_VALIDATION 0.0 NoMetrics
                  (Text "No valid consensus data"))
    | _ =>
        let* overall_consensus := Py.mean consensus_scores in
        let* consensus_stability :=
          if (1 <? length consensus_scores)%nat && Py.Rltb 0 overall_consensus then
            let* sd := Py.stdev consensus_scores in
            let* ratio := Py.truediv sd overall_consensus in
            Py.ret (1.0 - ratio)
          else Py.ret 1.0 in
        let converged :=
          Py.Rleb 0.75 overall_consensus && Py.Rleb 0.8 consensus_stability in
        Py.ret (mkAnalysis converged CONSENSUS_VALIDATION
                  (overall_consensus * consensus_stability)
                  (ConsensusMetrics
                     (combine (map fst tool_results) consensus_scores)
                     overall_consensus consensus_stability)
                  (ConsensusReason overall_consensus consensus_stability))
    end.

(** [f"{complexity}:{'-'.join(pattern)}"]. *)
Definition pattern_key (complexity : string) (pattern : list string) : string :=
  complexity +:+ ":" +:+ Py.join "-" pattern.

(** The tracking entry of a pattern that was never seen. *)
Definition fresh : Performance := mkPerformance 0 0.0 0.0 [].

(** [if pattern_key not in self.pattern_performance: ... = {...}]. *)
Definition track (self : AdvancedConvergenceAnalyzer) (key : string)
  : AdvancedConvergenceAnalyzer :=
  match pattern_performance self !! key with
  | Some _ => self
  | None =>
      mkAnalyzer (base_threshold self) (convergence_history self)
                 (<[key := fresh]> (pattern_performance self))
  end.

(** [_analyze_adaptive_learning]; the entry it may add to
    [self.pattern_performance] is there whatever happens next. *)
Definition _analyze_adaptive_learning (self : AdvancedConvergenceAnalyzer)
           (confidences : list R) (pattern : option (list string))
           (complexity : string)
  : Py.exc Analysis * AdvancedConvergenceAnalyzer :=
  match pattern with
  | None | Some [] =>
      (Py.ret (mkAnalysis false ADAPTIVE_LEARNING 0.0 NoMetrics
                 (Text "No pattern specified for learning")),
       self)
  | Some pattern =>
      let key := pattern_key complexity pattern in
      let self := track self key in
      (let* current_confidence := Py.mean confidences in
       let* historical_data := Py.getitem (pattern_performance self) key in
       if (0 <? executions historical_data)%nat then
         let performance_delta :=
           current_confidence - avg_confidence historical_data in
         let adaptive_threshold :=
           Rmin 0.9 (avg_confidence historical_data + 0.1) in
         let converged := Py.Rleb adaptive_threshold current_confidence in
         let* ratio := Py.truediv current_confidence adaptive_threshold in
         Py.ret (mkAnalysis converged ADAPTIVE_LEARNING ratio
                   (AdaptiveMetrics current_confidence
                      (avg_confidence historical_data) performance_delta
                      adaptive_threshold (executions historical_data))
                   (AdaptiveReason adaptive_threshold performance_delta))
       else
         Py.ret (mkAnalysis (Py.Rleb (base_threshold self) current_confidence)
                   ADAPTIVE_LEARNING current_confidence NoMetrics
                   (Text "First execution for this pattern - using base threshold")),
       self)
  end.

(** [_generate_convergence_recommendation]. *)
Definition _generate_convergence_recommendation (converged : bool) (score : R)
           (strategies : gmap string Analysis) : string :=
  if converged then
    if Py.Rleb 0.9 score then
      "Excellent convergence achieved - consider reducing future pattern complexity for efficiency"
    else if Py.Rleb 0.8 score then
      "Good convergence achieved - pattern is well-optimized"
    else
      "Convergence achieved but with room for improvement - consider pattern refinement"
  else
    if Py.Rleb 0.6 score then
      "Near convergence - one additional iteration may achieve convergence"
    else if Py.Rleb 0.4 score then
      "Moderate progress - continue with current pattern or consider tool adjustment"
    else
      "Low convergence - consider alternative reasoning pattern or tool selection".

(** The dict [weights]; its default 0.1 is never used, every member of
    the enumeration being a key. *)
Definition weights (s : ConvergenceStrategy) : R :=
  match s with
  | CONFIDENCE_THRESHOLD => 0.4
  | DIMINISHING_RETURNS => 0.2
  | CONSENSUS_VALIDATION => 0.25
  | ADAPTIVE_LEARNING => 0.15
  end.

(** One turn of the loop [for strategy in valid_strategies], on the
    triple [(weighted_scores, convergence_votes, strategy_details)]. *)
Definition combine_step (acc : list R * R * gmap string Analysis)
           (strategy_ : Analysis) : list R * R * gmap string Analysis :=
  let '(weighted_scores, convergence_votes, strategy_details) := acc in
  let strategy_type := strategy strategy_ in
  let weight := weights strategy_type in
  let score_ := score strategy_ in
  (weighted_scores ++ [score_ * weight],
   if converged strategy_ then convergence_votes + weight else convergence_votes,
   <[value strategy_type := strategy_]> strategy_details).

(** [_combine_convergence_strategies]. *)
Definition _combine_convergence_strategies
           (confidence_analysis returns_analysis consensus_analysis
            adaptive_analysis : Analysis) : ConvergenceResult :=
  let strategies :=
    [confidence_analysis; returns_analysis; consensus_analysis; adaptive_analysis] in
  let valid_strategies := List.filter (fun s => Py.Rltb 0 (score s)) strategies in
  match valid_strategies with
  | [] =>
      Standard (_create_convergence_result false "No valid convergence strategies"
                                           CONFIDENCE_THRESHOLD)
  | first :: others =>
      let '(weighted_scores, convergence_votes, strategy_details) :=
        fold_left combine_step valid_strategies ([], 0, ∅) in
      let combined_score := Py.sum weighted_scores in
      let converged := Py.Rleb 0.5 convergence_votes in
      let primary_strategy := Py.max_by score first others in
      Combined
        (mkCombined converged combined_score convergence_votes
           (value (strategy primary_strategy))
           strategy_details combined_score
           (_generate_convergence_recommendation converged combined_score
                                                 strategy_details))
  end.

(** [_update_convergence_history]. *)
Definition _update_convergence_history (self : AdvancedConvergenceAnalyzer)
           (convergence_result : ConvergenceResult)
           (pattern : option (list string)) (complexity : string)
           (confidences : list R)
  : Py.exc unit * AdvancedConvergenceAnalyzer :=
  match pattern with
  | None | Some [] => (Py.ret tt, self)
  | Some pattern =>
      let key := pattern_key complexity pattern in
      let self := track self key in
      match Py.getitem (pattern_performance self) key with
      | inl e => (inl e, self)
      | inr perf_data =>
          match Py.mean confidences with
          | inl e => (inl e, self)
          | inr current_avg =>
              let history := confidence_history perf_data ++ [current_avg] in
              let store avg history :=
                <[key := mkPerformance (S (executions perf_data)) avg
                                       (success_rate perf_data) history]>
                  (pattern_performance self) in
              match Py.mean history with
              | inl e =>
                  (inl e,
                   mkAnalyzer (base_threshold self) (convergence_history self)
                              (store (avg_confidence perf_data) history))
              | inr avg =>
                  let history :=
                    if (50 <? length history)%nat then Py.last_n 50 history
                    else history in
                  let log :=
                    convergence_history self
                    ++ [mkHistoryEntry pattern complexity convergence_result
                                       "2025-08-04T04:45:00Z"] in
                  let log :=
                    if (100 <? length log)%nat then Py.last_n 100 log else log in
                  (Py.ret tt,
                   mkAnalyzer (base_threshold self) log (store avg history))
              end
          end
      end
  end.

(** [analyze_convergence]. *)
Definition analyze_convergence (self : AdvancedConvergenceAnalyzer)
           (mcp_results : list Result) (iteration : nat) (complexity : string)
           (pattern : option (list string))
  : Py.exc ConvergenceResult * AdvancedConvergenceAnalyzer :=
  match mcp_results with
  | [] =>
      (Py.ret (Standard (_create_convergence_result false "No results to analyze"
                                                    CONFIDENCE_THRESHOLD)),
       self)
  | _ =>
      match confidences_of mcp_results with
      | inl e => (inl e, self)
      | inr confidences =>
      let success_rate :=
        INR (length (List.filter succeeded mcp_results)) / INR (length mcp_results) in
      match confidences with
      | [] =>
          (Py.ret (Standard (_create_convergence_result false
                               "No successful results with confidence"
                               CONFIDENCE_THRESHOLD)),
           self)
      | _ =>
          match _analyze_confidence_threshold self confidences success_rate complexity with
          | inl e => (inl e, self)
          | inr confidence_analysis =>
          match _analyze_diminishing_returns confidences mcp_results with
          | inl e => (inl e, self)
          | inr returns_analysis =>
          match _analyze_consensus_validation mcp_results pattern with
          | inl e => (inl e, self)
          | inr consensus_analysis =>
          match _analyze_adaptive_learning self confidences pattern complexity with
          | (inl e, self) => (inl e, self)
          | (inr adaptive_analysis, self) =>
              let final_convergence :=
                _combine_convergence_strategies
                  confidence_analysis returns_analysis consensus_analysis
                  adaptive_analysis in
              match _update_convergence_history self final_convergence pattern
                                                complexity confidences with
              | (inl e, self) => (inl e, self)
              | (inr _, self) => (Py.ret final_convergence, self)
              end
          end end end end
      end
      end
  end.

End Convergence.

(** ** Specification-side notions *)

Module Spec.

(** The tier chosen by a priority scan Expert, Complex, Medium, Simple
    with Medium as the default, for a given notion of "the pattern set of
    this tier matches". *)
Definition first_matching_tier (tier_matches : string -> bool) : string :=
  if tier_matches "expert" then "expert"
  else if tier_matches "complex" then "complex"
  else if tier_matches "medium" then "medium"
  else if tier_matches "simple" then "simple"
  else "medium".

(** A keyword of the tier occurs in the lower-cased query. *)
Definition keyword_match (query tier : string) : bool :=
  existsb (fun kw => Py.contains kw (Py.lower query))
          (Py.get Engine.complexity_patterns tier []).

(** A regular expression of the tier is found in the query. *)
Definition regex_match (query tier : string) : bool :=
  existsb (fun r => Py.search r query) (Py.get Core.patterns tier []).

(** Neighbouring levels differ. *)
Fixpoint alternating (levels : list Core.Level) : bool :=
  match levels with
  | a :: (b :: _) as rest =>
      match a, b with
      | Core.HIGH, Core.LOW | Core.LOW, Core.HIGH => alternating rest
      | _, _ => false
      end
  | _ => true
  end.

Definition known_tier (tier : string) : Prop :=
  tier = "simple" \/ tier = "medium" \/ tier = "complex" \/ tier = "expert".

(** The record [r] is what the orchestrator keeps of a call of the tool
    routed for [tool]: the result the call returned, stamped with the
    attempt index, or the error record built from the exception that the
    call raised, or the error record built from the exception that the
    context update raised after a successful call. *)
Definition produced_by {St} (iface : Engine.ToolInterface St)
           (self : Engine.AutomatedExecutionEngine) (query tool : string)
           (r : Engine.MCPExecutionResult) : Prop :=
  (exists context st st' result,
      Engine.route iface self tool query context st = (inr result, st')
      /\ r = Engine.set_retry_count result (Engine.retry_count r))
  \/ (exists context st st' e,
         Engine.route iface self tool query context st = (inl e, st')
         /\ r = Engine.error_result tool e (Engine.retry_count r))
  \/ (exists context st st' result e,
         Engine.route iface self tool query context st = (inr result, st')
         /\ Engine.success result = true
         /\ Engine.chain_context context (Engine.data result) = inl e
         /\ r = Engine.error_result tool e (Engine.retry_count r)).

(** The record [r] of a failure of the step for [tool]: it carries the
    index of the last attempt and is either the failed result that the
    tool returned at that attempt, as the tool made it, or the record that
    the engine makes of the exception of that attempt, with no data,
    confidence 0.0, time 0.0 and the text of the exception. *)
Definition failure_of {St} (iface : Engine.ToolInterface St)
           (self : Engine.AutomatedExecutionEngine) (query tool : string)
           (r : Engine.MCPExecutionResult) : Prop :=
  Engine.retry_count r = (Engine.max_retries self - 1)%nat
  /\ ((exists context st st' result,
         Engine.route iface self tool query context st = (inr result, st')
         /\ Engine.success result = false
         /\ Engine.tool_name r = Engine.tool_name result
         /\ Engine.confidence r = Engine.confidence result
         /\ Engine.data r = Engine.data result
         /\ Engine.error_message r = Engine.error_message result)
      \/ (exists e,
            r = Engine.mkResult tool false Engine.NoData 0.0 0.0
                                Engine.ORCHESTRATION (Some (Py.str_of_error e))
                                (Engine.max_retries self - 1))).

(** What holds of a record kept for a step of the pattern. *)
Definition record_ok {St} (iface : Engine.ToolInterface St)
           (self : Engine.AutomatedExecutionEngine) (query tool : string)
           (r : Engine.MCPExecutionResult) : Prop :=
  produced_by iface self query tool r
  /\ (Engine.retry_count r < Engine.max_retries self)%nat
  /\ (Engine.success r = false -> failure_of iface self query tool r).

(** The records kept for one step of the pattern: at least one, each of
    them a record of that step. *)
Definition step_records {St} (iface : Engine.ToolInterface St)
           (self : Engine.AutomatedExecutionEngine) (query tool : string)
           (records : list Engine.MCPExecutionResult) : Prop :=
  records <> [] /\ Forall (record_ok iface self query tool) records.

(** No context update raises: of every successful result that a tool
    returns, the excerpt for the context can be taken. *)
Definition context_updates_succeed {St} (iface : Engine.ToolInterface St)
           (self : Engine.AutomatedExecutionEngine) (query : string) : Prop :=
  forall tool context st result st',
    Engine.route iface self tool query context st = (inr result, st') ->
    Engine.success result = true ->
    exists context', Engine.chain_context context (Engine.data result) = inr context'.

(** Every call of the interface fails: it raises, or it returns a result
    that is not a success. *)
Definition always_fails {St} (iface : Engine.ToolInterface St)
           (self : Engine.AutomatedExecutionEngine) (query : string) : Prop :=
  forall tool context st,
    match fst (Engine.route iface self tool query context st) with
    | inl _ => True
    | inr result => Engine.success result = false
    end.

(** A run that went through: a verdict with its measurements, for one of
    the four tiers. *)
Definition completed (r : Engine.HRMExecutionResult) : Prop :=
  Engine.error (Engine.res_convergence_data r) = None
  /\ known_tier (Engine.res_complexity r)
  /\ Engine.success_rate (Engine.res_convergence_data r) <> None
  /\ Engine.average_confidence (Engine.res_convergence_data r) <> None.

(** The result that reports an error of the run itself. *)
Definition failed (r : Engine.HRMExecutionResult) : Prop :=
  (exists msg, Engine.error (Engine.res_convergence_data r) = Some msg)
  /\ Engine.res_complexity r = "unknown"
  /\ Engine.res_mcp_results r = []
  /\ Engine.converged (Engine.res_convergence_data r) = false
  /\ Engine.res_success r = false.

(** The arithmetic mean. *)
Definition mean (data : list R) : R := Py.sum data / INR (length data).

(** The sample standard deviation. *)
Definition stdev (data : list R) : R :=
  sqrt (Py.sum (map (fun x => (x - mean data) * (x - mean data)) data)
        / INR (length data - 1)).

(** The gain of step [i + 1] over step [i], negative gains counting as 0. *)
Definition gain (confidences : list R) (i : nat) : R :=
  Rmax 0 (nth (S i) confidences 0 - nth i confidences 0).

(** The gains of all the steps after the first. *)
Definition gains (confidences : list R) : list R :=
  map (gain confidences) (seq 0 (length confidences - 1)).

(** What a strategy adds to the convergence vote: its weight when it
    takes part (score above 0) and reports convergence. *)
Definition vote_of (s : Convergence.Analysis) : R :=
  if Py.Rltb 0 (Convergence.score s) then
    if Convergence.converged s then Convergence.weights (Convergence.strategy s)
    else 0
  else 0.

(** What a strategy adds to the combined score: weight times score when it
    takes part. *)
Definition share_of (s : Convergence.Analysis) : R :=
  if Py.Rltb 0 (Convergence.score s) then
    Convergence.weights (Convergence.strategy s) * Convergence.score s
  else 0.

(** The threshold of a tier: 0.65, 0.75, 0.80, 0.85 for the four tiers
    and the base threshold for anything else. *)
Definition tier_threshold (base : R) (tier : string) : R :=
  if String.eqb tier "simple" then 0.65
  else if String.eqb tier "medium" then 0.75
  else if String.eqb tier "complex" then 0.80
  else if String.eqb tier "expert" then 0.85
  else base.

(** The spread of the confidences relative to their mean, capped at 1; a
    single confidence has no spread. *)
Definition relative_spread (confidences : list R) : R :=
  Rmin ((if (1 <? length confidences)%nat then stdev confidences else 0)
        / mean confidences) 1.

(** The stability measure of the code: one minus the relative spread when
    the mean is positive, and 0 otherwise. *)
Definition stability (confidences : list R) : R :=
  if Rlt_dec 0 (mean confidences) then 1 - relative_spread confidences else 0.

(** The stability measure in the words of the claim:
    [1 - min(stdev/mean, 1)], and 1 when there is only one sample. *)
Definition claimed_stability (confidences : list R) : R :=
  match confidences with
  | [_] => 1
  | _ => 1 - Rmin (stdev confidences / mean confidences) 1
  end.

(** The tracking data of a pattern key, a key never seen counting as
    never executed. *)
Definition history_of (self : Convergence.AdvancedConvergenceAnalyzer)
           (key : string) : Convergence.Performance :=
  match Convergence.pattern_performance self !! key with
  | Some p => p
  | None => Convergence.fresh
  end.

(** The number of executions recorded for a pattern key. *)
Definition prior_executions (self : Convergence.AdvancedConvergenceAnalyzer)
           (key : string) : nat :=
  Convergence.executions (history_of self key).

(** The adaptive threshold: the historical average plus 0.1, at most 0.9. *)
Definition adaptive_threshold (self : Convergence.AdvancedConvergenceAnalyzer)
           (key : string) : R :=
  Rmin 0.9 (Convergence.avg_confidence (history_of self key) + 0.1).

(** A value between 0 and 1. *)
Definition unit_interval (x : R) : Prop := 0 <= x <= 1.



(** What a result adds to the confidences that are analysed: its
    confidence, when it carries one and is a success. *)
Definition kept (r : Convergence.Result) : list R :=
  match Convergence.confidence r, Convergence.success r with
  | Some c, Some true => [c]
  | _, _ => []
  end.

(** The confidences of the results that carry one and are successes. *)
Definition successful_confidences (results : list Convergence.Result) : list R :=
  flat_map kept results.

(** The result can be read: when it carries a confidence it has a success
    flag. *)
Definition readable (r : Convergence.Result) : Prop :=
  Convergence.confidence r <> None -> Convergence.success r <> None.




(** The tracking data after one more run with mean confidence [current]:
    one more execution, the mean appended to the history, of which the 50
    most recent entries are kept, and the average of the history before
    that cut. *)
Definition recorded (perf : Convergence.Performance) (current : R)
  : Convergence.Performance :=
  let history := Convergence.confidence_history perf ++ [current] in
  Convergence.mkPerformance
    (S (Convergence.executions perf)) (mean history)
    (Convergence.success_rate perf)
    (if (50 <? length history)%nat then Py.last_n 50 history else history).

(** The number of steps of a lookup that succeeded. *)
Definition steps {A} (r : Py.exc (list A)) : option nat :=
  match r with
  | inr p => Some (length p)
  | inl _ => None
  end.

(** The levels of a lookup that succeeded. *)
Definition levels (r : Py.exc (list Core.Step)) : option (list Core.Level) :=
  match r with
  | inr p => Some (map Core.level p)
  | inl _ => None
  end.

End Spec.

(** ** Text that is not ASCII *)

Module Text.

(** The string with the given bytes. *)
Fixpoint of_codes (codes : list nat) : string :=
  match codes with
  | [] => ""
  | c :: rest => String (ascii_of_nat c) (of_codes rest)
  end.

End Text.

(** ** [hrm_core.py]: the convergence detector and the proof-of-concept
       system *)

Module CoreSystem.

(** The two keys [detect_convergence] reads from a result dict; an absent
    key is [None]. *)
Record ResultDict : Type := mkResultDict
  { d_confidence : option R;
    d_success : option bool }.

(** [r.get('confidence', 0.5)]. *)
Definition get_confidence (r : ResultDict) : R :=
  match d_confidence r with
  | Some c => c
  | None => 0.5
  end.

(** [r.get('success', False)]. *)
Definition get_success (r : ResultDict) : bool :=
  match d_success r with
  | Some b => b
  | None => false
  end.

(** The text under ['reason']. *)
Inductive Reason : Type :=
| InsufficientData
| ScoreAndIteration (convergence_score : R) (iteration : Z).

(** The ['metrics'] dict, empty ([None]) or with its three entries. *)
Record Metrics : Type := mkMetrics
  { m_avg_confidence : R;
    m_stability : R;
    m_success_rate : R }.

(** The dict returned by [detect_convergence]. *)
Record Convergence : Type := mkConvergence
  { converged : bool;
    confidence : R;
    reason : Reason;
    metrics : option Metrics }.

Record ConvergenceDetector : Type := mkDetector
  { convergence_threshold : R;
    max_iterations : Z }.

(** [ConvergenceDetector.__init__]. *)
Definition new_detector : ConvergenceDetector := mkDetector 0.75 3.

(** [[abs(c[i] - c[i-1]) for i in range(1, len(c))]]. *)
Fixpoint variations_of (confidences : list R) : list R :=
  match confidences with
  | previous :: (current :: _) as rest =>
      Rabs (current - previous) :: variations_of rest
  | _ => []
  end.

(** [ConvergenceDetector.detect_convergence]; the divisors are lengths of
    lists that are not empty. *)
Definition detect_convergence (self : ConvergenceDetector)
           (results : list ResultDict) (iteration : Z) : Convergence :=
  if (length results <? 2)%nat then
    mkConvergence false 0.0 InsufficientData None
  else
    let confidences := map get_confidence (Py.last_n 3 results) in
    let avg_confidence := Py.sum confidences / INR (length confidences) in
    let stability :=
      if (1 <? length confidences)%nat then
        let variations := variations_of confidences in
        match variations with
        | [] => 1
        | _ => 1 - Py.sum variations / INR (length variations)
        end
      else 1 in
    let success_rate :=
      INR (length (List.filter get_success results)) / INR (length results) in
    let convergence_score :=
      avg_confidence * 0.4 + stability * 0.3 + success_rate * 0.3 in
    let converged :=
      Py.Rltb (convergence_threshold self) convergence_score
      || (max_iterations self <=? iteration)%Z in
    mkConvergence converged convergence_score
      (ScoreAndIteration convergence_score iteration)
      (Some (mkMetrics avg_confidence stability success_rate)).

(** The separator of ['pattern_summary'], byte for byte as in the source
    file. *)
Definition arrow : string :=
  " " +:+ Text.of_codes [226; 128; 154; 195; 156; 195; 173]%nat +:+ " ".

(** [step['level'][0]]. *)
Definition initial (l : Core.Level) : string :=
  match l with
  | Core.HIGH => "H"
  | Core.LOW => "L"
  end.

(** The dict returned by [analyze_query]. *)
Record Analysis : Type := mkAnalysis
  { a_query : string;
    a_complexity : string;
    a_pattern : list Core.Step;
    a_pattern_summary : string;
    a_hierarchical_levels : string }.

(** [HRMSystem.analyze_query]. *)
Definition analyze_query (query : string) : Py.exc Analysis :=
  let* complexity := Core.assess_complexity query in
  let* pattern := Core.get_pattern complexity in
  Py.ret (mkAnalysis query complexity pattern
            (Py.join arrow (map Core.tool pattern))
            (Py.join "" (map (fun step => initial (Core.level step)) pattern))).

(** The mock result dict built for one step by [execute_pattern_demo]. *)
Record StepResult : Type := mkStepResult
  { r_tool : string;
    r_level : Core.Level;
    r_purpose : string;
    r_success : bool;
    r_confidence : R;
    r_data : string;
    r_execution_time : R }.

(** The loop of [execute_pattern_demo] from index [i] on; [step_time i] is
    the time measured around the sleep of step [i]. *)
Fixpoint demo_loop (query : string) (step_time : nat -> R) (i : nat)
         (pattern : list Core.Step) : list StepResult :=
  match pattern with
  | [] => []
  | step :: rest =>
      mkStepResult (Core.tool step) (Core.level step) (Core.purpose step)
                   true (0.7 + INR i * 0.05)
                   (Core.tool step +:+ " result for query: "
                    +:+ Py.take 30 query +:+ "...")
                   (step_time i)
      :: demo_loop query step_time (S i) rest
  end.

(** [HRMSystem.execute_pattern_demo]. *)
Definition execute_pattern_demo (query : string) (step_time : nat -> R)
           (pattern : list Core.Step) : list StepResult :=
  demo_loop query step_time 0 pattern.

(** A mock result as [detect_convergence] sees it. *)
Definition as_dict (r : StepResult) : ResultDict :=
  mkResultDict (Some (r_confidence r)) (Some (r_success r)).

Record HRMResult : Type := mkHRMResult
  { res_query : string;
    res_complexity : string;
    res_pattern : list string;
    res_results : list StepResult;
    res_convergence_data : Convergence;
    res_execution_time : R;
    res_success : bool }.

(** An entry of [HRMSystem.execution_history]. *)
Record HistoryEntry : Type := mkHistoryEntry
  { h_query : string;
    h_complexity : string;
    h_results : list StepResult;
    h_timestamp : R }.

Record HRMSystem : Type := mkSystem
  { convergence_detector : ConvergenceDetector;
    execution_history : list HistoryEntry }.

(** [HRMSystem.execute_hrm]; nothing is caught, an exception of the
    analysis leaves the system as it was. *)
Definition execute_hrm (self : HRMSystem) (query : string)
           (step_time : nat -> R) (elapsed timestamp : R)
  : Py.exc HRMResult * HRMSystem :=
  match analyze_query query with
  | inl e => (inl e, self)
  | inr analysis =>
      let results := execute_pattern_demo query step_time (a_pattern analysis) in
      let convergence :=
        detect_convergence (convergence_detector self) (map as_dict results) 1 in
      let hrm_result :=
        mkHRMResult query (a_complexity analysis)
                    (map Core.tool (a_pattern analysis))
                    results convergence elapsed
                    (forallb r_success results) in
      (Py.ret hrm_result,
       mkSystem (convergence_detector self)
                (execution_history self
                 ++ [mkHistoryEntry query (a_complexity analysis) results timestamp]))
  end.

End CoreSystem.

(** ** [hrm_automation_engine.py]: statistics and status *)

Module Status.

(** The dict returned by [MCPToolInterface.get_stats]. *)
Record Stats : Type := mkStats
  { total_executions : nat;
    success_count : nat;
    success_rate : R;
    error_count : nat;
    recent_errors : list string }.

(** [MCPToolInterface.get_stats]. *)
Definition get_stats (self : Engine.MCPToolInterface) : Stats :=
  mkStats (Engine.execution_count self)
          (Engine.success_count self)
          (INR (Engine.success_count self)
           / INR (Nat.max (Engine.execution_count self) 1))
          (length (Engine.error_log self))
          match Engine.error_log self with
          | [] => []
          | _ => Py.last_n 5 (Engine.error_log self)
          end.

(** The dict returned by [AutomatedExecutionEngine.get_status], the
    ['configuration'] entries being the last two fields. *)
Record EngineStatus : Type := mkEngineStatus
  { engine_status : string;
    st_total_executions : nat;
    st_success_rate : R;
    st_average_execution_time : R;
    st_mcp_interface_stats : Stats;
    st_max_retries : nat;
    st_convergence_threshold : R }.

(** [AutomatedExecutionEngine.get_status], for the engine with its own
    [MCPToolInterface]. *)
Definition get_status (self : @Engine.AutomatedExecutionEngine Engine.MCPToolInterface)
  : EngineStatus :=
  let interface_stats := get_stats (Engine.mcp_interface self) in
  let history := Engine.execution_history self in
  mkEngineStatus
    (Text.of_codes [195; 176; 197; 184; 197; 161; 226; 130; 172]%nat
     +:+ " Production Ready - Phase 4 Complete")
    (length history)
    (INR (length (List.filter Engine.h_success history))
     / INR (Nat.max (length history) 1))
    (Py.sum (map Engine.h_execution_time history)
     / INR (Nat.max (length history) 1))
    interface_stats
    (Engine.max_retries self)
    (Engine.convergence_threshold self).

End Status.

(** ** [hrm_advanced_convergence.py]: the statements after the history
       update

    In the source the body of [_update_convergence_history] goes on after
    the two history updates with the statements of a report on what was
    learned (their own [def] line is missing).  They run at the end of
    every update that gets there; [analyze_convergence] ignores what they
    return. *)

Module Learning.

(** One line of ['insights'], the formatted values kept as data. *)
Record Insight : Type := mkInsight
  { i_complexity : string;
    i_pattern_str : string;
    i_avg_confidence : R;
    i_executions : nat }.

(** The dict returned: the short one of the early return has only the
    first two entries. *)
Record Report : Type := mkReport
  { insights : list Insight;
    recommendations : list string;
    total_patterns_learned : option nat;
    total_executions : option nat;
    best_patterns : option (list string) }.

(** What the unpacking of a split with one part raises. *)
Inductive ValueError : Type :=
| not_enough_values_to_unpack.

(** [s.split(sep, 1)] when it has two parts: what is before the first
    [sep] and what is after it. *)
Fixpoint split_once (sep : ascii) (s : string) : option (string * string) :=
  match s with
  | EmptyString => None
  | String c s' =>
      if Ascii.eqb c sep then Some ("", s')
      else match split_once sep s' with
           | Some (before, after) => Some (String c before, after)
           | None => None
           end
  end.

(** The place of [x] in a list sorted by decreasing average: after the
    entries with a larger average, before those with the same or a
    smaller one. *)
Fixpoint insert_desc (x : string * Convergence.Performance)
         (l : list (string * Convergence.Performance))
  : list (string * Convergence.Performance) :=
  match l with
  | [] => [x]
  | y :: l' =>
      if Py.Rltb (Convergence.avg_confidence (snd x)) (Convergence.avg_confidence (snd y))
      then y :: insert_desc x l'
      else x :: y :: l'
  end.

(** [sorted(items, key=lambda x: x[1]['avg_confidence'], reverse=True)]:
    the sort is stable, entries with equal averages keep their order. *)
Definition sorted_desc (items : list (string * Convergence.Performance))
  : list (string * Convergence.Performance) :=
  fold_right insert_desc [] items.

(** The loop [for pattern_key, perf in best_patterns]. *)
Fixpoint insights_loop (best : list (string * Convergence.Performance))
  : ValueError + list Insight :=
  match best with
  | [] => inr []
  | (pattern_key, perf) :: rest =>
      match split_once ":" pattern_key with
      | None => inl not_enough_values_to_unpack
      | Some (complexity, pattern_str) =>
          match insights_loop rest with
          | inl e => inl e
          | inr others =>
              inr (mkInsight complexity pattern_str
                             (Convergence.avg_confidence perf)
                             (Convergence.executions perf)
                   :: others)
          end
      end
  end.

(** The statements after the history update, for [items] the items of
    [self.pattern_performance] in the order of the dict. *)
Definition learning_report (items : list (string * Convergence.Performance))
  : ValueError + Report :=
  match items with
  | [] => inr (mkReport [] [] None None None)
  | _ =>
      let best_patterns := firstn 3 (sorted_desc items) in
      match insights_loop best_patterns with
      | inl e => inl e
      | inr insights =>
          let recommendations :=
            if (3 <=? length items)%nat then
              ["Sufficient pattern data collected for optimization";
               "Consider A/B testing alternative patterns for underperforming queries"]
            else [] in
          inr (mkReport insights recommendations
                        (Some (length items))
                        (Some (list_sum (map (fun p => Convergence.executions (snd p)) items)))
                        (Some (map fst best_patterns)))
      end
  end.

End Learning.

(** ** Further specification-side notions *)

Module Laws.

(** The tool that really runs for a name in a pattern: a name the engine
    does not know is routed to [brain_recall]. *)
Definition routed_tool (tool_name : string) : string :=
  if String.eqb tool_name "web_search" then "web_search"
  else if String.eqb tool_name "brain_remember" then "brain_remember"
  else if String.eqb tool_name "sequential_thinking" then "sequential_thinking"
  else if String.eqb tool_name "reasoning_tools" then "reasoning_tools"
  else "brain_recall".

(** The confidence that [MCPToolInterface] reports for each of its tools. *)
Definition mock_confidence (tool : string) : R :=
  if String.eqb tool "web_search" then 0.82
  else if String.eqb tool "brain_remember" then 0.95
  else if String.eqb tool "sequential_thinking" then 0.76
  else if String.eqb tool "reasoning_tools" then 0.84
  else 0.78.

(** The final answer of the payload, if it has one, is a [str]. *)
Definition text_payload (d : Engine.Data) : Prop :=
  match d with
  | Engine.FinalAnswer (Engine.OtherAnswer _) => False
  | _ => True
  end.

(** The tool routed for [tool] returns only payloads whose final answer,
    if there is one, is a [str]. *)
Definition text_answers {St} (iface : Engine.ToolInterface St)
           (self : Engine.AutomatedExecutionEngine) (query tool : string) : Prop :=
  forall context st result st',
    Engine.route iface self tool query context st = (inr result, st') ->
    text_payload (Engine.data result).

(** What holds of the record of a step run by [MCPToolInterface]. *)
Definition first_try (elapsed : R) (tool : string) (r : Engine.MCPExecutionResult)
  : Prop :=
  Engine.tool_name r = routed_tool tool
  /\ Engine.success r = true
  /\ Engine.confidence r = mock_confidence (routed_tool tool)
  /\ Engine.execution_time r = elapsed
  /\ Engine.error_message r = None
  /\ Engine.retry_count r = 0%nat.

(** The tool names of a list of results in the order of their first
    appearance, each once. *)
Fixpoint first_seen (names : list string) : list string :=
  match names with
  | [] => []
  | n :: rest => n :: List.filter (fun m => negb (String.eqb m n)) (first_seen rest)
  end.

(** The names under which the results from index [i] on are grouped: the
    tool name of the result when it has one, else the name at its index in
    the pattern, else "unknown". *)
Fixpoint names_from (pattern : list string) (i : nat)
         (results : list Convergence.Result) : list string :=
  match results with
  | [] => []
  | r :: rest => Convergence.name_of pattern i r :: names_from pattern (S i) rest
  end.

(** The results of a run, each with the name under which it is grouped. *)
Definition named (pattern : list string) (results : list Convergence.Result)
  : list (string * Convergence.Result) :=
  combine (names_from pattern 0 results) results.

(** The results grouped under one name, in the order of the run. *)
Definition results_of (name : string) (results : list (string * Convergence.Result))
  : list Convergence.Result :=
  map snd (List.filter (fun nr => String.eqb (fst nr) name) results).

(** The confidences of the successful results grouped under one name. *)
Definition confidences_of (name : string)
           (results : list (string * Convergence.Result)) : list R :=
  Spec.successful_confidences (results_of name results).

(** The names with at least one successful result that carries a
    confidence, in the order of their first appearance. *)
Definition voters (results : list (string * Convergence.Result)) : list string :=
  List.filter (fun n => match confidences_of n results with
                        | [] => false
                        | _ => true
                        end)
              (first_seen (map fst results)).

(** The key can be split at a colon. *)
Definition splits (key : string) : bool :=
  match Learning.split_once ":" key with
  | Some _ => true
  | None => false
  end.

(** Every key of the tracked patterns can be split at a colon. *)
Definition keys_ok (self : Convergence.AdvancedConvergenceAnalyzer) : Prop :=
  forall key p,
    Convergence.pattern_performance self !! key = Some p -> splits key = true.

(** The list holds items of the tracked patterns. *)
Definition listed (self : Convergence.AdvancedConvergenceAnalyzer)
           (items : list (string * Convergence.Performance)) : Prop :=
  Forall (fun kp => Convergence.pattern_performance self !! fst kp = Some (snd kp))
         items.

(** No entry has a larger average confidence than an entry before it. *)
Fixpoint descending (l : list (string * Convergence.Performance)) : Prop :=
  match l with
  | [] => True
  | x :: rest =>
      Forall (fun y => Convergence.avg_confidence (snd y)
                       <= Convergence.avg_confidence (snd x)) rest
      /\ descending rest
  end.

(** The character does not occur in the string. *)
Fixpoint lacks (ch : ascii) (s : string) : bool :=
  match s with
  | EmptyString => true
  | String c s' => negb (Ascii.eqb c ch) && lacks ch s'
  end.

(** The regular expression atoms of a word without special characters. *)
Definition literal (word : string) : list Py.atom :=
  map Py.AChar (list_ascii_of_string word).

(** The words that put a query in the expert tier for both classifiers. *)
Definition shared_expert_words : list string :=
  ["consciousness"; "emergent"; "recursive"; "bootstrap";
   "superintelligence"; "singularity"].

End Laws.

(** ** Properties *)

(** *** Classification *)

Section Classification.

Lemma lower_ascii_idem c : Py.lower_ascii (Py.lower_ascii c) = Py.lower_ascii c.
Proof.
  destruct c as [[] [] [] [] [] [] [] []]; reflexivity.
Qed.

Lemma lower_idem s : Py.lower (Py.lower s) = Py.lower s.
Proof.
  induction s as [|c s IH]; simpl; [reflexivity|].
  now rewrite lower_ascii_idem, IH.
Qed.

Lemma lower_ascii_newline c :
  Ascii.eqb (Py.lower_ascii c) Py.newline = Ascii.eqb c Py.newline.
Proof.
  destruct c as [[] [] [] [] [] [] [] []]; reflexivity.
Qed.

Lemma dotstar_ext k k' s :
  (forall t, k (Py.lower t) = k' t) ->
  Py.dotstar k (Py.lower s) = Py.dotstar k' s.
Proof.
  intros Hk. induction s as [|c s IH]; simpl.
  - now rewrite <- Hk.
  - rewrite <- IH, lower_ascii_newline. f_equal. apply (Hk (String c s)).
Qed.

Lemma match_here_lower atoms s :
  Py.match_here atoms (Py.lower s) = Py.match_here atoms s.
Proof.
  revert s. induction atoms as [|a atoms IH]; intros s; [reflexivity|].
  destruct a; simpl.
  - destruct s as [|d s]; simpl; [reflexivity|].
    now rewrite lower_ascii_idem, IH.
  - destruct s as [|d s]; simpl; [reflexivity|].
    now rewrite lower_ascii_newline, IH.
  - apply dotstar_ext. exact IH.
Qed.

Lemma search_lower r s : Py.search r (Py.lower s) = Py.search r s.
Proof.
  induction s as [|c s IH].
  - reflexivity.
  - change (Py.lower (String c s)) with (String (Py.lower_ascii c) (Py.lower s)).
    change (Py.search r (String (Py.lower_ascii c) (Py.lower s)))
      with (Py.match_at r (Py.lower (String c s)) || Py.search r (Py.lower s)).
    change (Py.search r (String c s))
      with (Py.match_at r (String c s) || Py.search r s).
    rewrite IH. f_equal. unfold Py.match_at.
    clear IH. induction r as [|alt r IHr]; cbn [existsb]; [reflexivity|].
    now rewrite match_here_lower, IHr.
Qed.

Lemma engine_patterns_expert :
  Engine.complexity_patterns !! "expert"
  = Some [ "consciousness"; "emergent"; "recursive"; "bootstrap"; "agi";
           "superintelligence"; "singularity"; "self-modification" ].
Proof. reflexivity. Qed.

Lemma engine_assess_first (query : string) :
  Engine.assess query = inr (Spec.first_matching_tier (Spec.keyword_match query)).
Proof.
  unfold Engine.assess, Spec.first_matching_tier, Spec.keyword_match.
  cbn [Engine.assess_loop].
  unfold Py.getitem, Py.get.
  change (Engine.complexity_patterns !! "expert") with
    (Some [ "consciousness"; "emergent"; "recursive"; "bootstrap"; "agi";
           "superintelligence"; "singularity"; "self-modification" ]).
  cbn [Py.bind Py.ret].
  destruct (existsb _ _); [reflexivity|].
  change (Engine.complexity_patterns !! "complex") with
    (Some [ "design system"; "architecture"; "framework"; "multi-step";
         "systematic approach"; "hierarchical"; "feedback loop" ]).
  cbn [Py.bind Py.ret].
  destruct (existsb _ _); [reflexivity|].
  change (Engine.complexity_patterns !! "medium") with
    (Some [ "compare"; "contrast"; "analyze"; "evaluate"; "relationship";
         "trade-offs"; "pros and cons"; "differences" ]).
  cbn [Py.bind Py.ret].
  destruct (existsb _ _); [reflexivity|].
  change (Engine.complexity_patterns !! "simple") with
    (Some [ "what is"; "define"; "explain"; "basic"; "fundamental";
         "how to"; "list of"; "tell me about" ]).
  cbn [Py.bind Py.ret].
  destruct (existsb _ _); reflexivity.
Qed.

Lemma core_assess_first (query : string) :
  Core.assess_complexity query
  = inr (Spec.first_matching_tier (Spec.regex_match query)).
Proof.
  unfold Core.assess_complexity, Spec.first_matching_tier, Spec.regex_match.
  cbn [Core.assess_loop].
  unfold Py.getitem, Py.get.
  destruct (Core.patterns !! "expert") as [pe|] eqn:He;
    [|vm_compute in He; discriminate He].
  destruct (Core.patterns !! "complex") as [pc|] eqn:Hc;
    [|vm_compute in Hc; discriminate Hc].
  destruct (Core.patterns !! "medium") as [pm|] eqn:Hm;
    [|vm_compute in Hm; discriminate Hm].
  destruct (Core.patterns !! "simple") as [ps|] eqn:Hs;
    [|vm_compute in Hs; discriminate Hs].
  clear He Hc Hm Hs.
  cbn [Py.bind Py.ret].
  destruct (existsb _ pe); [reflexivity|].
  destruct (existsb _ pc); [reflexivity|].
  destruct (existsb _ pm); [reflexivity|].
  destruct (existsb _ ps); reflexivity.
Qed.

Lemma keyword_match_lower query query' tier :
  Py.lower query' = Py.lower query ->
  Spec.keyword_match query' tier = Spec.keyword_match query tier.
Proof. unfold Spec.keyword_match. now intros ->. Qed.

Lemma regex_match_lower query query' tier :
  Py.lower query' = Py.lower query ->
  Spec.regex_match query' tier = Spec.regex_match query tier.
Proof.
  intros H. unfold Spec.regex_match.
  induction (Py.get Core.patterns tier []) as [|r rs IH]; cbn [existsb]; [reflexivity|].
  now rewrite IH, <- (search_lower r query'), H, search_lower.
Qed.

(** C8. Both classifiers scan the tiers in the order Expert, Complex,
    Medium, Simple and return the first tier one of whose patterns occurs in
    the query, and Medium when none does; they return a tier for every
    query (no exception escapes); the answer depends on the query only up
    to the case of its letters; and a query in which an Expert keyword
    (or Expert regular expression) occurs is classified Expert. *)
Theorem classify_first_matching_tier (query : string) :
  Engine.assess query
    = inr (Spec.first_matching_tier (Spec.keyword_match query))
  /\ Core.assess_complexity query
    = inr (Spec.first_matching_tier (Spec.regex_match query))
  /\ (forall query', Py.lower query' = Py.lower query ->
        Engine.assess query' = Engine.assess query
        /\ Core.assess_complexity query' = Core.assess_complexity query)
  /\ (forall kw,
        In kw [ "consciousness"; "emergent"; "recursive"; "bootstrap"; "agi";
                "superintelligence"; "singularity"; "self-modification" ] ->
        Py.contains kw (Py.lower query) = true ->
        Engine.assess query = inr "expert")
  /\ (Spec.regex_match query "expert" = true ->
        Core.assess_complexity query = inr "expert").
Proof.
  split; [apply engine_assess_first|].
  split; [apply core_assess_first|].
  split; [|split].
  - intros query' H. rewrite !engine_assess_first, !core_assess_first.
    unfold Spec.first_matching_tier.
    now rewrite !(keyword_match_lower query query' _ H),
                !(regex_match_lower query query' _ H).
  - intros kw Hin Hkw. rewrite engine_assess_first.
    unfold Spec.first_matching_tier.
    replace (Spec.keyword_match query "expert") with true; [reflexivity|].
    symmetry. unfold Spec.keyword_match, Py.get.
    rewrite engine_patterns_expert.
    apply existsb_exists. exists kw. split; assumption.
  - intros H. rewrite core_assess_first. unfold Spec.first_matching_tier.
    now rewrite H.
Qed.

Example classify_test_queries :
  Engine.assess "What is quantum computing?" = inr "simple"
  /\ Engine.assess "Compare quantum vs classical computing" = inr "medium"
  /\ Engine.assess "Design a quantum computing system" = inr "medium"
  /\ Engine.assess "How might quantum consciousness emerge recursively?" = inr "expert"
  /\ Core.assess_complexity "How might quantum CONSCIOUSNESS emerge?" = inr "expert"
  /\ Engine.assess "Imagine a cat" = inr "expert"
  /\ Engine.assess "hello" = inr "medium".
Proof. vm_compute. repeat split. Qed.

End Classification.


(** *** The pattern catalogue *)

Section Catalogue.

Lemma core_unknown_tier tier :
  ~ Spec.known_tier tier -> Core.execution_patterns !! tier = None.
Proof.
  intros H. unfold Core.execution_patterns. cbn [list_to_map foldr].
  unfold Spec.known_tier in H.
  rewrite !lookup_insert_ne by (intros <-; tauto).
  apply lookup_empty.
Qed.

Lemma engine_unknown_tier tier :
  ~ Spec.known_tier tier -> Engine.execution_patterns !! tier = None.
Proof.
  intros H. unfold Engine.execution_patterns. cbn [list_to_map foldr].
  unfold Spec.known_tier in H.
  rewrite !lookup_insert_ne by (intros <-; tauto).
  apply lookup_empty.
Qed.

(** C9, as the claim states the levels: the Expert pattern does not
    alternate, its fourth and fifth steps are both Low. *)
Lemma expert_pattern_not_alternating :
  Spec.levels (Core.get_pattern "expert")
    = Some [Core.HIGH; Core.LOW; Core.HIGH; Core.LOW; Core.LOW; Core.HIGH]
  /\ Spec.alternating
       [Core.HIGH; Core.LOW; Core.HIGH; Core.LOW; Core.LOW; Core.HIGH] = false.
Proof. split; reflexivity. Qed.

(** C9, amended. [get_pattern] is a lookup that never raises; the Simple
    pattern has 1 step, Medium 3, Complex 5 and Expert 6, in both
    catalogues; the levels of Simple, Medium and Complex alternate
    starting at High, and those of Expert are High, Low, High, Low, Low,
    High; a tier that is not one of the four gets Medium's pattern. *)
Theorem pattern_catalogue (tier : string) :
  (exists p, Core.get_pattern tier = inr p)
  /\ (exists p, Engine.get_pattern tier = inr p)
  /\ (Spec.steps (Core.get_pattern "simple") = Some 1%nat
      /\ Spec.steps (Core.get_pattern "medium") = Some 3%nat
      /\ Spec.steps (Core.get_pattern "complex") = Some 5%nat
      /\ Spec.steps (Core.get_pattern "expert") = Some 6%nat)
  /\ (Spec.steps (Engine.get_pattern "simple") = Some 1%nat
      /\ Spec.steps (Engine.get_pattern "medium") = Some 3%nat
      /\ Spec.steps (Engine.get_pattern "complex") = Some 5%nat
      /\ Spec.steps (Engine.get_pattern "expert") = Some 6%nat)
  /\ (Spec.levels (Core.get_pattern "simple") = Some [Core.HIGH]
      /\ Spec.levels (Core.get_pattern "medium") = Some [Core.HIGH; Core.LOW; Core.HIGH]
      /\ Spec.levels (Core.get_pattern "complex")
         = Some [Core.HIGH; Core.LOW; Core.HIGH; Core.LOW; Core.HIGH]
      /\ Spec.levels (Core.get_pattern "expert")
         = Some [Core.HIGH; Core.LOW; Core.HIGH; Core.LOW; Core.LOW; Core.HIGH])
  /\ (~ Spec.known_tier tier ->
      Core.get_pattern tier = Core.get_pattern "medium"
      /\ Engine.get_pattern tier = Engine.get_pattern "medium").
Proof.
  split; [|split].
  - unfold Core.get_pattern, Py.getitem, Py.get.
    change (Core.execution_patterns !! "medium") with
      (Some [ Core.mkStep "brain_recall" Core.HIGH "Load context";
              Core.mkStep "web_search" Core.LOW "Gather information";
              Core.mkStep "brain_remember" Core.HIGH "Store synthesis" ]).
    cbn [Py.bind Py.ret]. eexists. reflexivity.
  - unfold Engine.get_pattern, Py.getitem, Py.get.
    change (Engine.execution_patterns !! "medium") with
      (Some [ "brain_recall"; "web_search"; "brain_remember" ]).
    cbn [Py.bind Py.ret]. eexists. reflexivity.
  - split; [repeat split|]. split; [repeat split|]. split; [repeat split|].
    intros H. unfold Core.get_pattern, Engine.get_pattern, Py.get.
    rewrite (core_unknown_tier _ H), (engine_unknown_tier _ H).
    split; reflexivity.
Qed.

Lemma pattern_catalogue_witness :
  ~ Spec.known_tier "unknown"
  /\ Core.get_pattern "unknown" = Core.get_pattern "medium"
  /\ Engine.get_pattern "unknown" = Engine.get_pattern "medium".
Proof.
  assert (H : ~ Spec.known_tier "unknown").
  { unfold Spec.known_tier. intros [H|[H|[H|H]]]; discriminate H. }
  split; [exact H|].
  exact (proj2 (proj2 (proj2 (proj2 (proj2 (pattern_catalogue "unknown"))))) H).
Defined.

End Catalogue.


(** *** The retrying orchestrator *)

Section Orchestrator.

Context {St : Type}.
Variable iface : Engine.ToolInterface St.
Variable self : @Engine.AutomatedExecutionEngine St.
Variable query : string.

Hypothesis at_least_one_attempt : (1 <= Engine.max_retries self)%nat.

Lemma error_result_failure tool e :
  Spec.failure_of iface self query tool
    (Engine.error_result tool e (Engine.max_retries self - 1)).
Proof. split; [reflexivity|]. right. exists e. reflexivity. Qed.

(** The shape of the records that one step adds: as many successful
    records whose context update raised as there were such attempts, and
    then the record that ends the step. *)
Lemma retry_loop_records tool remaining :
  forall attempt results context st,
    (attempt + remaining = Engine.max_retries self)%nat ->
    exists group context' st',
      Engine.retry_loop iface self tool query remaining attempt results context st
      = (results ++ group, context', st')
      /\ Forall (Spec.record_ok iface self query tool) group
      /\ ((1 <= remaining)%nat -> group <> [])
      /\ (Spec.context_updates_succeed iface self query ->
          (1 <= remaining)%nat -> exists r, group = [r])
      /\ (Spec.always_fails iface self query ->
          (1 <= remaining)%nat -> exists r, group = [r] /\ Engine.success r = false).
Proof.
  induction remaining as [|k IH]; intros attempt results context st Hsum.
  { exists [], context, st. cbn [Engine.retry_loop]. rewrite app_nil_r.
    split; [reflexivity|]. split; [constructor|]. repeat split; intros; lia. }
  cbn [Engine.retry_loop].
  destruct (Engine.route iface self tool query context st) as [[e|result] st'] eqn:Hroute.
  - (* the call raises *)
    destruct (Nat.eqb_spec attempt (Engine.max_retries self - 1)) as [Hlast|Hmore].
    + assert (k = 0%nat) by lia. subst k. cbn [Engine.retry_loop].
      exists [Engine.error_result tool e attempt], context, st'.
      split; [reflexivity|].
      assert (Hok : Spec.record_ok iface self query tool
                      (Engine.error_result tool e attempt)).
      { split; [|split].
        - right. left. exists context, st, st', e. split; [exact Hroute|reflexivity].
        - cbn. lia.
        - intros _. rewrite Hlast. apply error_result_failure. }
      split; [constructor; [exact Hok|constructor]|].
      split; [discriminate|]. split; intros; eexists; [reflexivity|].
      split; reflexivity.
    + destruct (IH (S attempt) results context st') as (g & c' & s' & Heq & Hall & H1 & H2 & H3);
        [lia|].
      exists g, c', s'. split; [exact Heq|]. split; [exact Hall|].
      split; [intros _; apply H1; lia|].
      split; [intros Hsafe _; apply H2; [exact Hsafe|lia]
             |intros Hfails _; apply H3; [exact Hfails|lia]].
  - change (Engine.success (Engine.set_retry_count result attempt))
      with (Engine.success result).
    change (Engine.data (Engine.set_retry_count result attempt))
      with (Engine.data result).
    assert (Hkept : Spec.produced_by iface self query tool
                      (Engine.set_retry_count result attempt)).
    { left. exists context, st, st', result. split; [exact Hroute|reflexivity]. }
    destruct (Engine.success result) eqn:Hsucc.
    + (* the call succeeds *)
      assert (Hok : Spec.record_ok iface self query tool
                      (Engine.set_retry_count result attempt)).
      { split; [exact Hkept|]. split; [cbn; lia|].
        cbn. rewrite Hsucc. discriminate. }
      assert (Hnofail : Spec.always_fails iface self query -> False).
      { intros Hfails. specialize (Hfails tool context st).
        rewrite Hroute in Hfails. cbn in Hfails. congruence. }
      destruct (Engine.chain_context context (Engine.data result)) as [e|context']
        eqn:Hchain.
      * (* the context update raises *)
        assert (Hunsafe : Spec.context_updates_succeed iface self query -> False).
        { intros Hsafe.
          destruct (Hsafe tool context st result st' Hroute Hsucc) as (c & Hc).
          congruence. }
        destruct (Nat.eqb_spec attempt (Engine.max_retries self - 1)) as [Hlast|Hmore].
        -- assert (k = 0%nat) by lia. subst k. cbn [Engine.retry_loop].
           exists [Engine.set_retry_count result attempt;
                   Engine.error_result tool e attempt], context, st'.
           rewrite <- app_assoc. split; [reflexivity|].
           split.
           { constructor; [exact Hok|]. constructor; [|constructor].
             split; [|split].
             - right. right. exists context, st, st', result, e.
               split; [exact Hroute|]. split; [exact Hsucc|].
               split; [exact Hchain|reflexivity].
             - cbn. lia.
             - intros _. rewrite Hlast. apply error_result_failure. }
           split; [discriminate|].
           split; [intros Hsafe; contradiction|intros Hfails; contradiction].
        -- destruct (IH (S attempt) (results ++ [Engine.set_retry_count result attempt])
                        context st')
             as (g & c' & s' & Heq & Hall & _); [lia|].
           exists (Engine.set_retry_count result attempt :: g), c', s'.
           rewrite Heq, <- app_assoc. split; [reflexivity|].
           split; [constructor; assumption|].
           split; [discriminate|].
           split; [intros Hsafe; contradiction|intros Hfails; contradiction].
      * exists [Engine.set_retry_count result attempt], context', st'.
        split; [reflexivity|]. split; [constructor; [exact Hok|constructor]|].
        split; [discriminate|].
        split; [intros; eexists; reflexivity|intros Hfails; contradiction].
    + (* the call returns a failure *)
      destruct (Nat.eqb_spec attempt (Engine.max_retries self - 1)) as [Hlast|Hmore].
      * assert (k = 0%nat) by lia. subst k. cbn [Engine.retry_loop].
        exists [Engine.set_retry_count result attempt], context, st'.
        split; [reflexivity|].
        assert (Hok : Spec.record_ok iface self query tool
                        (Engine.set_retry_count result attempt)).
        { split; [exact Hkept|]. split; [cbn; lia|].
          intros _. split; [exact Hlast|]. left.
          exists context, st, st', result. split; [exact Hroute|].
          split; [exact Hsucc|]. repeat split. }
        split; [constructor; [exact Hok|constructor]|].
        split; [discriminate|].
        split; intros; eexists; [reflexivity|]. split; [reflexivity|exact Hsucc].
      * destruct (IH (S attempt) results context st')
          as (g & c' & s' & Heq & Hall & H1 & H2 & H3); [lia|].
        exists g, c', s'. split; [exact Heq|]. split; [exact Hall|].
        split; [intros _; apply H1; lia|].
        split; [intros Hsafe _; apply H2; [exact Hsafe|lia]
               |intros Hfails _; apply H3; [exact Hfails|lia]].
Qed.

Lemma pattern_loop_groups pattern :
  forall results context st,
    exists groups,
      fst (Engine.pattern_loop iface self pattern query results context st)
      = results ++ concat groups
      /\ Forall2 (Spec.step_records iface self query) pattern groups
      /\ (Spec.context_updates_succeed iface self query ->
          Forall (fun group => exists r, group = [r]) groups)
      /\ (Spec.always_fails iface self query ->
          Forall (fun group => exists r, group = [r] /\ Engine.success r = false)
                 groups).
Proof.
  induction pattern as [|tool rest IH]; intros results context st.
  - exists []. cbn. split; [now rewrite app_nil_r|].
    split; [constructor|]. split; intros _; constructor.
  - cbn [Engine.pattern_loop].
    destruct (retry_loop_records tool (Engine.max_retries self) 0 results context st)
      as (g & context' & st' & Hloop & Hall & Hne & Hone & Hfail); [lia|].
    rewrite Hloop.
    destruct (IH (results ++ g) context' st') as (groups & Hrest & Hgroups & Hsafe & Hfails).
    exists (g :: groups). cbn [concat].
    split; [now rewrite Hrest, <- app_assoc|].
    split; [constructor; [split; [apply Hne; exact at_least_one_attempt|exact Hall]
                         |exact Hgroups]|].
    split.
    + intros H. constructor; [apply Hone; [exact H|exact at_least_one_attempt]|].
      apply Hsafe, H.
    + intros H. constructor; [apply Hfail; [exact H|exact at_least_one_attempt]|].
      apply Hfails, H.
Qed.

Lemma one_record_per_step (P : string -> Engine.MCPExecutionResult -> Prop)
      pattern groups :
  Forall2 (fun tool group => exists r, group = [r] /\ P tool r) pattern groups ->
  length (concat groups) = length pattern /\ Forall2 P pattern (concat groups).
Proof.
  induction 1 as [|tool g ts gs (r & -> & Hr) _ [IHlen IH]]; [split; constructor|].
  cbn [concat app length]. split; [now rewrite IHlen|]. now constructor.
Qed.

Lemma singleton_groups (Q : Engine.MCPExecutionResult -> Prop) pattern groups :
  Forall2 (Spec.step_records iface self query) pattern groups ->
  Forall (fun group => exists r, group = [r] /\ Q r) groups ->
  Forall2 (fun tool group =>
             exists r, group = [r]
                       /\ Spec.record_ok iface self query tool r /\ Q r)
          pattern groups.
Proof.
  induction 1 as [|tool g ts gs [_ Hg] _ IH]; intros Hall; [constructor|].
  inversion Hall as [|? ? (r & -> & Hq) Hrest]; subst.
  constructor; [|now apply IH].
  exists r. split; [reflexivity|]. split; [|exact Hq].
  now inversion Hg.
Qed.


End Orchestrator.






(** *** The entry point [execute] *)

Section Execute.

Context {St : Type}.
Variable iface : Engine.ToolInterface St.

Lemma first_matching_tier_known tier_matches :
  Spec.known_tier (Spec.first_matching_tier tier_matches).
Proof.
  unfold Spec.first_matching_tier, Spec.known_tier.
  repeat match goal with |- context [tier_matches ?t] => destruct (tier_matches t) end;
    tauto.
Qed.

Lemma engine_get_pattern_known tier :
  Spec.known_tier tier ->
  exists tool rest, Engine.get_pattern tier = inr (tool :: rest).
Proof.
  intros [ -> | [ -> | [ -> | -> ] ] ]; eexists _, _; reflexivity.
Qed.

Lemma generate_total query threshold r rs :
  exists insights next_actions,
    Engine.generate query (r :: rs) (Engine.analyze threshold (r :: rs))
    = inr (insights, next_actions).
Proof.
  unfold Engine.generate, Engine.analyze.
  cbn [Engine.converged Engine.success_rate Engine.average_confidence
       Engine.reason Engine.total_execution_time Engine.subscript].
  match goal with |- context [Py.Rleb 0.8 ?a && Py.Rleb threshold ?b] =>
    destruct (Py.Rleb 0.8 a && Py.Rleb threshold b) end;
    cbn [Py.bind Py.ret];
    match goal with |- context [Py.Rltb 10 ?t] => destruct (Py.Rltb 10 t) end;
    eexists _, _; reflexivity.
Qed.

Lemma pattern_loop_no_attempt self pattern query :
  Engine.max_retries self = 0%nat ->
  forall results context st,
    Engine.pattern_loop iface self pattern query results context st = (results, st).
Proof.
  intros Hzero. induction pattern as [|tool rest IH]; intros results context st.
  - reflexivity.
  - cbn [Engine.pattern_loop]. rewrite Hzero. cbn [Engine.retry_loop].
    apply IH.
Qed.

(** C4. Whatever the tools do, [execute] returns a result.  With at least
    one attempt allowed the run goes through, whatever fails inside the
    steps: the result is completed and not the error result, it is for the
    tier and pattern of the query, every step of the pattern has left its
    records in pattern order (exactly one per step when no context update
    raises), and it holds the verdict of the analysis of these records,
    with the success flag of the records.  A failure of the run itself --
    here the configuration [max_retries = 0], which leaves nothing to
    analyse -- is caught and turned into the error result: complexity
    "unknown", no pattern, no record, not converged, no success, the text
    of the exception under ['error'] and in the one insight, and the two
    fixed next actions.  The two kinds of result cannot be confused. *)
Theorem execute_returns_verdict_or_error
        (self : Engine.AutomatedExecutionEngine) (query : string)
        (elapsed timestamp : R) :
  let r := fst (Engine.execute iface self query elapsed timestamp) in
  ((1 <= Engine.max_retries self)%nat ->
     Spec.completed r
     /\ ~ Spec.failed r
     /\ Engine.res_query r = query
     /\ Engine.assess query = inr (Engine.res_complexity r)
     /\ Engine.get_pattern (Engine.res_complexity r) = inr (Engine.res_pattern r)
     /\ Engine.res_pattern r <> []
     /\ (exists groups,
           Engine.res_mcp_results r = concat groups
           /\ Forall2 (Spec.step_records iface self query)
                      (Engine.res_pattern r) groups)
     /\ (Spec.context_updates_succeed iface self query ->
         Forall2 (Spec.record_ok iface self query)
                 (Engine.res_pattern r) (Engine.res_mcp_results r))
     /\ Engine.res_convergence_data r
        = Engine.analyze (Engine.convergence_threshold self) (Engine.res_mcp_results r)
     /\ Engine.res_success r = forallb Engine.success (Engine.res_mcp_results r))
  /\ (Engine.max_retries self = 0%nat ->
      Spec.failed r
      /\ ~ Spec.completed r
      /\ r = Engine.failed_execution query (Py.KeyError "total_execution_time") elapsed
      /\ r = Engine.mkHRMResult
               query "unknown" [] []
               (Engine.mkConvergenceData
                  false None None None None None None
                  (Some "HRM execution failed: 'total_execution_time'"))
               elapsed false
               [Engine.ExecutionFailed "HRM execution failed: 'total_execution_time'"]
               ["Debug execution error"; "Retry with different approach"])
  /\ (Spec.completed r \/ Spec.failed r)
  /\ ~ (Spec.completed r /\ Spec.failed r).
Proof.
  intros r.
  assert (Hdisj : ~ (Spec.completed r /\ Spec.failed r)).
  { intros [(Hnone & _) ((msg & Hsome) & _)]. congruence. }
  assert (Hrun : (1 <= Engine.max_retries self)%nat ->
     Spec.completed r
     /\ Engine.res_query r = query
     /\ Engine.assess query = inr (Engine.res_complexity r)
     /\ Engine.get_pattern (Engine.res_complexity r) = inr (Engine.res_pattern r)
     /\ Engine.res_pattern r <> []
     /\ (exists groups,
           Engine.res_mcp_results r = concat groups
           /\ Forall2 (Spec.step_records iface self query)
                      (Engine.res_pattern r) groups)
     /\ (Spec.context_updates_succeed iface self query ->
         Forall2 (Spec.record_ok iface self query)
                 (Engine.res_pattern r) (Engine.res_mcp_results r))
     /\ Engine.res_convergence_data r
        = Engine.analyze (Engine.convergence_threshold self) (Engine.res_mcp_results r)
     /\ Engine.res_success r = forallb Engine.success (Engine.res_mcp_results r)).
  { intros Hattempts. subst r. unfold Engine.execute.
    rewrite engine_assess_first.
    set (tier := Spec.first_matching_tier (Spec.keyword_match query)).
    pose proof (first_matching_tier_known (Spec.keyword_match query)) as Hknown.
    fold tier in Hknown.
    destruct (engine_get_pattern_known tier Hknown) as (tool & rest & Hpat).
    rewrite Hpat.
    destruct (pattern_loop_groups iface self query Hattempts (tool :: rest) []
                query (Engine.mcp_interface self))
      as (groups & Hrec & Hgroups & Hsafe & _).
    unfold Engine._execute_pattern_with_retries.
    destruct (Engine.pattern_loop iface self (tool :: rest) query [] query
                (Engine.mcp_interface self)) as [mcp_results st].
    cbn [fst app] in Hrec. subst mcp_results.
    assert (Hne : concat groups <> []).
    { inversion Hgroups as [|? g ? gs [Hg _] _]; subst. cbn [concat].
      destruct g; [congruence|discriminate]. }
    destruct (concat groups) as [|r0 rs] eqn:Hconcat; [congruence|].
    cbn [Engine.convergence_threshold Engine.with_interface].
    destruct (generate_total query (Engine.convergence_threshold self) r0 rs)
      as (insights & next_actions & Hgen).
    rewrite Hgen. cbn [fst Engine.res_complexity Engine.res_pattern Engine.res_query
                       Engine.res_mcp_results Engine.res_convergence_data
                       Engine.res_success].
    split.
    { unfold Spec.completed.
      cbn [Engine.res_complexity Engine.res_convergence_data].
      split; [reflexivity|]. split; [exact Hknown|]. split; discriminate. }
    split; [reflexivity|]. split; [reflexivity|]. split; [exact Hpat|].
    split; [discriminate|].
    split; [exists groups; split; [now rewrite Hconcat|exact Hgroups]|].
    split; [|split; reflexivity].
    intros H. rewrite <- Hconcat.
    assert (Hone : Forall (fun group => exists r, group = [r] /\ True) groups).
    { eapply List.Forall_impl; [|exact (Hsafe H)].
      intros g (r & ->). exists r. split; [reflexivity|exact I]. }
    pose proof (singleton_groups iface self query (fun _ => True)
                  (tool :: rest) groups Hgroups Hone) as Hsingle.
    apply (one_record_per_step (Spec.record_ok iface self query)).
    eapply Forall2_impl; [exact Hsingle|].
    intros t g (r & -> & Hok & _). exists r. split; [reflexivity|exact Hok]. }
  assert (Hzero : Engine.max_retries self = 0%nat ->
      r = Engine.failed_execution query (Py.KeyError "total_execution_time") elapsed).
  { intros Hzero. subst r. unfold Engine.execute.
    rewrite engine_assess_first.
    set (tier := Spec.first_matching_tier (Spec.keyword_match query)).
    pose proof (first_matching_tier_known (Spec.keyword_match query)) as Hknown.
    fold tier in Hknown.
    destruct (engine_get_pattern_known tier Hknown) as (tool & rest & Hpat).
    rewrite Hpat. unfold Engine._execute_pattern_with_retries.
    rewrite (pattern_loop_no_attempt self (tool :: rest) query Hzero).
    reflexivity. }
  assert (Hfailed : Engine.max_retries self = 0%nat -> Spec.failed r).
  { intros H. rewrite (Hzero H). unfold Spec.failed. cbn.
    split; [eexists; reflexivity|]. repeat split. }
  split.
  { intros H. destruct (Hrun H) as (Hc & Hrest).
    split; [exact Hc|]. split; [|exact Hrest].
    intros Hf. apply Hdisj. split; assumption. }
  split.
  { intros H. split; [exact (Hfailed H)|].
    split; [intros Hc; apply Hdisj; split; [exact Hc|exact (Hfailed H)]|].
    split; [exact (Hzero H)|]. rewrite (Hzero H). reflexivity. }
  split; [|exact Hdisj].
  destruct (Engine.max_retries self) as [|n] eqn:Hn.
  - right. apply Hfailed. reflexivity.
  - left. apply Hrun. lia.
Qed.

End Execute.


(** *** Arithmetic of the statistics *)

Section Statistics.

Lemma Rleb_true x y : Py.Rleb x y = true <-> x <= y.
Proof. unfold Py.Rleb. destruct (Rle_dec x y); split; (congruence || tauto). Qed.

Lemma Rleb_false x y : Py.Rleb x y = false <-> y < x.
Proof.
  unfold Py.Rleb. destruct (Rle_dec x y); split; intros; try congruence; lra.
Qed.

Lemma Rltb_true x y : Py.Rltb x y = true <-> x < y.
Proof. unfold Py.Rltb. destruct (Rlt_dec x y); split; (congruence || tauto). Qed.

Lemma Rltb_false x y : Py.Rltb x y = false <-> y <= x.
Proof.
  unfold Py.Rltb. destruct (Rlt_dec x y); split; intros; try congruence; lra.
Qed.

Lemma Reqb_true x y : Py.Reqb x y = true <-> x = y.
Proof. unfold Py.Reqb. destruct (Req_dec_T x y); split; (congruence || tauto). Qed.

Lemma Reqb_false x y : Py.Reqb x y = false <-> x <> y.
Proof. unfold Py.Reqb. destruct (Req_dec_T x y); split; (congruence || tauto). Qed.

Lemma fold_left_Rplus l a : fold_left Rplus l a = a + fold_left Rplus l 0.
Proof.
  revert a. induction l as [|x l IH]; intros a; cbn [fold_left]; [lra|].
  rewrite (IH (a + x)), (IH (0 + x)). lra.
Qed.

Lemma sum_nil : Py.sum [] = 0.
Proof. reflexivity. Qed.

Lemma sum_cons x l : Py.sum (x :: l) = x + Py.sum l.
Proof. unfold Py.sum. cbn [fold_left]. rewrite fold_left_Rplus. lra. Qed.

Lemma sum_app l l' : Py.sum (l ++ l') = Py.sum l + Py.sum l'.
Proof.
  induction l as [|x l IH]; cbn [app]; rewrite ?sum_nil, ?sum_cons; [lra|].
  rewrite IH. lra.
Qed.

Lemma sum_bounds a b l :
  Forall (fun x => a <= x <= b) l ->
  a * INR (length l) <= Py.sum l <= b * INR (length l).
Proof.
  induction 1 as [|x l Hx _ IH].
  - rewrite sum_nil. cbn. lra.
  - rewrite sum_cons. change (length (x :: l)) with (S (length l)).
    rewrite S_INR. lra.
Qed.

Lemma length_pos_INR {A} (l : list A) : l <> [] -> 0 < INR (length l).
Proof.
  intros H. destruct l as [|x l]; [congruence|].
  change (length (x :: l)) with (S (length l)). rewrite S_INR.
  pose proof (pos_INR (length l)). lra.
Qed.

Lemma mean_nonempty l : l <> [] -> Py.mean l = inr (Spec.mean l).
Proof. destruct l; [congruence|reflexivity]. Qed.

Lemma mean_bounds a b l :
  l <> [] -> Forall (fun x => a <= x <= b) l -> a <= Spec.mean l <= b.
Proof.
  intros Hne Hall. unfold Spec.mean.
  pose proof (length_pos_INR l Hne) as Hpos.
  pose proof (sum_bounds a b l Hall) as [Hlo Hhi].
  split.
  - apply Rmult_le_reg_r with (INR (length l)); [exact Hpos|].
    unfold Rdiv. rewrite Rmult_assoc, Rinv_l by lra. lra.
  - apply Rmult_le_reg_r with (INR (length l)); [exact Hpos|].
    unfold Rdiv. rewrite Rmult_assoc, Rinv_l by lra. lra.
Qed.

Lemma truediv_nonzero a b : b <> 0 -> Py.truediv a b = inr (a / b).
Proof.
  intros H. unfold Py.truediv.
  destruct (Py.Reqb b 0) eqn:E; [apply Reqb_true in E; contradiction|reflexivity].
Qed.

End Statistics.


(** *** The diminishing returns strategy *)

Section DiminishingReturns.

Lemma gain_cons a l i : Spec.gain (a :: l) (S i) = Spec.gain l i.
Proof. reflexivity. Qed.

Lemma gains_of_gains confidences :
  Convergence.gains_of confidences = Spec.gains confidences.
Proof.
  unfold Spec.gains.
  induction confidences as [|a l IH]; [reflexivity|].
  destruct l as [|b t]; [reflexivity|].
  change (Convergence.gains_of (a :: b :: t))
    with (Rmax 0 (b - a) :: Convergence.gains_of (b :: t)).
  rewrite IH.
  replace (length (a :: b :: t) - 1)%nat with (S (length (b :: t) - 1))
    by (cbn [length]; lia).
  cbn [seq map]. f_equal.
  rewrite <- seq_shift, map_map. apply map_ext. intros i. symmetry. apply gain_cons.
Qed.

Lemma length_gains confidences :
  length (Spec.gains confidences) = (length confidences - 1)%nat.
Proof. unfold Spec.gains. now rewrite length_map, length_seq. Qed.

Lemma last_two_gains confidences :
  (3 <= length confidences)%nat ->
  Py.last_n 2 (Spec.gains confidences)
  = [ Spec.gain confidences (length confidences - 3);
      Spec.gain confidences (length confidences - 2) ].
Proof.
  intros H. unfold Py.last_n. rewrite length_gains. unfold Spec.gains.
  rewrite skipn_map, skipn_seq.
  replace (length confidences - 1 - (length confidences - 1 - 2))%nat with 2%nat by lia.
  cbn [seq map].
  replace (0 + (length confidences - 1 - 2))%nat with (length confidences - 3)%nat by lia.
  replace (S (length confidences - 3)) with (length confidences - 2)%nat by lia.
  reflexivity.
Qed.

(** C5. With fewer than three confidences the strategy abstains: score
    0, not converged.  With three or more, the gains are
    [max(0, c[i] - c[i-1])]; the strategy reports convergence exactly when
    the two most recent gains are at most 0.05 and the mean of all gains is
    below 0.1; the score is one minus that mean when converged and the mean
    otherwise.  The confidences 0.70, 0.75, 0.77, 0.78, 0.78 converge. *)
Theorem diminishing_returns_strategy (confidences : list R)
        (mcp_results : list Convergence.Result) :
  ((length confidences < 3)%nat ->
     exists a,
       Convergence._analyze_diminishing_returns confidences mcp_results = inr a
       /\ Convergence.converged a = false /\ Convergence.score a = 0)
  /\ ((3 <= length confidences)%nat ->
      let n := length confidences in
      let avg_gain := Spec.mean (Spec.gains confidences) in
      exists a,
        Convergence._analyze_diminishing_returns confidences mcp_results = inr a
        /\ Convergence.metrics a
           = Convergence.ReturnsMetrics
               (Spec.gains confidences) avg_gain
               [Spec.gain confidences (n - 3); Spec.gain confidences (n - 2)]
        /\ (Convergence.converged a = true <->
            Spec.gain confidences (n - 3) <= 0.05
            /\ Spec.gain confidences (n - 2) <= 0.05
            /\ avg_gain < 0.1)
        /\ Convergence.score a
           = if Convergence.converged a then 1 - avg_gain else avg_gain)
  /\ (exists a,
        Convergence._analyze_diminishing_returns
          [0.70; 0.75; 0.77; 0.78; 0.78] mcp_results = inr a
        /\ Convergence.converged a = true).
Proof.
  assert (Hmain : forall c, (3 <= length c)%nat ->
      let n := length c in
      let avg_gain := Spec.mean (Spec.gains c) in
      exists a,
        Convergence._analyze_diminishing_returns c mcp_results = inr a
        /\ Convergence.metrics a
           = Convergence.ReturnsMetrics
               (Spec.gains c) avg_gain
               [Spec.gain c (n - 3); Spec.gain c (n - 2)]
        /\ (Convergence.converged a = true <->
            Spec.gain c (n - 3) <= 0.05
            /\ Spec.gain c (n - 2) <= 0.05
            /\ avg_gain < 0.1)
        /\ Convergence.score a
           = if Convergence.converged a then 1 - avg_gain else avg_gain).
  { intros c H n avg_gain. unfold Convergence._analyze_diminishing_returns.
    destruct (Nat.ltb_spec (length c) 3) as [Hlt|_]; [lia|].
    rewrite gains_of_gains.
    destruct (Nat.leb_spec 2 (length (Spec.gains c))) as [_|Hlt];
      [|rewrite length_gains in Hlt; lia].
    rewrite last_two_gains by exact H.
    rewrite mean_nonempty
      by (intros E; apply (f_equal (@length R)) in E; rewrite length_gains in E;
          cbn in E; lia).
    cbn [Py.bind Py.ret forallb].
    eexists. split; [reflexivity|].
    cbn [Convergence.metrics Convergence.converged Convergence.score].
    split; [reflexivity|]. split.
    - rewrite !andb_true_iff, !Rleb_true, Rltb_true. fold n avg_gain. tauto.
    - fold avg_gain.
      match goal with |- (if ?b then _ else _) = _ => destruct b end; lra. }
  split; [|split].
  - intros H. unfold Convergence._analyze_diminishing_returns.
    destruct (Nat.ltb_spec (length confidences) 3) as [_|Hge]; [|lia].
    eexists. split; [reflexivity|]. split; [reflexivity|]. cbn. lra.
  - apply Hmain.
  - destruct (Hmain [0.70; 0.75; 0.77; 0.78; 0.78]) as (a & Heq & _ & Hconv & _);
      [cbn; lia|].
    exists a. split; [exact Heq|]. apply Hconv.
    unfold Spec.mean, Spec.gains, Spec.gain, Py.sum. cbn.
    unfold Rmax. repeat destruct (Rle_dec _ _); lra.
Qed.

Lemma diminishing_returns_strategy_witness :
  (length [0.5%R; 0.9%R] < 3)%nat
  /\ (3 <= length [0.70%R; 0.75%R; 0.77%R; 0.78%R; 0.78%R])%nat
  /\ (exists a,
        Convergence._analyze_diminishing_returns [0.5; 0.9] [] = inr a
        /\ Convergence.converged a = false /\ Convergence.score a = 0)
  /\ (exists a,
        Convergence._analyze_diminishing_returns
          [0.70; 0.75; 0.77; 0.78; 0.78] [] = inr a
        /\ Convergence.converged a = true).
Proof.
  assert (H2 : (length [0.5%R; 0.9%R] < 3)%nat) by (cbn; lia).
  assert (H5 : (3 <= length [0.70%R; 0.75%R; 0.77%R; 0.78%R; 0.78%R])%nat) by (cbn; lia).
  split; [exact H2|]. split; [exact H5|]. split.
  - exact (proj1 (diminishing_returns_strategy [0.5; 0.9] []) H2).
  - exact (proj2 (proj2 (diminishing_returns_strategy [0.5; 0.9] []))).
Defined.

End DiminishingReturns.


(** *** Evaluation without a usable result *)

Section Evaluate.

Lemma readable_dec (r : Convergence.Result) : {Spec.readable r} + {~ Spec.readable r}.
Proof.
  unfold Spec.readable.
  destruct (Convergence.confidence r) as [c|], (Convergence.success r) as [b|].
  - left. intros _. discriminate.
  - right. intros H. apply H; [discriminate|reflexivity].
  - left. intros _. discriminate.
  - left. intros H. congruence.
Qed.

Lemma confidences_of_readable (results : list Convergence.Result) :
  Forall Spec.readable results ->
  Convergence.confidences_of results = inr (Spec.successful_confidences results).
Proof.
  induction 1 as [|r rs Hr _ IH]; [reflexivity|].
  cbn [Convergence.confidences_of Spec.successful_confidences flat_map].
  fold (Spec.successful_confidences rs). rewrite IH.
  unfold Spec.kept, Spec.readable, Convergence.get_success in *.
  destruct (Convergence.confidence r) as [c|]; [|reflexivity].
  destruct (Convergence.success r) as [[|]|]; try reflexivity.
  exfalso. apply Hr; [discriminate|reflexivity].
Qed.

Lemma confidences_of_unreadable (results : list Convergence.Result) :
  ~ Forall Spec.readable results ->
  exists r,
    In r results /\ ~ Spec.readable r
    /\ Convergence.confidences_of results
       = inl (Py.no_attribute (Convergence.type_name r) "success").
Proof.
  induction results as [|r rs IH]; intros Hnot; [exfalso; apply Hnot; constructor|].
  destruct (readable_dec r) as [Hr|Hr].
  - destruct IH as (r' & Hin & Hr' & Heq).
    { intros H. apply Hnot. now constructor. }
    exists r'. split; [now right|]. split; [exact Hr'|].
    cbn [Convergence.confidences_of]. rewrite Heq.
    unfold Spec.readable, Convergence.get_success in Hr |- *.
    destruct (Convergence.confidence r) as [c|]; [|reflexivity].
    destruct (Convergence.success r) as [b|]; [reflexivity|].
    exfalso. apply Hr; [discriminate|reflexivity].
  - exists r. split; [now left|]. split; [exact Hr|].
    cbn [Convergence.confidences_of].
    unfold Spec.readable, Convergence.get_success in Hr |- *.
    destruct (Convergence.confidence r) as [c|].
    + destruct (Convergence.success r) as [b|]; [|reflexivity].
      exfalso. apply Hr. intros _. discriminate.
    + exfalso. apply Hr. intros H. congruence.
Qed.

Lemma analyze_convergence_unreadable self mcp_results iteration complexity pattern :
  ~ Forall Spec.readable mcp_results ->
  exists r,
    In r mcp_results /\ ~ Spec.readable r
    /\ Convergence.analyze_convergence self mcp_results iteration complexity pattern
       = (inl (Py.no_attribute (Convergence.type_name r) "success"), self).
Proof.
  intros Hnot.
  destruct (confidences_of_unreadable mcp_results Hnot) as (r & Hin & Hr & Heq).
  exists r. split; [exact Hin|]. split; [exact Hr|].
  unfold Convergence.analyze_convergence.
  destruct mcp_results as [|r0 rs]; [destruct Hin|].
  now rewrite Heq.
Qed.

Lemma no_confidence_kept (mcp_results : list Convergence.Result) :
  Forall (fun r => ~ (Convergence.confidence r <> None
                      /\ Convergence.success r = Some true)) mcp_results ->
  Spec.successful_confidences mcp_results = [].
Proof.
  induction 1 as [|r rs Hr _ IH]; [reflexivity|].
  cbn [Spec.successful_confidences flat_map].
  fold (Spec.successful_confidences rs). rewrite IH, app_nil_r.
  unfold Spec.kept.
  destruct (Convergence.confidence r) as [c|]; [|reflexivity].
  destruct (Convergence.success r) as [[|]|]; try reflexivity.
  exfalso. apply Hr. split; [discriminate|reflexivity].
Qed.

(** C10. When the records are not empty, none of them is both a success
    and with a confidence, and each one that has a confidence has a success
    flag, [analyze_convergence] returns the fixed result "No successful
    results with confidence", not converged and with confidence 0.0; it
    raises nothing, and the analyzer is left as it was: no strategy ran,
    nothing was recorded.  A record with a confidence and without a success
    flag is no success with a confidence either, but there the
    comprehension that collects the confidences reads [r.success] without
    the test that the next line makes, and [analyze_convergence] raises
    [AttributeError]: so for the list of one record of class [Partial]
    that has a confidence of 0.9 and nothing else. *)
Theorem analyze_convergence_no_successful_result
        (self : Convergence.AdvancedConvergenceAnalyzer)
        (mcp_results : list Convergence.Result) (iteration : nat)
        (complexity : string) (pattern : option (list string)) :
  (mcp_results <> [] ->
   Forall (fun r => ~ (Convergence.confidence r <> None
                       /\ Convergence.success r = Some true)) mcp_results ->
   Forall Spec.readable mcp_results ->
   Convergence.analyze_convergence self mcp_results iteration complexity pattern
   = (inr (Convergence.Standard
             (Convergence.mkStandard false 0.0
                "No successful results with confidence"
                "confidence_threshold"
                "System needs attention - review input data and tool configuration")),
      self))
  /\ (~ Forall Spec.readable mcp_results ->
      exists r,
        In r mcp_results
        /\ Convergence.confidence r <> None /\ Convergence.success r = None
        /\ Convergence.analyze_convergence self mcp_results iteration complexity pattern
           = (inl (Py.AttributeError
                     ("'" +:+ Convergence.type_name r
                      +:+ "' object has no attribute 'success'")),
              self))
  /\ Convergence.analyze_convergence
       self [Convergence.mkResult "Partial" None None (Some 0.9)]
       iteration complexity pattern
     = (inl (Py.AttributeError "'Partial' object has no attribute 'success'"), self).
Proof.
  split; [|split].
  - intros Hne Hnone Hread. unfold Convergence.analyze_convergence.
    destruct mcp_results as [|r rs]; [congruence|].
    rewrite (confidences_of_readable _ Hread), (no_confidence_kept _ Hnone).
    reflexivity.
  - intros Hnot.
    destruct (analyze_convergence_unreadable self mcp_results iteration complexity
                pattern Hnot) as (r & Hin & Hr & Heq).
    exists r. split; [exact Hin|].
    unfold Spec.readable in Hr.
    destruct (Convergence.confidence r) as [c|] eqn:Hc.
    + destruct (Convergence.success r) as [b|] eqn:Hs.
      * exfalso. apply Hr. intros _. discriminate.
      * split; [discriminate|]. split; [reflexivity|exact Heq].
    + exfalso. apply Hr. intros H. congruence.
  - reflexivity.
Qed.

(** A success that has no confidence and a failure that has one: the fixed
    result. *)
Lemma analyze_convergence_no_successful_result_witness :
  let bare := Convergence.mkResult "Bare" (Some "web_search") (Some true) None in
  let failed := Convergence.mkResult "MockResult" (Some "web_search") (Some false)
                                     (Some 0.4) in
  let self := Convergence.mkAnalyzer 0.75 [] ∅ in
  [bare; failed] <> []
  /\ Forall Spec.readable [bare; failed]
  /\ Convergence.analyze_convergence self [bare; failed] 1 "medium" None
     = (inr (Convergence.Standard
               (Convergence.mkStandard false 0.0
                  "No successful results with confidence"
                  "confidence_threshold"
                  "System needs attention - review input data and tool configuration")),
        self).
Proof.
  intros bare failed self.
  assert (Hne : [bare; failed] <> []) by discriminate.
  assert (Hread : Forall Spec.readable [bare; failed]).
  { repeat constructor; intros _; discriminate. }
  assert (Hnone : Forall (fun r => ~ (Convergence.confidence r <> None
                                      /\ Convergence.success r = Some true))
                         [bare; failed]).
  { repeat constructor; intros [H1 H2]; [now apply H1|discriminate H2]. }
  split; [exact Hne|]. split; [exact Hread|].
  exact (proj1 (analyze_convergence_no_successful_result self [bare; failed] 1
                  "medium" None) Hne Hnone Hread).
Defined.

End Evaluate.


(** *** The combination of the strategies *)

Section Combination.

Lemma max_by_in {A} (key : A -> R) l : forall x, In (Py.max_by key x l) (x :: l).
Proof.
  induction l as [|y l IH]; intros x; cbn [Py.max_by]; [now left|].
  destruct (Py.Rltb (key x) (key y)).
  - right. apply IH.
  - destruct (IH x) as [H|H]; [now left|right; now right].
Qed.

Lemma max_by_max {A} (key : A -> R) l :
  forall x y, In y (x :: l) -> key y <= key (Py.max_by key x l).
Proof.
  induction l as [|z l IH]; intros x y Hy; cbn [Py.max_by].
  - destruct Hy as [->|[]]. lra.
  - destruct (Py.Rltb (key x) (key z)) eqn:E.
    + apply Rltb_true in E. destruct Hy as [->|Hy].
      * pose proof (IH z z (or_introl eq_refl)). lra.
      * apply IH. exact Hy.
    + apply Rltb_false in E. destruct Hy as [->|[->|Hy]].
      * apply IH. now left.
      * pose proof (IH x x (or_introl eq_refl)). lra.
      * apply IH. now right.
Qed.

Lemma fold_combine_step l :
  forall ws v d,
    exists d',
      fold_left Convergence.combine_step l (ws, v, d)
      = (ws ++ map (fun s => Convergence.score s
                             * Convergence.weights (Convergence.strategy s)) l,
         v + Py.sum (map (fun s => if Convergence.converged s
                                   then Convergence.weights (Convergence.strategy s)
                                   else 0) l),
         d').
Proof.
  induction l as [|s l IH]; intros ws v d; cbn [fold_left map].
  - exists d. rewrite app_nil_r, sum_nil. do 2 f_equal. lra.
  - unfold Convergence.combine_step at 2.
    destruct (IH (ws ++ [Convergence.score s
                         * Convergence.weights (Convergence.strategy s)])
                 (if Convergence.converged s
                  then v + Convergence.weights (Convergence.strategy s) else v)
                 (<[Convergence.value (Convergence.strategy s) := s]> d))
      as (d' & Heq).
    exists d'. rewrite Heq, <- app_assoc, sum_cons. cbn [app]. do 2 f_equal.
    destruct (Convergence.converged s); lra.
Qed.

Lemma sum_map_filter {A} (f : A -> R) (P : A -> bool) l :
  Py.sum (map f (List.filter P l))
  = Py.sum (map (fun s => if P s then f s else 0) l).
Proof.
  induction l as [|x l IH]; cbn [List.filter map]; [reflexivity|].
  destruct (P x); cbn [map]; rewrite !sum_cons, IH; lra.
Qed.

Lemma filter_nil_Forall {A} (P : A -> bool) l :
  List.filter P l = [] -> Forall (fun s => P s = false) l.
Proof.
  induction l as [|x l IH]; cbn [List.filter]; [constructor|].
  destruct (P x) eqn:E; [discriminate|]. intros H. constructor; auto.
Qed.

(** C1. Only the strategies with a score above 0 take part.  When there
    is none, the result is the fixed "No valid convergence strategies"
    result, not converged, with confidence 0.0 and no vote.  Otherwise the
    vote is the sum of the weights (0.40, 0.20, 0.25, 0.15) of the
    strategies that take part and report convergence, the combined score
    is the sum of weight times score over those that take part, the
    verdict is converged exactly when the vote reaches 0.5, and the
    primary strategy is one that takes part and whose score no other
    strategy exceeds. *)
Theorem combine_convergence_strategies
        (confidence_analysis returns_analysis consensus_analysis
         adaptive_analysis : Convergence.Analysis) :
  let all := [confidence_analysis; returns_analysis; consensus_analysis;
              adaptive_analysis] in
  (Convergence.weights Convergence.CONFIDENCE_THRESHOLD = 0.40
   /\ Convergence.weights Convergence.DIMINISHING_RETURNS = 0.20
   /\ Convergence.weights Convergence.CONSENSUS_VALIDATION = 0.25
   /\ Convergence.weights Convergence.ADAPTIVE_LEARNING = 0.15)
  /\ match Convergence._combine_convergence_strategies
             confidence_analysis returns_analysis consensus_analysis
             adaptive_analysis with
     | Convergence.Standard r =>
         Forall (fun s => Convergence.score s <= 0) all
         /\ r = Convergence.mkStandard false 0.0 "No valid convergence strategies"
                  "confidence_threshold"
                  "System needs attention - review input data and tool configuration"
     | Convergence.Combined r =>
         Exists (fun s => 0 < Convergence.score s) all
         /\ Convergence.convergence_votes r
            = Spec.vote_of confidence_analysis + Spec.vote_of returns_analysis
              + Spec.vote_of consensus_analysis + Spec.vote_of adaptive_analysis
         /\ Convergence.combined_score r
            = Spec.share_of confidence_analysis + Spec.share_of returns_analysis
              + Spec.share_of consensus_analysis + Spec.share_of adaptive_analysis
         /\ Convergence.c_confidence r = Convergence.combined_score r
         /\ (Convergence.c_converged r = true
             <-> 0.5 <= Convergence.convergence_votes r)
         /\ exists primary,
             In primary all
             /\ 0 < Convergence.score primary
             /\ Convergence.primary_strategy r
                = Convergence.value (Convergence.strategy primary)
             /\ Forall (fun s => Convergence.score s <= Convergence.score primary) all
     end.
Proof.
  intros all. split.
  { cbn [Convergence.weights]. repeat split; lra. }
  unfold Convergence._combine_convergence_strategies. fold all.
  destruct (List.filter (fun s => Py.Rltb 0 (Convergence.score s)) all)
    as [|first others] eqn:Hvalid.
  - split; [|reflexivity].
    apply filter_nil_Forall in Hvalid.
    eapply List.Forall_impl; [|exact Hvalid].
    intros s Hs. cbn beta in Hs. apply Rltb_false in Hs. exact Hs.
  - destruct (fold_combine_step (first :: others) [] 0 ∅) as (d' & Hfold).
    rewrite Hfold. cbn [app].
    cbn [Convergence.convergence_votes Convergence.combined_score
         Convergence.c_confidence Convergence.c_converged
         Convergence.primary_strategy].
    assert (Hin : forall s, In s (first :: others) <->
                            In s all /\ 0 < Convergence.score s).
    { intros s. rewrite <- Hvalid, List.filter_In, Rltb_true. reflexivity. }
    split; [|split; [|split; [|split; [reflexivity|split]]]].
    + apply List.Exists_exists. exists first. apply Hin. now left.
    + rewrite <- Hvalid, sum_map_filter. unfold all. cbn [map].
      rewrite !sum_cons, sum_nil. unfold Spec.vote_of. lra.
    + rewrite <- Hvalid,
        (sum_map_filter
           (fun s => Convergence.score s
                     * Convergence.weights (Convergence.strategy s))).
      unfold all. cbn [map].
      rewrite !sum_cons, sum_nil. unfold Spec.share_of.
      repeat match goal with |- context [Py.Rltb 0 ?x] => destruct (Py.Rltb 0 x) end;
        lra.
    + apply Rleb_true.
    + pose proof (max_by_in Convergence.score others first) as Hp.
      pose proof (max_by_max Convergence.score others first) as Hmax.
      set (primary := Py.max_by Convergence.score first others) in *.
      apply Hin in Hp. destruct Hp as [Hp Hpos].
      exists primary. split; [exact Hp|]. split; [exact Hpos|].
      split; [reflexivity|].
      apply List.Forall_forall. intros s Hs.
      destruct (Rlt_dec 0 (Convergence.score s)) as [Hs0|Hs0].
      * apply Hmax. apply Hin. split; assumption.
      * lra.
Qed.

End Combination.


(** *** The confidence threshold strategy *)

Section ConfidenceThreshold.

Lemma float_one : 1.0 = 1.
Proof. lra. Qed.

Lemma float_zero : 0.0 = 0.
Proof. lra. Qed.

Lemma tier_threshold_lookup base tier :
  Py.get Convergence.complexity_thresholds tier base = Spec.tier_threshold base tier.
Proof.
  unfold Py.get, Spec.tier_threshold, Convergence.complexity_thresholds.
  cbn [list_to_map foldr fst snd].
  destruct (String.eqb_spec tier "simple") as [->|H1]; [reflexivity|].
  destruct (String.eqb_spec tier "medium") as [->|H2]; [reflexivity|].
  destruct (String.eqb_spec tier "complex") as [->|H3]; [reflexivity|].
  destruct (String.eqb_spec tier "expert") as [->|H4]; [reflexivity|].
  rewrite !lookup_insert_ne by congruence.
  now rewrite lookup_empty.
Qed.

Lemma stdev_two_points data :
  (1 < length data)%nat -> Py.stdev data = inr (Spec.stdev data).
Proof.
  destruct data as [|a [|b t]]; cbn [length]; try lia. reflexivity.
Qed.


Lemma confidence_threshold_result self confidences success_rate tier :
  confidences <> [] ->
  Convergence._analyze_confidence_threshold self confidences success_rate tier
  = inr (let m := Spec.mean confidences in
         let stab := Spec.stability confidences in
         let thr := Spec.tier_threshold (Convergence.base_threshold self) tier in
         Convergence.mkAnalysis
           (Py.Rleb thr m && Py.Rleb 0.8 success_rate && Py.Rleb 0.7 stab)
           Convergence.CONFIDENCE_THRESHOLD
           (m * success_rate * stab)
           (Convergence.ThresholdMetrics m thr success_rate stab)
           (Convergence.ThresholdReason m thr success_rate stab)).
Proof.
  intros Hne. unfold Convergence._analyze_confidence_threshold.
  rewrite tier_threshold_lookup, (mean_nonempty _ Hne). cbn [Py.bind].
  assert (Hstab :
    (let* confidence_std :=
       if (1 <? length confidences)%nat then Py.stdev confidences else Py.ret 0 in
     let* confidence_stability :=
       if Py.Rltb 0 (Spec.mean confidences) then
         let* ratio := Py.truediv confidence_std (Spec.mean confidences) in
         Py.ret (1.0 - Rmin ratio 1.0)
       else Py.ret 0 in
     Py.ret confidence_stability) = inr (Spec.stability confidences)).
  { unfold Spec.stability, Spec.relative_spread.
    destruct (Nat.ltb_spec 1 (length confidences)) as [Hlen|Hlen].
    - rewrite (stdev_two_points _ Hlen). cbn [Py.bind].
      unfold Py.Rltb.
      destruct (Rlt_dec 0 (Spec.mean confidences)) as [Hpos|Hpos]; [|reflexivity].
      rewrite truediv_nonzero by lra. cbn [Py.bind Py.ret].
      unfold Py.ret. now rewrite float_one.
    - cbn [Py.bind Py.ret]. unfold Py.Rltb.
      destruct (Rlt_dec 0 (Spec.mean confidences)) as [Hpos|Hpos]; [|reflexivity].
      rewrite truediv_nonzero by lra. cbn [Py.bind Py.ret].
      unfold Py.ret. now rewrite float_one. }
  destruct (if (1 <? length confidences)%nat then Py.stdev confidences else Py.ret 0)
    as [e|sd]; [discriminate Hstab|].
  cbn [Py.bind] in Hstab |- *.
  destruct (if Py.Rltb 0 (Spec.mean confidences) then _ else _) as [e|stab];
    [discriminate Hstab|].
  cbn [Py.bind Py.ret] in Hstab |- *. injection Hstab as ->. reflexivity.
Qed.

Lemma claimed_stability_agrees confidences :
  0 < Spec.mean confidences ->
  Spec.stability confidences = Spec.claimed_stability confidences.
Proof.
  intros Hpos. unfold Spec.stability, Spec.claimed_stability, Spec.relative_spread.
  destruct (Rlt_dec 0 (Spec.mean confidences)) as [_|H]; [|contradiction].
  destruct confidences as [|a [|b t]]; [| |reflexivity].
  - exfalso. unfold Spec.mean, Rdiv in Hpos. rewrite sum_nil, Rmult_0_l in Hpos. lra.
  - cbn [length Nat.ltb Nat.leb].
    unfold Rdiv. rewrite Rmult_0_l, Rmin_left; lra.
Qed.

Lemma stdev_example : Spec.stdev [0.92; 0.88; 0.90] = 0.02.
Proof.
  unfold Spec.stdev, Spec.mean. cbn [length map Nat.sub].
  rewrite !sum_cons, sum_nil. cbn [INR].
  replace (_ / _) with (0.02 * 0.02) by lra.
  apply sqrt_square. lra.
Qed.

(** C2, as the claim states the stability: a single confidence of 0.0,
    success rate 1.0, an unknown tier and a base threshold of 0.0.  The
    mean reaches the threshold, the success rate is above 0.8 and the
    claimed stability of a single sample is 1, yet the code takes the
    stability of a mean that is not positive to be 0 and does not
    converge. *)
Lemma confidence_threshold_zero_mean :
  let self := Convergence.mkAnalyzer 0.0 [] ∅ in
  exists a,
    Convergence._analyze_confidence_threshold self [0.0] 1.0 "custom" = inr a
    /\ Convergence.converged a = false
    /\ Spec.tier_threshold 0.0 "custom" <= Spec.mean [0.0]
    /\ 0.8 <= 1.0
    /\ 0.7 <= Spec.claimed_stability [0.0].
Proof.
  intros self. eexists. split.
  - apply confidence_threshold_result. discriminate.
  - assert (Hmean : Spec.mean [0.0] = 0).
    { unfold Spec.mean. rewrite sum_cons, sum_nil. cbn. lra. }
    assert (Hstab : Spec.stability [0.0] = 0).
    { unfold Spec.stability. rewrite Hmean.
      destruct (Rlt_dec 0 0); [lra|reflexivity]. }
    cbn [Convergence.converged Convergence.base_threshold self].
    rewrite Hstab, Hmean.
    change (Spec.tier_threshold 0.0 "custom") with 0.0.
    split.
    + apply andb_false_iff. right. apply Rleb_false. lra.
    + cbn [Spec.claimed_stability]. repeat split; lra.
Qed.

(** C2, amended. For confidences that are not empty, the strategy
    reports convergence exactly when the mean confidence reaches the
    threshold of the tier (0.65, 0.75, 0.80, 0.85; the base threshold for
    another tier), the success rate is at least 0.8 and the stability is at
    least 0.7; the score is mean times success rate times stability.  The
    stability is [1 - min(stdev/mean, 1)], which is 1 for a single
    sample, when the mean is positive, and 0 when the mean is not
    positive.  Three successes 0.92, 0.88, 0.90 at the Medium tier with
    success rate 1.0 converge. *)
Theorem confidence_threshold_strategy
        (self : Convergence.AdvancedConvergenceAnalyzer)
        (confidences : list R) (success_rate : R) (tier : string) :
  confidences <> [] ->
  let m := Spec.mean confidences in
  let stab := Spec.stability confidences in
  let thr := Spec.tier_threshold (Convergence.base_threshold self) tier in
  (exists a,
      Convergence._analyze_confidence_threshold self confidences success_rate tier
      = inr a
      /\ Convergence.strategy a = Convergence.CONFIDENCE_THRESHOLD
      /\ (Convergence.converged a = true <->
          thr <= m /\ 0.8 <= success_rate /\ 0.7 <= stab)
      /\ Convergence.score a = m * success_rate * stab)
  /\ (0 < m -> stab = Spec.claimed_stability confidences)
  /\ (m <= 0 -> stab = 0)
  /\ (exists a,
        Convergence._analyze_confidence_threshold self [0.92; 0.88; 0.90] 1.0 "medium"
        = inr a
        /\ Convergence.converged a = true).
Proof.
  intros Hne m stab thr. split; [|split; [|split]].
  - eexists. split; [apply (confidence_threshold_result _ _ _ _ Hne)|].
    cbn [Convergence.strategy Convergence.converged Convergence.score].
    split; [reflexivity|]. split; [|reflexivity].
    rewrite !andb_true_iff, !Rleb_true. fold m stab thr. tauto.
  - apply claimed_stability_agrees.
  - intros Hm. unfold stab, Spec.stability. fold m.
    destruct (Rlt_dec 0 m); [lra|reflexivity].
  - eexists. split; [apply confidence_threshold_result; discriminate|].
    cbn [Convergence.converged].
    assert (Hmean : Spec.mean [0.92; 0.88; 0.90] = 0.9).
    { unfold Spec.mean. rewrite !sum_cons, sum_nil. cbn. lra. }
    assert (Hstab : 0.7 <= Spec.stability [0.92; 0.88; 0.90]).
    { unfold Spec.stability, Spec.relative_spread. rewrite Hmean, stdev_example.
      cbn [length Nat.ltb Nat.leb].
      destruct (Rlt_dec 0 0.9); [|lra].
      rewrite Rmin_left; lra. }
    rewrite Hmean.
    change (Spec.tier_threshold (Convergence.base_threshold self) "medium") with 0.75.
    rewrite !andb_true_iff, !Rleb_true. repeat split; lra.
Qed.

Lemma confidence_threshold_strategy_witness :
  let self := Convergence.mkAnalyzer 0.75 [] ∅ in
  [0.92; 0.88; 0.90] <> []
  /\ exists a,
       Convergence._analyze_confidence_threshold self [0.92; 0.88; 0.90] 1.0 "medium"
       = inr a
       /\ Convergence.converged a = true.
Proof.
  intros self.
  assert (Hne : [0.92; 0.88; 0.90] <> []) by discriminate.
  split; [exact Hne|].
  exact (proj2 (proj2 (proj2
           (confidence_threshold_strategy self [0.92; 0.88; 0.90] 1.0 "medium" Hne)))).
Defined.

End ConfidenceThreshold.


(** *** The adaptive learning strategy *)

Section AdaptiveLearning.

Lemma track_lookup self key :
  Convergence.pattern_performance (Convergence.track self key) !! key
  = Some (Spec.history_of self key).
Proof.
  unfold Convergence.track, Spec.history_of.
  destruct (Convergence.pattern_performance self !! key) as [p|] eqn:E.
  - exact E.
  - cbn [Convergence.pattern_performance]. apply lookup_insert_eq.
Qed.

Lemma track_base_threshold self key :
  Convergence.base_threshold (Convergence.track self key)
  = Convergence.base_threshold self.
Proof.
  unfold Convergence.track.
  destruct (Convergence.pattern_performance self !! key); reflexivity.
Qed.

Lemma adaptive_first_execution self confidences tool rest complexity :
  confidences <> [] ->
  let key := Convergence.pattern_key complexity (tool :: rest) in
  Spec.prior_executions self key = 0%nat ->
  Convergence._analyze_adaptive_learning self confidences (Some (tool :: rest)) complexity
  = (inr (Convergence.mkAnalysis
            (Py.Rleb (Convergence.base_threshold self) (Spec.mean confidences))
            Convergence.ADAPTIVE_LEARNING (Spec.mean confidences)
            Convergence.NoMetrics
            (Convergence.Text "First execution for this pattern - using base threshold")),
     Convergence.track self key).
Proof.
  intros Hne key Hfirst. unfold Convergence._analyze_adaptive_learning. fold key.
  rewrite (mean_nonempty _ Hne). unfold Py.getitem.
  rewrite track_lookup, track_base_threshold. cbn [Py.bind Py.ret].
  unfold Spec.prior_executions in Hfirst. rewrite Hfirst. reflexivity.
Qed.

Lemma adaptive_later_execution self confidences tool rest complexity :
  confidences <> [] ->
  let key := Convergence.pattern_key complexity (tool :: rest) in
  let current := Spec.mean confidences in
  let historical := Convergence.avg_confidence (Spec.history_of self key) in
  let threshold := Spec.adaptive_threshold self key in
  (0 < Spec.prior_executions self key)%nat ->
  threshold <> 0 ->
  Convergence._analyze_adaptive_learning self confidences (Some (tool :: rest)) complexity
  = (inr (Convergence.mkAnalysis
            (Py.Rleb threshold current)
            Convergence.ADAPTIVE_LEARNING (current / threshold)
            (Convergence.AdaptiveMetrics current historical (current - historical)
               threshold (Spec.prior_executions self key))
            (Convergence.AdaptiveReason threshold (current - historical))),
     Convergence.track self key).
Proof.
  intros Hne key current historical threshold Hlater Hnz.
  unfold Convergence._analyze_adaptive_learning. fold key.
  rewrite (mean_nonempty _ Hne). unfold Py.getitem.
  rewrite track_lookup. cbn [Py.bind Py.ret].
  unfold Spec.prior_executions in Hlater |- *.
  destruct (Nat.ltb_spec 0 (Convergence.executions (Spec.history_of self key)))
    as [_|H]; [|lia].
  fold historical. fold current.
  change (Rmin 0.9 (historical + 0.1)) with threshold.
  rewrite (truediv_nonzero _ _ Hnz). reflexivity.
Qed.

(** C6. For the key of a pattern and confidences that are not empty: on
    the first execution of the key (no executions recorded, the key known
    or not) the strategy raises nothing, reports convergence exactly when
    the mean confidence reaches the base threshold, and scores the mean;
    on a later execution the threshold is the smaller of 0.9 and the
    historical average plus 0.1, convergence is reported exactly when the
    mean reaches it, and the score is the mean divided by it. *)
Theorem adaptive_learning_strategy
        (self : Convergence.AdvancedConvergenceAnalyzer)
        (confidences : list R) (tool : string) (rest : list string)
        (complexity : string) :
  confidences <> [] ->
  let key := Convergence.pattern_key complexity (tool :: rest) in
  let current := Spec.mean confidences in
  let outcome :=
    fst (Convergence._analyze_adaptive_learning
           self confidences (Some (tool :: rest)) complexity) in
  (Spec.prior_executions self key = 0%nat ->
     exists a,
       outcome = inr a
       /\ (Convergence.converged a = true <->
           Convergence.base_threshold self <= current)
       /\ Convergence.score a = current)
  /\ ((0 < Spec.prior_executions self key)%nat ->
      let threshold :=
        Rmin 0.9 (Convergence.avg_confidence (Spec.history_of self key) + 0.1) in
      threshold <> 0 ->
      exists a,
        outcome = inr a
        /\ (Convergence.converged a = true <-> threshold <= current)
        /\ Convergence.score a = current / threshold).
Proof.
  intros Hne key current outcome. split.
  - intros Hfirst. subst outcome.
    rewrite (adaptive_first_execution self confidences tool rest complexity Hne Hfirst).
    eexists. split; [reflexivity|]. cbn [Convergence.converged Convergence.score].
    split; [apply Rleb_true|reflexivity].
  - intros Hlater threshold Hnz. subst outcome.
    rewrite (adaptive_later_execution self confidences tool rest complexity Hne Hlater Hnz).
    eexists. split; [reflexivity|]. cbn [Convergence.converged Convergence.score].
    split; [apply Rleb_true|reflexivity].
Qed.

Lemma adaptive_learning_strategy_witness :
  let seen := Convergence.mkPerformance 1 0.5 0.0 [0.5] in
  let self := Convergence.mkAnalyzer 0.75 [] {[ "simple:brain_recall" := seen ]} in
  [0.9] <> []
  /\ Spec.prior_executions self (Convergence.pattern_key "medium" ["web_search"]) = 0%nat
  /\ (0 < Spec.prior_executions self (Convergence.pattern_key "simple" ["brain_recall"]))%nat
  /\ Rmin 0.9 (0.5 + 0.1) <> 0
  /\ (exists a,
        fst (Convergence._analyze_adaptive_learning
               self [0.9] (Some ["web_search"]) "medium") = inr a
        /\ (Convergence.converged a = true <-> 0.75 <= Spec.mean [0.9])
        /\ Convergence.score a = Spec.mean [0.9])
  /\ (exists a,
        fst (Convergence._analyze_adaptive_learning
               self [0.9] (Some ["brain_recall"]) "simple") = inr a
        /\ (Convergence.converged a = true <-> Rmin 0.9 (0.5 + 0.1) <= Spec.mean [0.9])
        /\ Convergence.score a = Spec.mean [0.9] / Rmin 0.9 (0.5 + 0.1)).
Proof.
  intros seen self.
  assert (Hne : [0.9] <> []) by discriminate.
  assert (Hfirst : Spec.prior_executions self
                     (Convergence.pattern_key "medium" ["web_search"]) = 0%nat)
    by reflexivity.
  assert (Hlater : (0 < Spec.prior_executions self
                         (Convergence.pattern_key "simple" ["brain_recall"]))%nat)
    by (vm_compute; lia).
  assert (Hnz : Rmin 0.9 (0.5 + 0.1) <> 0).
  { unfold Rmin. destruct (Rle_dec 0.9 (0.5 + 0.1)); lra. }
  split; [exact Hne|]. split; [exact Hfirst|]. split; [exact Hlater|].
  split; [exact Hnz|]. split.
  - exact (proj1 (adaptive_learning_strategy self [0.9] "web_search" [] "medium" Hne)
                 Hfirst).
  - exact (proj2 (adaptive_learning_strategy self [0.9] "brain_recall" [] "simple" Hne)
                 Hlater Hnz).
Defined.

End AdaptiveLearning.


(** *** Bounds on the scores *)

Section ScoreBounds.



Lemma success_rate_bounds {A} (f : A -> bool) (l : list A) :
  l <> [] ->
  Spec.unit_interval (INR (length (List.filter f l)) / INR (length l)).
Proof.
  intros Hne. pose proof (length_pos_INR l Hne) as Hpos.
  pose proof (List.filter_length_le f l) as Hle. apply le_INR in Hle.
  pose proof (pos_INR (length (List.filter f l))) as H0.
  unfold Spec.unit_interval. split.
  - apply Rmult_le_pos; [exact H0|]. left. now apply Rinv_0_lt_compat.
  - apply Rmult_le_reg_r with (INR (length l)); [exact Hpos|].
    unfold Rdiv. rewrite Rmult_assoc, Rinv_l by lra. lra.
Qed.












Lemma history_of_track self key key' :
  Spec.history_of (Convergence.track self key) key' = Spec.history_of self key'.
Proof.
  unfold Convergence.track, Spec.history_of.
  destruct (Convergence.pattern_performance self !! key) as [p|] eqn:E; [reflexivity|].
  cbn [Convergence.pattern_performance].
  destruct (decide (key = key')) as [<-|Hne].
  - now rewrite lookup_insert_eq, E.
  - now rewrite lookup_insert_ne by exact Hne.
Qed.














End ScoreBounds.


(** *** The engine with its own tool interface *)

Section EndToEnd.

(** The shipped interface on the query "What is machine learning?": the
    Simple tier, one step, one successful record of confidence 0.78 at the
    first attempt, and a converged verdict under the default threshold. *)
Example execute_simple_query (elapsed timestamp : R) :
  let engine := Engine.mkEngine (Engine.mkMCP 0 0 []) 3 0.75 [] in
  let r := fst (Engine.execute (Engine.mcp_tool_interface elapsed) engine
                               "What is machine learning?" elapsed timestamp) in
  Engine.res_complexity r = "simple"
  /\ Engine.res_pattern r = ["brain_recall"]
  /\ map Engine.tool_name (Engine.res_mcp_results r) = ["brain_recall"]
  /\ map Engine.confidence (Engine.res_mcp_results r) = [0.78]
  /\ map Engine.retry_count (Engine.res_mcp_results r) = [0%nat]
  /\ Engine.res_success r = true
  /\ Engine.converged (Engine.res_convergence_data r) = true.
Proof.
  intros engine r. subst r. unfold Engine.execute.
  replace (Engine.assess "What is machine learning?") with (@inr Py.PyError _ "simple")
    by (vm_compute; reflexivity).
  replace (Engine.get_pattern "simple") with (@inr Py.PyError _ ["brain_recall"])
    by reflexivity.
  unfold Engine._execute_pattern_with_retries.
  cbn [Engine.pattern_loop Engine.max_retries engine Engine.retry_loop].
  unfold Engine.route. cbn [String.eqb Ascii.eqb Bool.eqb].
  cbn [Engine.execute_brain_recall Engine.mcp_tool_interface Py.ret].
  cbn [Engine.set_retry_count Engine.success Engine.data Engine.tool_name
       Engine.confidence Engine.execution_time Engine.phase Engine.error_message
       Engine.chain_context Py.ret Py.bind app Engine.mcp_interface].
  set (record := Engine.mkResult _ _ _ _ _ _ _ _).
  change (Engine.set_retry_count record 0) with record.
  assert (Hconv : Engine.converged (Engine.analyze 0.75 [record]) = true).
  { unfold Engine.analyze. cbn [Engine.converged List.filter Engine.success record
                                length map Engine.confidence Nat.max].
    rewrite sum_cons, sum_nil. apply andb_true_iff.
    split; apply Rleb_true; cbn; lra. }
  cbn [Engine.with_interface Engine.convergence_threshold engine].
  destruct (generate_total "What is machine learning?" 0.75 record [])
    as (insights & next_actions & Hgen).
  rewrite Hgen. cbn [fst Engine.res_complexity Engine.res_pattern
                     Engine.res_mcp_results Engine.res_success
                     Engine.res_convergence_data].
  repeat split; try reflexivity. exact Hconv.
Qed.

End EndToEnd.

(** *** The convergence detector of [hrm_core] *)

Section Detector.

Lemma last_n_app_exact {A} (old recent : list A) n :
  length recent = n -> Py.last_n n (old ++ recent) = recent.
Proof.
  intros H. unfold Py.last_n. rewrite length_app, H.
  replace (length old + n - n)%nat with (length old + 0)%nat by lia.
  rewrite skipn_app. replace (length old + 0 - length old)%nat with 0%nat by lia.
  rewrite Nat.add_0_r, skipn_all. reflexivity.
Qed.

Lemma last_n_all {A} (l : list A) n : length l = n -> Py.last_n n l = l.
Proof. intros H. unfold Py.last_n. rewrite H, Nat.sub_diag. reflexivity. Qed.

Lemma last_n_length {A} (l : list A) n :
  length (Py.last_n n l) = Nat.min n (length l).
Proof. unfold Py.last_n. rewrite length_skipn. lia. Qed.

Lemma last_n_Forall {A} (P : A -> Prop) (l : list A) n :
  Forall P l -> Forall P (Py.last_n n l).
Proof. intros H. unfold Py.last_n. now apply Forall_drop. Qed.

Lemma variations_unit_interval confidences :
  Forall Spec.unit_interval confidences ->
  Forall Spec.unit_interval (CoreSystem.variations_of confidences).
Proof.
  induction 1 as [|a l Ha Hl IH]; [constructor|].
  destruct l as [|b t]; [constructor|].
  change (CoreSystem.variations_of (a :: b :: t))
    with (Rabs (b - a) :: CoreSystem.variations_of (b :: t)).
  apply List.Forall_cons; [|exact IH].
  inversion Hl as [|? ? Hb _]; subst.
  unfold Spec.unit_interval in *. split; [apply Rabs_pos|].
  apply Rabs_le. lra.
Qed.

Lemma variations_two a b t : CoreSystem.variations_of (a :: b :: t) <> [].
Proof. discriminate. Qed.

Lemma detect_convergence_metrics self results iteration :
  (2 <= length results)%nat ->
  let confidences := map CoreSystem.get_confidence (Py.last_n 3 results) in
  let variations := CoreSystem.variations_of confidences in
  let avg := Spec.mean confidences in
  let stability := 1 - Spec.mean variations in
  let rate :=
    INR (length (List.filter CoreSystem.get_success results)) / INR (length results) in
  let score := avg * 0.4 + stability * 0.3 + rate * 0.3 in
  CoreSystem.detect_convergence self results iteration
  = CoreSystem.mkConvergence
      (Py.Rltb (CoreSystem.convergence_threshold self) score
       || (CoreSystem.max_iterations self <=? iteration)%Z)
      score (CoreSystem.ScoreAndIteration score iteration)
      (Some (CoreSystem.mkMetrics avg stability rate)).
Proof.
  intros H. cbv zeta.
  unfold CoreSystem.detect_convergence.
  destruct (Nat.ltb_spec (length results) 2); [lia|].
  set (confidences := map CoreSystem.get_confidence (Py.last_n 3 results)).
  assert (Hlen : (2 <= length confidences)%nat).
  { unfold confidences. rewrite length_map, last_n_length. lia. }
  destruct (Nat.ltb_spec 1 (length confidences)); [|lia].
  assert (Hv : CoreSystem.variations_of confidences <> []).
  { destruct confidences as [|a [|b t]]; cbn in Hlen; try lia.
    apply variations_two. }
  destruct (CoreSystem.variations_of confidences) as [|v vs]; [congruence|].
  reflexivity.
Qed.

(** X1. With two or more results whose confidences (0.5 when the key is absent)
    lie between 0 and 1, the convergence score and the three measurements
    lie between 0 and 1. *)
Theorem detect_convergence_bounds
        (self : CoreSystem.ConvergenceDetector)
        (results : list CoreSystem.ResultDict) (iteration : Z) :
  (2 <= length results)%nat ->
  Forall (fun r => Spec.unit_interval (CoreSystem.get_confidence r)) results ->
  let verdict := CoreSystem.detect_convergence self results iteration in
  Spec.unit_interval (CoreSystem.confidence verdict)
  /\ exists m,
      CoreSystem.metrics verdict = Some m
      /\ Spec.unit_interval (CoreSystem.m_avg_confidence m)
      /\ Spec.unit_interval (CoreSystem.m_stability m)
      /\ Spec.unit_interval (CoreSystem.m_success_rate m).
Proof.
  intros Hlen Hall verdict. subst verdict.
  rewrite (detect_convergence_metrics self results iteration Hlen).
  cbn [CoreSystem.confidence CoreSystem.metrics].
  set (confidences := map CoreSystem.get_confidence (Py.last_n 3 results)).
  assert (Hconf : Forall Spec.unit_interval confidences).
  { unfold confidences. apply List.Forall_map. apply last_n_Forall. exact Hall. }
  assert (Hlen' : (2 <= length confidences)%nat).
  { unfold confidences. rewrite length_map, last_n_length. lia. }
  assert (Hne : confidences <> []) by (destruct confidences; [cbn in Hlen'; lia|discriminate]).
  assert (Hv : CoreSystem.variations_of confidences <> []).
  { destruct confidences as [|a [|b t]]; cbn in Hlen'; try lia. apply variations_two. }
  pose proof (mean_bounds 0 1 _ Hne Hconf) as Havg.
  pose proof (mean_bounds 0 1 _ Hv (variations_unit_interval _ Hconf)) as Hvar.
  assert (Hres : results <> []) by (destruct results; [cbn in Hlen; lia|discriminate]).
  pose proof (success_rate_bounds CoreSystem.get_success results Hres) as Hrate.
  unfold Spec.unit_interval in *. split; [lra|].
  eexists. split; [reflexivity|]. cbn. lra.
Qed.

Lemma detect_convergence_bounds_witness :
  let results := [CoreSystem.mkResultDict (Some 0.7) (Some true);
                  CoreSystem.mkResultDict None None] in
  (2 <= length results)%nat
  /\ Forall (fun r => Spec.unit_interval (CoreSystem.get_confidence r)) results
  /\ Spec.unit_interval
       (CoreSystem.confidence
          (CoreSystem.detect_convergence CoreSystem.new_detector results 1)).
Proof.
  intros results.
  assert (Hlen : (2 <= length results)%nat) by (cbn; lia).
  assert (Hall : Forall (fun r => Spec.unit_interval (CoreSystem.get_confidence r)) results).
  { repeat apply List.Forall_cons; try apply List.Forall_nil;
      cbn; unfold Spec.unit_interval; lra. }
  split; [exact Hlen|]. split; [exact Hall|].
  exact (proj1 (detect_convergence_bounds CoreSystem.new_detector results 1 Hlen Hall)).
Defined.

(** X2. Only the three most recent results count for the average confidence
    and the stability: older results change nothing but the success
    rate. *)
Theorem detect_convergence_window
        (self : CoreSystem.ConvergenceDetector)
        (older recent : list CoreSystem.ResultDict) (iteration : Z) :
  length recent = 3%nat ->
  exists m m',
    CoreSystem.metrics (CoreSystem.detect_convergence self (older ++ recent) iteration)
    = Some m
    /\ CoreSystem.metrics (CoreSystem.detect_convergence self recent iteration)
       = Some m'
    /\ CoreSystem.m_avg_confidence m = CoreSystem.m_avg_confidence m'
    /\ CoreSystem.m_stability m = CoreSystem.m_stability m'
    /\ CoreSystem.m_success_rate m
       = INR (length (List.filter CoreSystem.get_success older)
              + length (List.filter CoreSystem.get_success recent))
         / INR (length older + 3).
Proof.
  intros H.
  rewrite (detect_convergence_metrics self (older ++ recent) iteration)
    by (rewrite length_app; lia).
  rewrite (detect_convergence_metrics self recent iteration) by lia.
  rewrite (last_n_app_exact older recent 3 H), (last_n_all recent 3 H).
  eexists _, _. split; [reflexivity|]. split; [reflexivity|].
  cbn [CoreSystem.m_avg_confidence CoreSystem.m_stability CoreSystem.m_success_rate].
  split; [reflexivity|]. split; [reflexivity|].
  now rewrite List.filter_app, !length_app, H.
Qed.

Lemma detect_convergence_window_witness :
  let ok := CoreSystem.mkResultDict (Some 0.9) (Some true) in
  let bad := CoreSystem.mkResultDict (Some 0.1) (Some false) in
  length [ok; ok; ok] = 3%nat
  /\ exists m m',
      CoreSystem.metrics
        (CoreSystem.detect_convergence CoreSystem.new_detector
           ([bad; bad] ++ [ok; ok; ok]) 1) = Some m
      /\ CoreSystem.metrics
           (CoreSystem.detect_convergence CoreSystem.new_detector [ok; ok; ok] 1)
         = Some m'
      /\ CoreSystem.m_avg_confidence m = CoreSystem.m_avg_confidence m'
      /\ CoreSystem.m_stability m = CoreSystem.m_stability m'.
Proof.
  intros ok bad. split; [reflexivity|].
  destruct (detect_convergence_window CoreSystem.new_detector [bad; bad] [ok; ok; ok] 1
              eq_refl) as (m & m' & H1 & H2 & H3 & H4 & _).
  exists m, m'. repeat split; assumption.
Defined.

End Detector.

(** *** The proof-of-concept system of [hrm_core] *)

Section ProofOfConcept.

Lemma core_get_pattern_known tier :
  Spec.known_tier tier ->
  exists step rest, Core.get_pattern tier = inr (step :: rest).
Proof.
  intros [ -> | [ -> | [ -> | -> ] ] ]; eexists _, _; reflexivity.
Qed.

Lemma demo_loop_length query step_time pattern :
  forall i, length (CoreSystem.demo_loop query step_time i pattern) = length pattern.
Proof.
  induction pattern as [|s rest IH]; intros i; cbn [CoreSystem.demo_loop length];
    [reflexivity|]. now rewrite IH.
Qed.

Lemma demo_loop_success query step_time pattern :
  forall i, forallb CoreSystem.r_success (CoreSystem.demo_loop query step_time i pattern)
            = true.
Proof.
  induction pattern as [|s rest IH]; intros i; cbn [CoreSystem.demo_loop forallb];
    [reflexivity|]. apply IH.
Qed.

Lemma demo_loop_confidences query step_time pattern :
  forall i,
    map CoreSystem.r_confidence (CoreSystem.demo_loop query step_time i pattern)
    = map (fun k => 0.7 + INR k * 0.05) (seq i (length pattern)).
Proof.
  induction pattern as [|s rest IH]; intros i; cbn [CoreSystem.demo_loop map length seq];
    [reflexivity|]. now rewrite IH.
Qed.

Lemma demo_dicts query step_time pattern i :
  map CoreSystem.as_dict (CoreSystem.demo_loop query step_time i pattern)
  = map (fun k => CoreSystem.mkResultDict (Some (0.7 + INR k * 0.05)) (Some true))
        (seq i (length pattern)).
Proof.
  revert i. induction pattern as [|s rest IH]; intros i;
    cbn [CoreSystem.demo_loop map length seq]; [reflexivity|].
  now rewrite IH.
Qed.

Lemma demo_verdict (n : nat) :
  (n = 1 \/ n = 3 \/ n = 5 \/ n = 6)%nat ->
  CoreSystem.converged
    (CoreSystem.detect_convergence CoreSystem.new_detector
       (map (fun k => CoreSystem.mkResultDict (Some (0.7 + INR k * 0.05)) (Some true))
            (seq 0 n)) 1)
  = negb (n =? 1)%nat.
Proof.
  intros [ -> | [ -> | [ -> | -> ] ] ]; [reflexivity| | |];
    (rewrite detect_convergence_metrics by (cbn; lia));
    cbn [CoreSystem.converged CoreSystem.new_detector CoreSystem.convergence_threshold
         CoreSystem.max_iterations Nat.eqb negb];
    apply orb_true_iff; left; apply Rltb_true;
    unfold Py.last_n; cbn [seq map length Nat.sub skipn List.filter
                           CoreSystem.get_success CoreSystem.d_success
                           CoreSystem.get_confidence CoreSystem.d_confidence
                           CoreSystem.variations_of];
    unfold Spec.mean; cbn [length]; rewrite !sum_cons, !sum_nil; cbn [INR];
    repeat match goal with |- context [Rabs ?x] =>
      rewrite (Rabs_pos_eq x) by lra end;
    lra.
Qed.

(** X3. For every query the proof-of-concept run returns a result: one mock
    result per step of the pattern of the query's tier, all successful,
    with confidences 0.70, 0.75, 0.80, ... in step order; its verdict is
    converged exactly when the tier is not Simple, a one-step run being
    insufficient data for the detector; and one entry is added to the
    history. *)
Theorem execute_hrm_verdict
        (self : CoreSystem.HRMSystem) (query : string)
        (step_time : nat -> R) (elapsed timestamp : R) :
  CoreSystem.convergence_detector self = CoreSystem.new_detector ->
  exists r pattern,
    CoreSystem.execute_hrm self query step_time elapsed timestamp
    = (inr r,
       CoreSystem.mkSystem (CoreSystem.convergence_detector self)
         (CoreSystem.execution_history self
          ++ [CoreSystem.mkHistoryEntry query (CoreSystem.res_complexity r)
                                        (CoreSystem.res_results r) timestamp]))
    /\ Core.assess_complexity query = inr (CoreSystem.res_complexity r)
    /\ Core.get_pattern (CoreSystem.res_complexity r) = inr pattern
    /\ CoreSystem.res_pattern r = map Core.tool pattern
    /\ map CoreSystem.r_tool (CoreSystem.res_results r) = map Core.tool pattern
    /\ map CoreSystem.r_confidence (CoreSystem.res_results r)
       = map (fun k => 0.7 + INR k * 0.05) (seq 0 (length pattern))
    /\ CoreSystem.res_success r = true
    /\ (CoreSystem.converged (CoreSystem.res_convergence_data r) = true
        <-> CoreSystem.res_complexity r <> "simple").
Proof.
  intros Hdet. unfold CoreSystem.execute_hrm, CoreSystem.analyze_query.
  rewrite core_assess_first.
  set (tier := Spec.first_matching_tier (Spec.regex_match query)).
  pose proof (first_matching_tier_known (Spec.regex_match query)) as Hknown.
  fold tier in Hknown.
  destruct (core_get_pattern_known tier Hknown) as (step & rest & Hpat).
  cbn [Py.bind].
  rewrite Hpat. cbn [Py.bind Py.ret CoreSystem.a_pattern CoreSystem.a_complexity].
  match goal with |- context [Py.ret ?x] => exists x, (step :: rest) end.
  split; [reflexivity|].
  cbn [CoreSystem.res_complexity CoreSystem.res_pattern CoreSystem.res_results
       CoreSystem.res_success CoreSystem.res_convergence_data].
  split; [reflexivity|]. split; [exact Hpat|]. split; [reflexivity|].
  unfold CoreSystem.execute_pattern_demo.
  split.
  { clear. generalize 0%nat. induction (step :: rest) as [|s l IH]; intros i;
      cbn [CoreSystem.demo_loop map]; [reflexivity|]. now rewrite IH. }
  split; [apply demo_loop_confidences|].
  split; [apply demo_loop_success|].
  rewrite Hdet, demo_dicts.
  assert (Hn : (length (step :: rest) = 1 \/ length (step :: rest) = 3
                \/ length (step :: rest) = 5 \/ length (step :: rest) = 6)%nat
               /\ (length (step :: rest) = 1%nat <-> tier = "simple")).
  { revert Hpat. clear -Hknown.
    destruct Hknown as [ -> | [ -> | [ -> | -> ] ] ];
      intros [= <- <-]; cbn [length]; split; try tauto;
      split; intros H; try discriminate H; try reflexivity. }
  destruct Hn as [Hn Hsimple].
  rewrite (demo_verdict _ Hn).
  destruct (Nat.eqb_spec (length (step :: rest)) 1) as [E|E]; cbn [negb].
  - split; [discriminate|]. intros H. exfalso. apply H. now apply Hsimple.
  - split; [|reflexivity]. intros _ H. apply E. now apply Hsimple.
Qed.

Lemma execute_hrm_verdict_witness :
  let self := CoreSystem.mkSystem CoreSystem.new_detector [] in
  CoreSystem.convergence_detector self = CoreSystem.new_detector
  /\ exists r,
      fst (CoreSystem.execute_hrm self "What is machine learning?" (fun _ => 0.1) 0.1 0)
      = inr r
      /\ CoreSystem.res_success r = true.
Proof.
  intros self. split; [reflexivity|].
  destruct (execute_hrm_verdict self "What is machine learning?" (fun _ => 0.1) 0.1 0
              eq_refl) as (r & pattern & Hrun & _ & _ & _ & _ & _ & Hsucc & _).
  exists r. rewrite Hrun. split; [reflexivity|exact Hsucc].
Defined.

End ProofOfConcept.

(** *** The engine with [MCPToolInterface] *)

Section ShippedInterface.

Variable elapsed : R.
Variable self : @Engine.AutomatedExecutionEngine Engine.MCPToolInterface.
Variable query : string.

Hypothesis at_least_one_attempt : (1 <= Engine.max_retries self)%nat.

Lemma shipped_route tool context st :
  exists r,
    Engine.route (Engine.mcp_tool_interface elapsed) self tool query context st
    = (inr r, Engine.counted st)
    /\ Laws.first_try elapsed tool r
    /\ exists context', Engine.chain_context context (Engine.data r) = inr context'.
Proof.
  unfold Engine.route, Laws.first_try, Laws.routed_tool, Laws.mock_confidence.
  destruct (String.eqb_spec tool "brain_recall") as [->|H1];
    [eexists; split; [reflexivity|]; split; [repeat split|eexists; reflexivity]|].
  destruct (String.eqb_spec tool "web_search") as [->|H2];
    [eexists; split; [reflexivity|]; split; [repeat split|eexists; reflexivity]|].
  destruct (String.eqb_spec tool "brain_remember") as [->|H3];
    [eexists; split; [reflexivity|]; split; [repeat split|eexists; reflexivity]|].
  destruct (String.eqb_spec tool "sequential_thinking") as [->|H4];
    [eexists; split; [reflexivity|]; split; [repeat split|eexists; reflexivity]|].
  destruct (String.eqb_spec tool "reasoning_tools") as [->|H5];
    [eexists; split; [reflexivity|]; split; [repeat split|eexists; reflexivity]|].
  eexists; split; [reflexivity|]; split; [repeat split|eexists; reflexivity].
Qed.

Lemma shipped_pattern_loop pattern :
  forall results context st,
    exists records st',
      Engine.pattern_loop (Engine.mcp_tool_interface elapsed) self pattern query
                          results context st
      = (results ++ records, st')
      /\ Forall2 (Laws.first_try elapsed) pattern records
      /\ Engine.execution_count st'
         = (Engine.execution_count st + length pattern)%nat
      /\ Engine.success_count st'
         = (Engine.success_count st + length pattern)%nat
      /\ Engine.error_log st' = Engine.error_log st.
Proof.
  induction pattern as [|tool rest IH]; intros results context st.
  - exists [], st. cbn [Engine.pattern_loop length].
    split; [now rewrite app_nil_r|]. split; [constructor|]. split; [lia|split; [lia|reflexivity]].
  - cbn [Engine.pattern_loop].
    destruct (Engine.max_retries self) as [|m] eqn:Hm; [lia|].
    cbn [Engine.retry_loop].
    destruct (shipped_route tool context st) as (r & Hroute & Hr & context' & Hchain).
    rewrite Hroute.
    assert (Hsucc : Engine.success (Engine.set_retry_count r 0) = true)
      by (cbn; apply Hr).
    rewrite Hsucc.
    change (Engine.data (Engine.set_retry_count r 0)) with (Engine.data r).
    rewrite Hchain.
    destruct (IH (results ++ [Engine.set_retry_count r 0]) context'
                 (Engine.counted st))
      as (records & st' & Hloop & Hall & Hcount & Hsc & Hlog).
    exists (Engine.set_retry_count r 0 :: records), st'.
    rewrite Hloop, <- app_assoc. split; [reflexivity|]. split.
    + constructor; [|exact Hall].
      destruct Hr as (H1 & H2 & H3 & H4 & H5 & H6). repeat split; assumption.
    + rewrite Hcount, Hsc, Hlog. cbn. split; [lia|split; [lia|reflexivity]].
Qed.

(** X4. With [MCPToolInterface] every step succeeds at the first attempt: the
    run keeps one successful record per step, with retry count 0, the name
    and confidence of the tool the step is routed to (an unknown name runs
    [brain_recall]) and no error message; the interface counts one
    execution and one success per step and logs no error. *)
Theorem shipped_interface_run (pattern : list string) :
  let run :=
    Engine._execute_pattern_with_retries (Engine.mcp_tool_interface elapsed)
                                         self pattern query in
  map Engine.tool_name (fst run) = map Laws.routed_tool pattern
  /\ map Engine.confidence (fst run)
     = map (fun tool => Laws.mock_confidence (Laws.routed_tool tool)) pattern
  /\ Forall (fun r => Engine.success r = true
                      /\ Engine.retry_count r = 0%nat
                      /\ Engine.error_message r = None) (fst run)
  /\ Engine.execution_count (snd run)
     = (Engine.execution_count (Engine.mcp_interface self) + length pattern)%nat
  /\ Engine.success_count (snd run)
     = (Engine.success_count (Engine.mcp_interface self) + length pattern)%nat
  /\ Engine.error_log (snd run) = Engine.error_log (Engine.mcp_interface self).
Proof.
  intros run. subst run. unfold Engine._execute_pattern_with_retries.
  destruct (shipped_pattern_loop pattern [] query (Engine.mcp_interface self))
    as (records & st' & Hloop & Hall & Hcount & Hsc & Hlog).
  rewrite Hloop. cbn [fst snd app].
  split; [|split; [|split; [|repeat split; assumption]]].
  - clear -Hall. induction Hall as [|t r ts rs Hr _ IH]; cbn [map]; [reflexivity|].
    rewrite IH. f_equal. exact (proj1 Hr).
  - clear -Hall. induction Hall as [|t r ts rs Hr _ IH]; cbn [map]; [reflexivity|].
    rewrite IH. f_equal. destruct Hr as (_ & _ & H3 & _). exact H3.
  - clear -Hall. induction Hall as [|t r ts rs Hr _ IH]; constructor; [|exact IH].
    destruct Hr as (_ & H2 & _ & _ & H5 & H6). repeat split; assumption.
Qed.

End ShippedInterface.

Lemma shipped_interface_run_witness :
  let self := Engine.mkEngine (Engine.mkMCP 0 0 []) 3 0.75 [] in
  let run :=
    Engine._execute_pattern_with_retries (Engine.mcp_tool_interface 0.1) self
      ["brain_recall"; "unknown_tool"; "web_search"] "What is machine learning?" in
  (1 <= Engine.max_retries self)%nat
  /\ map Engine.tool_name (fst run) = ["brain_recall"; "brain_recall"; "web_search"]
  /\ Engine.execution_count (snd run) = 3%nat.
Proof.
  intros self run.
  assert (H : (1 <= Engine.max_retries self)%nat) by (cbn; lia).
  split; [exact H|].
  destruct (shipped_interface_run 0.1 self "What is machine learning?" H
              ["brain_recall"; "unknown_tool"; "web_search"])
    as (Hnames & _ & _ & Hcount & _).
  split; [exact Hnames|exact Hcount].
Defined.

(** *** [execute] with [MCPToolInterface] *)

Section ShippedExecute.

Variable tool_time : R.

Lemma first_try_records pattern records :
  Forall2 (Laws.first_try tool_time) pattern records ->
  List.filter Engine.success records = records
  /\ forallb Engine.success records = true
  /\ length records = length pattern
  /\ map Engine.confidence records
     = map (fun tool => Laws.mock_confidence (Laws.routed_tool tool)) pattern.
Proof.
  induction 1 as [|t r ts rs Hr _ IH]; [repeat split|].
  destruct IH as (IH1 & IH2 & IH3 & IH4).
  destruct Hr as (_ & Hs & Hc & _).
  cbn [List.filter forallb length map]. rewrite Hs, IH1, IH2, IH3, IH4, Hc.
  repeat split.
Qed.

Lemma tier_mock_average tier pattern :
  Spec.known_tier tier ->
  Engine.get_pattern tier = inr pattern ->
  pattern <> []
  /\ 0.78 * INR (length pattern)
     <= Py.sum (map (fun tool => Laws.mock_confidence (Laws.routed_tool tool)) pattern)
     <= 0.85 * INR (length pattern).
Proof.
  intros [ -> | [ -> | [ -> | -> ] ] ] Hpat; vm_compute in Hpat;
    injection Hpat as <-; (split; [discriminate|]);
    cbn [map length];
    repeat match goal with
           | |- context [Laws.mock_confidence (Laws.routed_tool ?t)] =>
               let v := eval vm_compute in (Laws.routed_tool t) in
               change (Laws.routed_tool t) with v
           end;
    change (Laws.mock_confidence "brain_recall") with 0.78;
    change (Laws.mock_confidence "web_search") with 0.82;
    change (Laws.mock_confidence "brain_remember") with 0.95;
    change (Laws.mock_confidence "sequential_thinking") with 0.76;
    change (Laws.mock_confidence "reasoning_tools") with 0.84;
    rewrite ?sum_cons, ?sum_nil, ?S_INR; cbn [INR]; lra.
Qed.

(** X5. With [MCPToolInterface] and at least one attempt per step, [execute]
    goes through for every query: all steps succeed, so the result is a
    success with a success rate of 1 and no error; the average confidence
    lies between 0.78 and 0.85 whatever the query, and the run converges
    exactly when the engine's threshold is at most that average.  So a
    threshold of at most 0.78 makes every query converge, and a threshold
    above 0.85 makes none converge. *)
Theorem execute_shipped_interface
        (self : @Engine.AutomatedExecutionEngine Engine.MCPToolInterface)
        (query : string) (elapsed timestamp : R) :
  (1 <= Engine.max_retries self)%nat ->
  let r := fst (Engine.execute (Engine.mcp_tool_interface tool_time) self query
                               elapsed timestamp) in
  let verdict := Engine.res_convergence_data r in
  Engine.res_success r = true
  /\ Engine.error verdict = None
  /\ Engine.failed_tools verdict = Some 0%nat
  /\ Engine.successful_tools verdict = Some (length (Engine.res_pattern r))
  /\ exists rate avg,
      Engine.success_rate verdict = Some rate /\ rate = 1
      /\ Engine.average_confidence verdict = Some avg
      /\ 0.78 <= avg <= 0.85
      /\ Engine.converged verdict = Py.Rleb (Engine.convergence_threshold self) avg
      /\ (Engine.convergence_threshold self <= 0.78 -> Engine.converged verdict = true)
      /\ (0.85 < Engine.convergence_threshold self -> Engine.converged verdict = false).
Proof.
  intros Hattempts. cbn zeta. unfold Engine.execute.
  rewrite engine_assess_first.
  set (tier := Spec.first_matching_tier (Spec.keyword_match query)).
  pose proof (first_matching_tier_known (Spec.keyword_match query)) as Hknown.
  fold tier in Hknown.
  destruct (Engine.get_pattern tier) as [e|pattern] eqn:Hpat.
  { destruct (engine_get_pattern_known tier Hknown) as (? & ? & H). congruence. }
  destruct (tier_mock_average tier pattern Hknown Hpat) as (Hne & Hlo & Hhi).
  unfold Engine._execute_pattern_with_retries.
  destruct (shipped_pattern_loop tool_time self query Hattempts pattern []
              query (Engine.mcp_interface self))
    as (records & st' & Hloop & Hall & _).
  rewrite Hloop. cbn [app].
  destruct (first_try_records pattern records Hall) as (Hfilter & Hforall & Hlen & Hconf).
  destruct records as [|r0 rs]; [destruct pattern; [congruence|discriminate Hlen]|].
  destruct (generate_total query
              (Engine.convergence_threshold
                 (Engine.with_interface self st')) r0 rs)
    as (insights & next_actions & Hgen).
  rewrite Hgen.
  cbn [fst Engine.res_success Engine.res_convergence_data Engine.res_pattern].
  split; [exact Hforall|].
  unfold Engine.analyze.
  cbn [Engine.error Engine.failed_tools Engine.successful_tools Engine.success_rate
       Engine.average_confidence Engine.converged Engine.convergence_threshold
       Engine.with_interface].
  rewrite Hfilter, Hconf, Hlen.
  assert (Hpos : 0 < INR (length pattern)) by now apply length_pos_INR.
  assert (Hmax : Nat.max (length pattern) 1 = length pattern).
  { destruct pattern; [congruence|cbn [length]; lia]. }
  rewrite Hmax.
  set (total := Py.sum (map (fun tool => Laws.mock_confidence (Laws.routed_tool tool))
                            pattern)) in *.
  assert (Havg : 0.78 <= total / INR (length pattern) <= 0.85).
  { split.
    - apply Rmult_le_reg_r with (INR (length pattern)); [exact Hpos|].
      unfold Rdiv. rewrite Rmult_assoc, Rinv_l by lra. lra.
    - apply Rmult_le_reg_r with (INR (length pattern)); [exact Hpos|].
      unfold Rdiv. rewrite Rmult_assoc, Rinv_l by lra. lra. }
  assert (Hrate : INR (length pattern) / INR (length pattern) = 1)
    by (field; lra).
  split; [reflexivity|]. split; [f_equal; lia|]. split; [reflexivity|].
  exists (INR (length pattern) / INR (length pattern)), (total / INR (length pattern)).
  split; [reflexivity|]. split; [exact Hrate|]. split; [reflexivity|].
  split; [exact Havg|].
  rewrite Hrate. rewrite (proj2 (Rleb_true 0.8 1)) by lra. cbn [andb].
  split; [reflexivity|]. split.
  - intros Hle. apply Rleb_true. lra.
  - intros Hlt. apply Rleb_false. lra.
Qed.

End ShippedExecute.

Lemma execute_shipped_interface_witness :
  let self := Engine.mkEngine (Engine.mkMCP 0 0 []) 3 0.75 [] in
  let r := fst (Engine.execute (Engine.mcp_tool_interface 0.1) self
                               "What is machine learning?" 0.5 1000) in
  (1 <= Engine.max_retries self)%nat
  /\ Engine.res_success r = true
  /\ Engine.converged (Engine.res_convergence_data r) = true.
Proof.
  intros self r.
  assert (H : (1 <= Engine.max_retries self)%nat) by (cbn; lia).
  split; [exact H|].
  destruct (execute_shipped_interface 0.1 self "What is machine learning?" 0.5 1000 H)
    as (Hs & _ & _ & _ & rate & avg & _ & _ & _ & _ & _ & Hconv & _).
  split; [exact Hs|]. apply Hconv. cbn. lra.
Defined.

(** *** The convergence analysis and the insights of the engine *)

Section EngineAnalysis.

Lemma filter_partition_length {A} (f : A -> bool) (l : list A) :
  (length (List.filter f l) + length (List.filter (fun x => negb (f x)) l)
   = length l)%nat.
Proof.
  induction l as [|x l IH]; cbn [List.filter length]; [reflexivity|].
  destruct (f x); cbn [negb length]; lia.
Qed.

Lemma sum_all_zero l : Forall (fun x => x = 0) l -> Py.sum l = 0.
Proof.
  induction 1 as [|x l Hx _ IH]; [apply sum_nil|]. rewrite sum_cons, IH, Hx. lra.
Qed.

(** X6. For results that are not empty the analysis has all its measurements:
    the successful and the failed tools add up to the number of results,
    the success rate lies between 0 and 1, and a converged verdict means
    that at most one result in five failed and that the mean confidence
    of the successes reaches the threshold.  When every result is a
    failure the mean confidence is 0 (the division is by
    [max(len, 1)]) and the verdict is not converged, whatever the
    threshold. *)
Theorem analyze_measurements (convergence_threshold : R)
        (mcp_results : list Engine.MCPExecutionResult) :
  mcp_results <> [] ->
  let d := Engine.analyze convergence_threshold mcp_results in
  exists successes failures rate avg,
    Engine.successful_tools d = Some successes
    /\ Engine.failed_tools d = Some failures
    /\ Engine.success_rate d = Some rate
    /\ Engine.average_confidence d = Some avg
    /\ Engine.error d = None
    /\ (successes + failures = length mcp_results)%nat
    /\ successes = length (List.filter Engine.success mcp_results)
    /\ Spec.unit_interval rate
    /\ (Engine.converged d = true ->
        (5 * failures <= length mcp_results)%nat /\ convergence_threshold <= avg)
    /\ (successes = 0%nat -> avg = 0 /\ Engine.converged d = false).
Proof.
  intros Hne d. subst d. unfold Engine.analyze.
  destruct mcp_results as [|r rs] eqn:E; [congruence|]. rewrite <- E in *. clear E r rs.
  cbn [Engine.successful_tools Engine.failed_tools Engine.success_rate
       Engine.average_confidence Engine.error Engine.converged].
  set (successful := List.filter Engine.success mcp_results).
  pose proof (List.filter_length_le Engine.success mcp_results) as Hle.
  fold successful in Hle.
  pose proof (length_pos_INR mcp_results Hne) as Hpos.
  eexists _, _, _, _. do 5 (split; [reflexivity|]).
  split; [lia|]. split; [reflexivity|].
  split; [apply (success_rate_bounds _ _ Hne)|]. split.
  - intros Hconv. apply andb_true_iff in Hconv as [Hrate Havg].
    apply Rleb_true in Hrate, Havg. split; [|exact Havg].
    assert (H : 0.8 * INR (length mcp_results) <= INR (length successful)).
    { apply Rmult_le_reg_r with (/ INR (length mcp_results));
        [now apply Rinv_0_lt_compat|].
      rewrite Rmult_assoc, Rinv_r by lra. unfold Rdiv in Hrate. lra. }
    assert (H' : INR (4 * length mcp_results) <= INR (5 * length successful)).
    { rewrite !mult_INR. cbn [INR]. lra. }
    apply INR_le in H'. lia.
  - intros Hzero. fold successful in Hzero.
    assert (Hnil : successful = []) by (destruct successful; [reflexivity|discriminate]).
    rewrite Hnil. cbn [map length Nat.max]. rewrite sum_nil. split.
    + cbn [INR]. lra.
    + apply andb_false_iff. left. apply Rleb_false.
      cbn [INR]. unfold Rdiv. rewrite Rmult_0_l. lra.
Qed.

Lemma analyze_measurements_witness :
  let failed := Engine.mkResult "web_search" false Engine.NoData 0.0 0.0
                                Engine.ORCHESTRATION (Some "timeout") 2 in
  [failed] <> []
  /\ Engine.converged (Engine.analyze (-1) [failed]) = false.
Proof.
  intros failed.
  assert (Hne : [failed] <> []) by discriminate.
  split; [exact Hne|].
  destruct (analyze_measurements (-1) [failed] Hne)
    as (s & f & rate & avg & Hs & _ & _ & _ & _ & _ & Hlen & _ & _ & Hzero).
  apply Hzero. rewrite Hlen. reflexivity.
Defined.

(** X7. The insight generator on the analysis of the same results: for results
    that are not empty it returns insights, the first of which tells
    whether the run converged, and at least two next actions; on the
    analysis of no results it builds the "not achieved" insight and then
    fails with [KeyError('total_execution_time')]. *)
Theorem generate_after_analyze (query : string) (convergence_threshold : R)
        (mcp_results : list Engine.MCPExecutionResult) :
  let d := Engine.analyze convergence_threshold mcp_results in
  match mcp_results with
  | [] =>
      Engine.generate query mcp_results d
      = inl (Py.KeyError "total_execution_time")
  | _ :: _ =>
      exists first insights next_actions,
        Engine.generate query mcp_results d = inr (first :: insights, next_actions)
        /\ (2 <= length next_actions)%nat
        /\ match first with
           | Engine.QueryProcessed rate =>
               Engine.converged d = true /\ Engine.success_rate d = Some rate
           | Engine.NotAchieved why =>
               Engine.converged d = false /\ Engine.reason d = Some why
           | _ => False
           end
  end.
Proof.
  intros d. subst d. destruct mcp_results as [|r rs]; [reflexivity|].
  unfold Engine.generate, Engine.analyze.
  cbn [Engine.converged Engine.success_rate Engine.average_confidence
       Engine.reason Engine.total_execution_time Engine.subscript].
  match goal with |- context [Py.Rleb 0.8 ?a && Py.Rleb convergence_threshold ?b] =>
    destruct (Py.Rleb 0.8 a && Py.Rleb convergence_threshold b) end;
    cbn [Py.bind Py.ret app];
    match goal with |- context [Py.Rltb 10 ?t] => destruct (Py.Rltb 10 t) end;
    eexists _, _, _; (split; [reflexivity|]);
    (split; [|split; reflexivity]);
    rewrite ?length_app; cbn [length]; lia.
Qed.

End EngineAnalysis.

(** *** The effects of [execute] and the chaining of the context *)

Section EngineEffects.

Context {St : Type}.
Variable iface : Engine.ToolInterface St.

Lemma string_length_append s t :
  String.length (s +:+ t) = (String.length s + String.length t)%nat.
Proof.
  induction s as [|c s IH]; [reflexivity|].
  change (String c s +:+ t) with (String c (s +:+ t)).
  cbn [String.length]. now rewrite IH.
Qed.

Lemma string_append_empty s : s +:+ "" = s.
Proof.
  induction s as [|c s IH]; [reflexivity|].
  change (String c s +:+ "") with (String c (s +:+ "")). now rewrite IH.
Qed.

Lemma take_length n s : (String.length (Py.take n s) <= n)%nat.
Proof.
  unfold Py.take. revert s. induction n as [|n IH]; intros s.
  - destruct s; cbn; lia.
  - destruct s as [|c s]; cbn; [lia|]. specialize (IH s). lia.
Qed.

Lemma chain_context_suffix context d :
  match Engine.chain_context context d with
  | inr context' =>
      exists suffix,
        context' = context +:+ suffix
        /\ (Laws.text_payload d -> (String.length suffix <= 111)%nat)
  | inl _ => True
  end.
Proof.
  destruct d as [|[answer|[e|excerpt]]|[e|rendering]|];
    cbn [Engine.chain_context Engine.excerpt_of Py.bind Py.ret].
  - exists "". rewrite string_append_empty. split; [reflexivity|cbn; lia].
  - exists (" | " +:+ Py.take 100 answer). split; [reflexivity|]. intros _.
    rewrite (string_length_append " | "). pose proof (take_length 100 answer).
    cbn [String.length]. lia.
  - exact I.
  - exists (" | " +:+ excerpt). split; [reflexivity|]. intros H. destruct H.
  - exact I.
  - exists (" | Search: " +:+ Py.take 100 rendering). split; [reflexivity|]. intros _.
    rewrite (string_length_append " | Search: ").
    pose proof (take_length 100 rendering).
    cbn [String.length]. lia.
  - exists "". rewrite string_append_empty. split; [reflexivity|cbn; lia].
Qed.

Lemma retry_loop_extends self tool_name query remaining :
  forall attempt results context st,
    exists group,
      fst (fst (Engine.retry_loop iface self tool_name query remaining attempt
                                  results context st))
      = results ++ group.
Proof.
  induction remaining as [|k IH]; intros attempt results context st.
  - exists []. cbn [Engine.retry_loop fst]. now rewrite app_nil_r.
  - cbn [Engine.retry_loop].
    destruct (Engine.route iface self tool_name query context st) as [[e|result] st'].
    + destruct (attempt =? Engine.max_retries self - 1)%nat; [|apply IH].
      destruct (IH (S attempt) (results ++ [Engine.error_result tool_name e attempt])
                   context st') as (g & Hg).
      eexists. rewrite Hg, <- app_assoc. reflexivity.
    + destruct (Engine.success (Engine.set_retry_count result attempt)).
      * destruct (Engine.chain_context context
                    (Engine.data (Engine.set_retry_count result attempt)))
          as [e|context'].
        -- destruct (attempt =? Engine.max_retries self - 1)%nat.
           ++ destruct (IH (S attempt)
                          ((results ++ [Engine.set_retry_count result attempt])
                           ++ [Engine.error_result tool_name e attempt])
                          context st') as (g & Hg).
              eexists. rewrite Hg, <- !app_assoc. reflexivity.
           ++ destruct (IH (S attempt)
                          (results ++ [Engine.set_retry_count result attempt])
                          context st') as (g & Hg).
              eexists. rewrite Hg, <- app_assoc. reflexivity.
        -- eexists. reflexivity.
      * destruct (attempt =? Engine.max_retries self - 1)%nat; [|apply IH].
        destruct (IH (S attempt) (results ++ [Engine.set_retry_count result attempt])
                     context st') as (g & Hg).
        eexists. rewrite Hg, <- app_assoc. reflexivity.
Qed.

(** X8. One step of the pattern changes the context only by appending to
    it, whatever the tool returns.  When the final answers that the tool
    returns are [str], it appends at most 111 characters (a separator and
    an excerpt of at most 100 characters of the result); for a final
    answer of another kind, whose slice may be longer or may not exist, no
    bound is stated.  A step all of whose records are failures leaves the
    context as it was. *)
Theorem retry_loop_context (self : Engine.AutomatedExecutionEngine)
        (tool_name query : string) (remaining : nat) :
  forall (attempt : nat) (results : list Engine.MCPExecutionResult)
         (context : string) (st : St),
    let step := Engine.retry_loop iface self tool_name query remaining attempt
                                  results context st in
    exists suffix,
      snd (fst step) = context +:+ suffix
      /\ (Laws.text_answers iface self query tool_name ->
          (String.length suffix <= 111)%nat)
      /\ (Forall (fun r => Engine.success r = false)
                 (skipn (length results) (fst (fst step))) ->
          suffix = "").
Proof.
  induction remaining as [|k IH]; intros attempt results context st; cbn zeta.
  - cbn [Engine.retry_loop fst snd]. exists "".
    rewrite string_append_empty. split; [reflexivity|].
    split; [intros _; cbn; lia|reflexivity].
  - cbn [Engine.retry_loop].
    destruct (Engine.route iface self tool_name query context st)
      as [[e|result] st'] eqn:Hroute.
    + destruct (attempt =? Engine.max_retries self - 1)%nat.
      * destruct (IH (S attempt) (results ++ [Engine.error_result tool_name e attempt])
                     context st') as (suffix & H1 & H2 & H3).
        exists suffix. split; [exact H1|]. split; [exact H2|].
        intros Hall. apply H3.
        rewrite length_app. cbn [length].
        replace (length results + 1)%nat with (1 + length results)%nat by lia.
        rewrite <- skipn_skipn. now apply Forall_drop.
      * apply IH.
    + change (Engine.success (Engine.set_retry_count result attempt))
        with (Engine.success result).
      change (Engine.data (Engine.set_retry_count result attempt))
        with (Engine.data result).
      destruct (Engine.success result) eqn:Hsucc.
      * assert (Hkept : forall records group,
                  records
                  = (results ++ [Engine.set_retry_count result attempt]) ++ group ->
                  Forall (fun r => Engine.success r = false)
                         (skipn (length results) records) -> False).
        { intros records group -> Hall.
          rewrite <- app_assoc, skipn_app, Nat.sub_diag, skipn_all in Hall.
          cbn [app skipn] in Hall.
          inversion Hall as [|? ? Hr _]; subst. cbn in Hr. congruence. }
        pose proof (chain_context_suffix context (Engine.data result)) as Hchain.
        destruct (Engine.chain_context context (Engine.data result)) as [e|context'].
        -- destruct (attempt =? Engine.max_retries self - 1)%nat.
           ++ destruct (IH (S attempt)
                          ((results ++ [Engine.set_retry_count result attempt])
                           ++ [Engine.error_result tool_name e attempt])
                          context st') as (suffix & H1 & H2 & _).
              exists suffix. split; [exact H1|]. split; [exact H2|].
              intros Hall. exfalso.
              destruct (retry_loop_extends self tool_name query k (S attempt)
                          ((results ++ [Engine.set_retry_count result attempt])
                           ++ [Engine.error_result tool_name e attempt])
                          context st') as (g & Hg).
              eapply Hkept; [|exact Hall]. rewrite Hg, <- !app_assoc. reflexivity.
           ++ destruct (IH (S attempt)
                          (results ++ [Engine.set_retry_count result attempt])
                          context st') as (suffix & H1 & H2 & _).
              exists suffix. split; [exact H1|]. split; [exact H2|].
              intros Hall. exfalso.
              destruct (retry_loop_extends self tool_name query k (S attempt)
                          (results ++ [Engine.set_retry_count result attempt])
                          context st') as (g & Hg).
              exact (Hkept _ _ Hg Hall).
        -- cbn [fst snd]. destruct Hchain as (suffix & H1 & H2).
           exists suffix. split; [exact H1|].
           split; [intros Htext; apply H2; exact (Htext _ _ _ _ Hroute)|].
           intros Hall. exfalso.
           apply (Hkept _ [] (eq_sym (app_nil_r _)) Hall).
      * destruct (attempt =? Engine.max_retries self - 1)%nat.
        -- destruct (IH (S attempt) (results ++ [Engine.set_retry_count result attempt])
                        context st') as (suffix & H1 & H2 & H3).
           exists suffix. split; [exact H1|]. split; [exact H2|].
           intros Hall. apply H3.
           rewrite length_app. cbn [length].
           replace (length results + 1)%nat with (1 + length results)%nat by lia.
           rewrite <- skipn_skipn. now apply Forall_drop.
        -- apply IH.
Qed.

(** X9. [execute] never changes the configuration; what the tools did to the
    interface stays done whether the run goes through or not; a run that
    goes through adds exactly one entry to the history, with the query,
    the tier and the success of the result, and a run that ends in the
    error result adds none. *)
Theorem execute_effects (self : Engine.AutomatedExecutionEngine) (query : string)
        (elapsed timestamp : R) :
  let run := Engine.execute iface self query elapsed timestamp in
  let r := fst run in
  Engine.max_retries (snd run) = Engine.max_retries self
  /\ Engine.convergence_threshold (snd run) = Engine.convergence_threshold self
  /\ (exists tier pattern,
        Engine.assess query = inr tier
        /\ Engine.get_pattern tier = inr pattern
        /\ Engine.mcp_interface (snd run)
           = snd (Engine._execute_pattern_with_retries iface self pattern query))
  /\ ((Engine.error (Engine.res_convergence_data r) = None
       /\ Engine.execution_history (snd run)
          = Engine.execution_history self
            ++ [Engine.mkHistoryEntry timestamp query (Engine.res_complexity r)
                                      (Engine.res_success r) elapsed])
      \/ (Engine.error (Engine.res_convergence_data r) <> None
          /\ Engine.execution_history (snd run) = Engine.execution_history self)).
Proof.
  cbn zeta. unfold Engine.execute.
  rewrite engine_assess_first.
  set (tier := Spec.first_matching_tier (Spec.keyword_match query)).
  pose proof (first_matching_tier_known (Spec.keyword_match query)) as Hknown.
  fold tier in Hknown.
  destruct (engine_get_pattern_known tier Hknown) as (tool & rest & Hpat).
  rewrite Hpat.
  destruct (Engine._execute_pattern_with_retries iface self (tool :: rest) query)
    as [mcp_results st] eqn:Hrun.
  cbn [Engine.convergence_threshold Engine.with_interface].
  destruct (Engine.generate query mcp_results
              (Engine.analyze (Engine.convergence_threshold self) mcp_results))
    as [e|[insights next_actions]] eqn:Hgen.
  - cbn [fst snd Engine.with_interface Engine.max_retries Engine.convergence_threshold
         Engine.mcp_interface Engine.execution_history].
    split; [reflexivity|]. split; [reflexivity|]. split.
    + exists tier, (tool :: rest). repeat split; [exact Hpat|].
      now rewrite Hrun.
    + right. split; [discriminate|reflexivity].
  - cbn [fst snd Engine.with_interface Engine.with_history Engine.max_retries
         Engine.convergence_threshold Engine.mcp_interface Engine.execution_history
         Engine.res_convergence_data Engine.res_complexity Engine.res_success
         Engine.res_total_execution_time].
    split; [reflexivity|]. split; [reflexivity|]. split.
    + exists tier, (tool :: rest). repeat split; [exact Hpat|].
      now rewrite Hrun.
    + left. split; [|reflexivity].
      destruct mcp_results as [|r0 rs]; [discriminate Hgen|reflexivity].
Qed.

End EngineEffects.

(** *** Statistics and status *)

Section StatusReports.

Lemma last_n_suffix {A} (n : nat) (l : list A) :
  exists older, l = older ++ Py.last_n n l
                /\ length (Py.last_n n l) = Nat.min n (length l).
Proof.
  unfold Py.last_n. exists (firstn (length l - n) l). split.
  - symmetry. apply firstn_skipn.
  - rewrite length_skipn. lia.
Qed.

Lemma ratio_unit_interval (a b : nat) :
  (a <= b)%nat -> Spec.unit_interval (INR a / INR (Nat.max b 1)).
Proof.
  intros Hle. unfold Spec.unit_interval.
  assert (Hpos : 0 < INR (Nat.max b 1)) by (apply lt_0_INR; lia).
  assert (Ha : INR a <= INR (Nat.max b 1)) by (apply le_INR; lia).
  pose proof (pos_INR a) as H0. split.
  - apply Rmult_le_pos; [exact H0|]. left. now apply Rinv_0_lt_compat.
  - apply Rmult_le_reg_r with (INR (Nat.max b 1)); [exact Hpos|].
    unfold Rdiv. rewrite Rmult_assoc, Rinv_l by lra. lra.
Qed.

(** X10. [get_stats] reports the counters as they are and the length of
    the error log as the error count; it reports at most the five latest
    errors, in the order of the log, and all of them when the log has five
    or fewer; the success rate is the success count divided by the
    execution count, and before any execution it is the success count
    itself (the divisor is 1, not 0), so nothing is raised; the rate lies
    in [0, 1] as long as the interface has counted no more successes than
    executions. *)
Theorem get_stats_report (self : Engine.MCPToolInterface) :
  let stats := Status.get_stats self in
  Status.total_executions stats = Engine.execution_count self
  /\ Status.success_count stats = Engine.success_count self
  /\ Status.error_count stats = length (Engine.error_log self)
  /\ (exists older,
        Engine.error_log self = older ++ Status.recent_errors stats
        /\ length (Status.recent_errors stats)
           = Nat.min 5 (length (Engine.error_log self))
        /\ length (Status.recent_errors stats)
           = Nat.min 5 (Status.error_count stats))
  /\ ((0 < Engine.execution_count self)%nat ->
      Status.success_rate stats
      = INR (Engine.success_count self) / INR (Engine.execution_count self))
  /\ (Engine.execution_count self = 0%nat ->
      Status.success_rate stats = INR (Engine.success_count self))
  /\ ((Engine.success_count self <= Engine.execution_count self)%nat ->
      Spec.unit_interval (Status.success_rate stats)).
Proof.
  cbn zeta. unfold Status.get_stats.
  cbn [Status.recent_errors Status.error_count Status.success_rate
       Status.total_executions Status.success_count].
  split; [reflexivity|]. split; [reflexivity|]. split; [reflexivity|].
  split; [|split; [|split]].
  - destruct (Engine.error_log self) as [|e log] eqn:Hlog.
    + exists []. repeat split.
    + destruct (last_n_suffix 5 (e :: log)) as (older & H1 & H2).
      exists older. split; [exact H1|]. split; exact H2.
  - intros Hpos. replace (Nat.max (Engine.execution_count self) 1)
      with (Engine.execution_count self) by lia. reflexivity.
  - intros ->. cbn [Nat.max INR]. lra.
  - apply ratio_unit_interval.
Qed.

(** X11. [get_status] never divides by zero: with an empty history it reports
    0 executions, a success rate of 0 and an average time of 0; in general
    the success rate lies in [0, 1], and the average time times the number
    of executions is the total of the recorded times. *)
Theorem get_status_report
        (self : @Engine.AutomatedExecutionEngine Engine.MCPToolInterface) :
  let status := Status.get_status self in
  let history := Engine.execution_history self in
  Status.st_total_executions status = length history
  /\ Spec.unit_interval (Status.st_success_rate status)
  /\ (history = [] ->
      Status.st_success_rate status = 0
      /\ Status.st_average_execution_time status = 0)
  /\ (history <> [] ->
      Status.st_average_execution_time status * INR (length history)
      = Py.sum (map Engine.h_execution_time history))
  /\ (Status.st_success_rate status = 1 <->
      history <> [] /\ Forall (fun h => Engine.h_success h = true) history).
Proof.
  cbn zeta. unfold Status.get_status.
  cbn [Status.st_total_executions Status.st_success_rate
       Status.st_average_execution_time].
  set (history := Engine.execution_history self).
  split; [reflexivity|]. split; [|split; [|split]].
  - apply ratio_unit_interval. apply List.filter_length_le.
  - intros ->. cbn [List.filter length map Nat.max INR]. rewrite sum_nil. lra.
  - intros Hne. pose proof (length_pos_INR history Hne) as Hpos.
    assert (Hmax : Nat.max (length history) 1 = length history).
    { destruct history; [congruence|cbn [length]; lia]. }
    rewrite Hmax. field. lra.
  - pose proof (List.filter_length_le Engine.h_success history) as Hle.
    split.
    + intros Hrate. destruct history as [|h hs] eqn:Hh.
      { cbn [List.filter length Nat.max INR] in Hrate. lra. }
      split; [discriminate|]. rewrite <- Hh in *.
      assert (Hmax : Nat.max (length history) 1 = length history).
      { rewrite Hh. cbn [length]. lia. }
      rewrite Hmax in Hrate.
      assert (Hpos : 0 < INR (length history)).
      { apply length_pos_INR. rewrite Hh. discriminate. }
      assert (Heq : INR (length (List.filter Engine.h_success history))
                    = INR (length history)).
      { apply Rmult_eq_reg_r with (/ INR (length history)).
        - unfold Rdiv in Hrate. rewrite Hrate. rewrite Rinv_r; lra.
        - apply Rinv_neq_0_compat. lra. }
      apply INR_eq in Heq.
      clear -Heq. induction history as [|x xs IH]; [constructor|].
      cbn [List.filter length] in Heq.
      pose proof (List.filter_length_le Engine.h_success xs) as Hle.
      destruct (Engine.h_success x) eqn:Hx; cbn [length] in Heq; [|lia].
      constructor; [exact Hx|]. apply IH. lia.
    + intros [Hne Hall].
      assert (Hfilter : List.filter Engine.h_success history = history).
      { clear -Hall. induction Hall as [|x xs Hx _ IH]; [reflexivity|].
        cbn [List.filter]. rewrite Hx, IH. reflexivity. }
      rewrite Hfilter.
      assert (Hmax : Nat.max (length history) 1 = length history).
      { destruct history; [congruence|cbn [length]; lia]. }
      rewrite Hmax. pose proof (length_pos_INR history Hne). field. lra.
Qed.

End StatusReports.

(** *** What [analyze_convergence] can raise *)

Section AnalyzerErrors.

Lemma diminishing_returns_never_raises confidences mcp_results :
  exists a, Convergence._analyze_diminishing_returns confidences mcp_results = inr a.
Proof.
  unfold Convergence._analyze_diminishing_returns.
  destruct (length confidences <? 3)%nat; [eexists; reflexivity|].
  destruct (Nat.leb_spec 2 (length (Convergence.gains_of confidences))) as [H2|H2];
    [|eexists; reflexivity].
  assert (Hne : Convergence.gains_of confidences <> []).
  { intros E. rewrite E in H2. cbn in H2. lia. }
  rewrite (mean_nonempty _ Hne). eexists. reflexivity.
Qed.

Lemma group_add_readable groups name r :
  Forall (fun g => Forall Spec.readable (snd g)) groups ->
  Spec.readable r ->
  Forall (fun g => Forall Spec.readable (snd g)) (Convergence.group_add groups name r).
Proof.
  intros Hall Hr. induction Hall as [|[k rs] gs Hg Hgs IH]; cbn [Convergence.group_add].
  - repeat constructor. exact Hr.
  - destruct (String.eqb k name).
    + constructor; [|assumption]. cbn [snd] in *.
      apply List.Forall_app. split; [exact Hg|]. repeat constructor. exact Hr.
    + constructor; assumption.
Qed.

Lemma grouping_readable pattern mcp_results :
  Forall Spec.readable mcp_results ->
  forall i groups,
    Forall (fun g => Forall Spec.readable (snd g)) groups ->
    Forall (fun g => Forall Spec.readable (snd g))
           (Convergence.group_loop pattern i mcp_results groups).
Proof.
  induction 1 as [|r rs Hr _ IH]; intros i groups Hg; cbn [Convergence.group_loop];
    [exact Hg|].
  apply IH. now apply group_add_readable.
Qed.

Lemma consensus_of_never_raises groups :
  Forall (fun g => Forall Spec.readable (snd g)) groups ->
  exists scores, Convergence.consensus_of groups = inr scores.
Proof.
  induction 1 as [|[k rs] gs Hg _ (scores & Heq)]; cbn [Convergence.consensus_of].
  - exists []. reflexivity.
  - rewrite Heq. cbn [snd] in Hg. rewrite (confidences_of_readable rs Hg).
    cbn [Py.bind].
    destruct (1 <=? length rs)%nat.
    + destruct (Spec.successful_confidences rs) as [|c cs] eqn:E.
      * cbn [Py.bind Py.ret app]. exists scores. reflexivity.
      * rewrite mean_nonempty by discriminate. cbn [Py.bind Py.ret app].
        eexists. reflexivity.
    + cbn [Py.bind Py.ret app]. exists scores. reflexivity.
Qed.

Lemma consensus_validation_never_raises mcp_results pattern :
  Forall Spec.readable mcp_results ->
  exists a, Convergence._analyze_consensus_validation mcp_results pattern = inr a.
Proof.
  intros Hread. unfold Convergence._analyze_consensus_validation.
  destruct (Convergence.no_pattern pattern || (length mcp_results <? 2)%nat).
  { eexists. reflexivity. }
  destruct (consensus_of_never_raises _
              (grouping_readable (match pattern with Some p => p | None => [] end)
                                 _ Hread 0%nat [] (List.Forall_nil _)))
    as (scores & Heq).
  rewrite Heq. cbn [Py.bind].
  destruct scores as [|s0 ss] eqn:Escores.
  { eexists. reflexivity. }
  rewrite <- Escores in *. assert (Hne : scores <> []) by (rewrite Escores; discriminate).
  clear Escores.
  rewrite (mean_nonempty _ Hne). cbn [Py.bind].
  destruct (Nat.ltb_spec 1 (length scores)) as [Hlen|Hlen]; cbn [andb].
  - destruct (Py.Rltb 0 (Spec.mean scores)) eqn:Hpos.
    + apply Rltb_true in Hpos.
      rewrite (stdev_two_points _ Hlen). cbn [Py.bind].
      rewrite truediv_nonzero by lra. cbn [Py.bind Py.ret].
      eexists. reflexivity.
    + cbn [Py.bind Py.ret]. eexists. reflexivity.
  - cbn [Py.bind Py.ret]. eexists. reflexivity.
Qed.

Lemma unreadable_record (r : Convergence.Result) :
  ~ Spec.readable r ->
  Convergence.confidence r <> None /\ Convergence.success r = None.
Proof.
  unfold Spec.readable. intros Hr.
  destruct (Convergence.confidence r) as [c|], (Convergence.success r) as [b|].
  - exfalso. apply Hr. intros _. discriminate.
  - split; [discriminate|reflexivity].
  - exfalso. apply Hr. intros _. discriminate.
  - exfalso. apply Hr. intros H. congruence.
Qed.

Lemma update_convergence_history_never_raises self result pattern complexity
      confidences :
  confidences <> [] ->
  exists self2,
    Convergence._update_convergence_history self result pattern complexity confidences
    = (inr tt, self2).
Proof.
  intros Hne. unfold Convergence._update_convergence_history.
  destruct pattern as [[|tool rest]|]; try (eexists; reflexivity).
  unfold Py.getitem. rewrite track_lookup, (mean_nonempty _ Hne).
  cbn [Py.ret].
  match goal with |- context [Py.mean ?h] =>
    assert (Hne' : h <> []) by (destruct (Convergence.confidence_history
      (Spec.history_of self (Convergence.pattern_key complexity (tool :: rest))));
      discriminate);
    rewrite (mean_nonempty h Hne') end.
  eexists. reflexivity.
Qed.

Lemma track_known self key :
  (0 < Spec.prior_executions self key)%nat -> Convergence.track self key = self.
Proof.
  unfold Spec.prior_executions, Spec.history_of, Convergence.track.
  destruct (Convergence.pattern_performance self !! key); [reflexivity|].
  cbn. lia.
Qed.

Lemma adaptive_zero_threshold self confidences tool rest complexity :
  confidences <> [] ->
  let key := Convergence.pattern_key complexity (tool :: rest) in
  (0 < Spec.prior_executions self key)%nat ->
  Spec.adaptive_threshold self key = 0 ->
  Convergence._analyze_adaptive_learning self confidences (Some (tool :: rest)) complexity
  = (inl (Py.ZeroDivisionError "float division by zero"), self).
Proof.
  intros Hne key Hprior Hzero. unfold Convergence._analyze_adaptive_learning.
  fold key. rewrite (track_known self key Hprior).
  rewrite (mean_nonempty _ Hne). cbn [Py.bind].
  unfold Py.getitem.
  unfold Spec.adaptive_threshold, Spec.prior_executions, Spec.history_of in *.
  destruct (Convergence.pattern_performance self !! key) as [p|]; [|cbn in Hprior; lia].
  cbn [Py.bind Py.ret].
  destruct (Nat.ltb_spec 0 (Convergence.executions p)) as [_|]; [|lia].
  rewrite Hzero. unfold Py.truediv.
  rewrite (proj2 (Reqb_true 0 0)) by reflexivity. reflexivity.
Qed.

(** X12. [analyze_convergence] raises in two cases only.  The first: some
    record has a confidence and no success flag; the comprehension that
    collects the confidences then raises [AttributeError] on the first
    such record, before any strategy runs.  The second, when every record
    can be read: a pattern is given, some result succeeded with a
    confidence, the pattern has executions on record, and its recorded
    average confidence is such that the adaptive threshold,
    min(0.9, average + 0.1), is 0; it then raises [ZeroDivisionError].  In
    both cases the analyzer is left as it was.  In every other case,
    whatever the confidences and the tracked data are, it returns a
    verdict.  The report statements at the end of the history update are
    apart: they are the subject of [Module Learning] and fail only for a
    tracked key without a colon. *)
Theorem analyze_convergence_raises
        (self : Convergence.AdvancedConvergenceAnalyzer)
        (mcp_results : list Convergence.Result) (iteration : nat)
        (complexity : string) (pattern : option (list string)) :
  let confidences :=
    Spec.successful_confidences mcp_results in
  let run := Convergence.analyze_convergence self mcp_results iteration complexity
                                             pattern in
  ((exists e, fst run = inl e)
   <-> (~ Forall Spec.readable mcp_results
        \/ exists tool rest,
             pattern = Some (tool :: rest)
             /\ confidences <> []
             /\ (0 < Spec.prior_executions
                       self (Convergence.pattern_key complexity (tool :: rest)))%nat
             /\ Spec.adaptive_threshold
                  self (Convergence.pattern_key complexity (tool :: rest)) = 0))
  /\ (~ Forall Spec.readable mcp_results ->
      exists r,
        In r mcp_results
        /\ Convergence.confidence r <> None
        /\ Convergence.success r = None
        /\ run = (inl (Py.AttributeError
                         ("'" +:+ Convergence.type_name r
                          +:+ "' object has no attribute 'success'")),
                  self))
  /\ (Forall Spec.readable mcp_results ->
      forall e, fst run = inl e ->
                e = Py.ZeroDivisionError "float division by zero")
  /\ (forall e, fst run = inl e -> snd run = self).
Proof.
  cbn zeta.
  destruct (List.Forall_dec _ readable_dec mcp_results) as [Hread|Hnot].
  2: { destruct (analyze_convergence_unreadable self mcp_results iteration complexity
                   pattern Hnot) as (r & Hin & Hr & Hrun).
       rewrite Hrun. cbn [fst snd].
       split; [split; [intros _; now left|intros _; eexists; reflexivity]|].
       split.
       { intros _. exists r. destruct (unreadable_record r Hr) as [Hc Hs].
         split; [exact Hin|]. split; [exact Hc|]. split; [exact Hs|]. reflexivity. }
       split; [intros H; contradiction|intros e _; reflexivity]. }
  assert (Hgoal :
    ((exists e, fst (Convergence.analyze_convergence self mcp_results iteration
                       complexity pattern) = inl e)
     <-> (exists tool rest,
             pattern = Some (tool :: rest)
             /\ Spec.successful_confidences mcp_results <> []
             /\ (0 < Spec.prior_executions
                       self (Convergence.pattern_key complexity (tool :: rest)))%nat
             /\ Spec.adaptive_threshold
                  self (Convergence.pattern_key complexity (tool :: rest)) = 0))
    /\ (forall e, fst (Convergence.analyze_convergence self mcp_results iteration
                         complexity pattern) = inl e ->
                  e = Py.ZeroDivisionError "float division by zero"
                  /\ snd (Convergence.analyze_convergence self mcp_results iteration
                            complexity pattern) = self)).
  2: { destruct Hgoal as [Hiff Hwhich].
       split.
       { rewrite Hiff. split; [intros H; now right|intros [H|H]; [contradiction|exact H]]. }
       split; [intros H; contradiction|].
       split; [intros _ e He; apply (Hwhich e He)|intros e He; apply (Hwhich e He)]. }
  unfold Convergence.analyze_convergence.
  destruct mcp_results as [|r0 rs] eqn:Hres.
  { cbn [fst snd]. split; [split|]; [intros [e [=]]| |intros e [=]].
    intros (tool & rest & _ & Hne & _). now cbn in Hne. }
  rewrite <- Hres in *. clear Hres.
  rewrite (confidences_of_readable _ Hread).
  set (confidences :=
         Spec.successful_confidences mcp_results).
  destruct confidences as [|c0 cs] eqn:Hconf.
  { cbn [fst snd]. split; [split|]; [intros [e [=]]| |intros e [=]].
    intros (tool & rest & _ & Hne & _). congruence. }
  rewrite <- Hconf. assert (Hne : confidences <> []) by (rewrite Hconf; discriminate).
  clear Hconf.
  rewrite (confidence_threshold_result self confidences _ complexity Hne).
  cbv zeta.
  destruct (diminishing_returns_never_raises confidences mcp_results) as (ra & Hra).
  rewrite Hra.
  destruct (consensus_validation_never_raises mcp_results pattern Hread) as (cs' & Hcs).
  rewrite Hcs.
  destruct pattern as [[|tool rest]|].
  1, 3: cbn [Convergence._analyze_adaptive_learning
               Convergence._update_convergence_history fst snd];
        (split; [split|]; [intros [e [=]]| |intros e [=]]);
        intros (tool & rest & [=] & _).
  set (key := Convergence.pattern_key complexity (tool :: rest)).
  destruct (Nat.eq_dec (Spec.prior_executions self key) 0%nat) as [Hfirst|Hlater].
  - rewrite (adaptive_first_execution self confidences tool rest complexity Hne Hfirst).
    fold key.
    match goal with |- context [Convergence._update_convergence_history ?s ?r ?p ?c ?cf] =>
      destruct (update_convergence_history_never_raises s r p c cf Hne)
        as (self2 & Hupd) end.
    rewrite Hupd. cbn [fst snd].
    split; [split|]; [intros [e [=]]| |intros e [=]].
    intros (tool' & rest' & [= <- <-] & _ & Hprior & _). fold key in Hprior. lia.
  - assert (Hprior : (0 < Spec.prior_executions self key)%nat) by lia.
    destruct (Req_dec_T (Spec.adaptive_threshold self key) 0) as [Hzero|Hnz].
    + rewrite (adaptive_zero_threshold self confidences tool rest complexity
                 Hne Hprior Hzero).
      cbn [fst snd]. split; [split|].
      * intros _. exists tool, rest. repeat split; assumption.
      * intros _. eexists. reflexivity.
      * intros e [= <-]. split; reflexivity.
    + rewrite (adaptive_later_execution self confidences tool rest complexity
                 Hne Hprior Hnz).
      fold key.
      match goal with |- context [Convergence._update_convergence_history ?s ?r ?p ?c ?cf] =>
        destruct (update_convergence_history_never_raises s r p c cf Hne)
          as (self2 & Hupd) end.
      rewrite Hupd. cbn [fst snd].
      split; [split|]; [intros [e [=]]| |intros e [=]].
      intros (tool' & rest' & [= <- <-] & _ & _ & Hz). fold key in Hz. contradiction.
Qed.

End AnalyzerErrors.

(** *** What [analyze_convergence] does to the analyzer *)

Section AnalyzerState.

Lemma track_insert self key v :
  <[key := v]> (Convergence.pattern_performance (Convergence.track self key))
  = <[key := v]> (Convergence.pattern_performance self).
Proof.
  unfold Convergence.track.
  destruct (Convergence.pattern_performance self !! key); [reflexivity|].
  cbn [Convergence.pattern_performance]. apply insert_insert_eq.
Qed.

Lemma track_convergence_history self key :
  Convergence.convergence_history (Convergence.track self key)
  = Convergence.convergence_history self.
Proof.
  unfold Convergence.track.
  destruct (Convergence.pattern_performance self !! key); reflexivity.
Qed.

Lemma update_convergence_history_state self result tool rest complexity confidences :
  confidences <> [] ->
  let key := Convergence.pattern_key complexity (tool :: rest) in
  let log :=
    Convergence.convergence_history self
    ++ [Convergence.mkHistoryEntry (tool :: rest) complexity result
                                   "2025-08-04T04:45:00Z"] in
  Convergence._update_convergence_history
    (Convergence.track self key) result (Some (tool :: rest)) complexity confidences
  = (inr tt,
     Convergence.mkAnalyzer
       (Convergence.base_threshold self)
       (if (100 <? length log)%nat then Py.last_n 100 log else log)
       (<[key := Spec.recorded (Spec.history_of self key) (Spec.mean confidences)]>
          (Convergence.pattern_performance self))).
Proof.
  intros Hne key log. unfold Convergence._update_convergence_history. fold key.
  unfold Py.getitem. rewrite track_lookup, history_of_track, (mean_nonempty _ Hne).
  cbn [Py.ret].
  set (perf := Spec.history_of self key).
  set (history := Convergence.confidence_history perf ++ [Spec.mean confidences]).
  assert (Hne' : history <> []).
  { unfold history. destruct (Convergence.confidence_history perf); discriminate. }
  rewrite (mean_nonempty _ Hne').
  assert (Htrack : Convergence.track (Convergence.track self key) key
                   = Convergence.track self key).
  { unfold Convergence.track at 1. now rewrite track_lookup. }
  rewrite Htrack, track_insert, track_base_threshold, track_convergence_history.
  reflexivity.
Qed.

Lemma keep_last_length {A} (n : nat) (l : list A) :
  (length (if (n <? length l)%nat then Py.last_n n l else l) <= n)%nat.
Proof.
  destruct (Nat.ltb_spec n (length l)) as [H|H]; [|exact H].
  unfold Py.last_n. rewrite length_skipn. lia.
Qed.

Lemma analyze_convergence_outcome self mcp_results iteration complexity pattern :
  let confidences :=
    Spec.successful_confidences mcp_results in
  let run := Convergence.analyze_convergence self mcp_results iteration complexity
                                             pattern in
  ((Convergence.no_pattern pattern = true \/ confidences = []
    \/ exists e, fst run = inl e)
   /\ snd run = self)
  \/ (exists tool rest verdict,
        pattern = Some (tool :: rest)
        /\ confidences <> []
        /\ fst run = inr verdict
        /\ snd run
           = Convergence.mkAnalyzer
               (Convergence.base_threshold self)
               (let log :=
                  Convergence.convergence_history self
                  ++ [Convergence.mkHistoryEntry (tool :: rest) complexity verdict
                                                 "2025-08-04T04:45:00Z"] in
                if (100 <? length log)%nat then Py.last_n 100 log else log)
               (<[Convergence.pattern_key complexity (tool :: rest)
                  := Spec.recorded
                       (Spec.history_of
                          self (Convergence.pattern_key complexity (tool :: rest)))
                       (Spec.mean confidences)]>
                  (Convergence.pattern_performance self))).
Proof.
  cbn zeta.
  destruct (List.Forall_dec _ readable_dec mcp_results) as [Hread|Hnot].
  2: { destruct (analyze_convergence_unreadable self mcp_results iteration complexity
                   pattern Hnot) as (r & _ & _ & Hrun).
       rewrite Hrun. left. split; [right; right; eexists|]; reflexivity. }
  unfold Convergence.analyze_convergence.
  destruct mcp_results as [|r0 rs] eqn:Hres.
  { left. split; [right; left|]; reflexivity. }
  rewrite <- Hres in *. clear Hres.
  rewrite (confidences_of_readable _ Hread).
  set (confidences :=
         Spec.successful_confidences mcp_results).
  destruct confidences as [|c0 cs] eqn:Hconf.
  { left. split; [right; left|]; reflexivity. }
  rewrite <- Hconf. assert (Hne : confidences <> []) by (rewrite Hconf; discriminate).
  clear Hconf.
  rewrite (confidence_threshold_result self confidences _ complexity Hne).
  cbv zeta.
  destruct (diminishing_returns_never_raises confidences mcp_results) as (ra & Hra).
  rewrite Hra.
  destruct (consensus_validation_never_raises mcp_results pattern Hread) as (cs' & Hcs).
  rewrite Hcs.
  destruct pattern as [[|tool rest]|].
  1, 3: left; split; [left|]; reflexivity.
  set (key := Convergence.pattern_key complexity (tool :: rest)).
  destruct (Nat.eq_dec (Spec.prior_executions self key) 0%nat) as [Hfirst|Hlater].
  - rewrite (adaptive_first_execution self confidences tool rest complexity Hne Hfirst).
    fold key.
    match goal with |- context [Convergence._update_convergence_history ?s ?r ?p ?c ?cf] =>
      pose proof (update_convergence_history_state self r tool rest complexity cf Hne)
        as Hupd
    end.
    cbv zeta in Hupd. fold key in Hupd. rewrite Hupd.
    right. eexists tool, rest, _. cbn [fst snd].
    split; [reflexivity|]. split; [exact Hne|]. split; reflexivity.
  - assert (Hprior : (0 < Spec.prior_executions self key)%nat) by lia.
    destruct (Req_dec_T (Spec.adaptive_threshold self key) 0) as [Hzero|Hnz].
    + rewrite (adaptive_zero_threshold self confidences tool rest complexity
                 Hne Hprior Hzero).
      left. split; [right; right; eexists|]; reflexivity.
    + rewrite (adaptive_later_execution self confidences tool rest complexity
                 Hne Hprior Hnz).
      fold key.
      match goal with |- context [Convergence._update_convergence_history ?s ?r ?p ?c ?cf] =>
        pose proof (update_convergence_history_state self r tool rest complexity cf Hne)
          as Hupd
      end.
      cbv zeta in Hupd. fold key in Hupd. rewrite Hupd.
      right. eexists tool, rest, _. cbn [fst snd].
      split; [reflexivity|]. split; [exact Hne|]. split; reflexivity.
Qed.

(** X13. [analyze_convergence] learns only from a run with a pattern and a
    successful result: without a pattern, or when no result succeeded,
    the analyzer is left as it was.  Otherwise, when a verdict is
    returned, the analyzer afterwards has the same base threshold, the log
    extended by one entry holding the pattern, the tier and that verdict,
    of which at most the latest 100 are kept, and the tracking entry of
    this pattern alone replaced by the recorded run: every other pattern
    keeps its data, the log never exceeds 100 entries and the confidence
    history of the pattern never exceeds 50. *)
Theorem analyze_convergence_state
        (self : Convergence.AdvancedConvergenceAnalyzer)
        (mcp_results : list Convergence.Result) (iteration : nat)
        (complexity : string) (pattern : option (list string)) :
  let confidences :=
    Spec.successful_confidences mcp_results in
  let run := Convergence.analyze_convergence self mcp_results iteration complexity
                                             pattern in
  (Convergence.no_pattern pattern = true \/ confidences = [] -> snd run = self)
  /\ (forall tool rest verdict,
        pattern = Some (tool :: rest) ->
        confidences <> [] ->
        fst run = inr verdict ->
        let key := Convergence.pattern_key complexity (tool :: rest) in
        let log :=
          Convergence.convergence_history self
          ++ [Convergence.mkHistoryEntry (tool :: rest) complexity verdict
                                         "2025-08-04T04:45:00Z"] in
        snd run
        = Convergence.mkAnalyzer
            (Convergence.base_threshold self)
            (if (100 <? length log)%nat then Py.last_n 100 log else log)
            (<[key := Spec.recorded (Spec.history_of self key)
                                    (Spec.mean confidences)]>
               (Convergence.pattern_performance self))
        /\ (length (Convergence.convergence_history (snd run)) <= 100)%nat
        /\ (length (Convergence.confidence_history (Spec.history_of (snd run) key))
            <= 50)%nat
        /\ Convergence.executions (Spec.history_of (snd run) key)
           = S (Spec.prior_executions self key)
        /\ (forall other, other <> key ->
              Convergence.pattern_performance (snd run) !! other
              = Convergence.pattern_performance self !! other)).
Proof.
  cbn zeta.
  destruct (analyze_convergence_outcome self mcp_results iteration complexity pattern)
    as [[Hwhy Hsame]|(tool & rest & verdict & Hpattern & Hne & Hfst & Hsnd)];
    cbn zeta in *.
  - split; [intros _; exact Hsame|].
    intros tool rest verdict Hpattern Hne Hfst. exfalso.
    destruct Hwhy as [Hno|[Hempty|[e He]]].
    + rewrite Hpattern in Hno. discriminate Hno.
    + contradiction.
    + congruence.
  - split.
    { intros [Hno|Hempty]; [rewrite Hpattern in Hno; discriminate Hno|contradiction]. }
    intros tool' rest' verdict' Hpattern' _ Hfst'.
    assert (tool' = tool /\ rest' = rest) as [-> ->]
      by (split; congruence).
    assert (verdict' = verdict) as -> by congruence.
    split; [exact Hsnd|]. rewrite Hsnd.
    cbn [Convergence.convergence_history Convergence.pattern_performance].
    unfold Spec.history_of at 1 3.
    cbn [Convergence.pattern_performance]. rewrite lookup_insert_eq.
    unfold Spec.recorded.
    cbn [Convergence.confidence_history Convergence.executions].
    split; [apply keep_last_length|]. split; [apply keep_last_length|].
    split; [reflexivity|].
    intros other Hother. now rewrite lookup_insert_ne by congruence.
Qed.

End AnalyzerState.

(** *** The grouping by tool of the consensus strategy *)

Section ConsensusByTool.

Lemma first_seen_In names n : In n (Laws.first_seen names) <-> In n names.
Proof.
  induction names as [|m rest IH]; cbn [Laws.first_seen]; [tauto|].
  cbn [In]. rewrite List.filter_In, IH.
  destruct (String.eqb_spec n m) as [->|Hne]; cbn [negb]; [tauto|].
  split; [tauto|]. intros [H|H]; [now left|right; split; [exact H|reflexivity]].
Qed.

Lemma first_seen_NoDup names : List.NoDup (Laws.first_seen names).
Proof.
  induction names as [|m rest IH]; cbn [Laws.first_seen]; constructor.
  - rewrite List.filter_In. intros [_ H]. now rewrite String.eqb_refl in H.
  - now apply List.NoDup_filter.
Qed.

Lemma filter_all {A} (P : A -> bool) l :
  (forall x, In x l -> P x = true) -> List.filter P l = l.
Proof.
  induction l as [|x l IH]; intros H; cbn [List.filter]; [reflexivity|].
  rewrite (H x (or_introl eq_refl)), IH; [reflexivity|].
  intros y Hy. apply H. now right.
Qed.

Lemma first_seen_snoc names n :
  Laws.first_seen (names ++ [n])
  = if existsb (String.eqb n) names then Laws.first_seen names
    else Laws.first_seen names ++ [n].
Proof.
  induction names as [|m rest IH]; cbn [Laws.first_seen app existsb List.filter];
    [reflexivity|].
  rewrite IH.
  destruct (String.eqb_spec n m) as [->|Hne]; cbn [orb]; [|].
  - destruct (existsb (String.eqb m) rest); [reflexivity|].
    rewrite List.filter_app. cbn [List.filter]. rewrite String.eqb_refl. cbn [negb].
    now rewrite app_nil_r.
  - destruct (existsb (String.eqb n) rest); [reflexivity|].
    rewrite List.filter_app. cbn [List.filter].
    destruct (String.eqb_spec n m); [contradiction|reflexivity].
Qed.

Lemma group_add_known (f : string -> list Convergence.Result) ks n r :
  List.NoDup ks -> In n ks ->
  Convergence.group_add (map (fun k => (k, f k)) ks) n r
  = map (fun k => (k, if String.eqb k n then f k ++ [r] else f k)) ks.
Proof.
  induction ks as [|k ks IH]; intros Hnd Hin; [destruct Hin|].
  inversion Hnd as [|? ? Hk Hnd']; subst.
  cbn [map Convergence.group_add].
  destruct (String.eqb_spec k n) as [->|Hne].
  - f_equal. apply map_ext_in. intros k' Hk'.
    destruct (String.eqb_spec k' n) as [->|]; [contradiction|reflexivity].
  - f_equal. apply IH; [exact Hnd'|]. destruct Hin; [contradiction|assumption].
Qed.

Lemma group_add_new (f : string -> list Convergence.Result) ks n r :
  ~ In n ks ->
  Convergence.group_add (map (fun k => (k, f k)) ks) n r
  = map (fun k => (k, f k)) ks ++ [(n, [r])].
Proof.
  induction ks as [|k ks IH]; intros Hin; [reflexivity|].
  cbn [map Convergence.group_add app].
  destruct (String.eqb_spec k n) as [->|Hne]; [exfalso; apply Hin; now left|].
  f_equal. apply IH. intros H. apply Hin. now right.
Qed.

Lemma fold_left_snoc {A B} (f : A -> B -> A) l x a :
  fold_left f (l ++ [x]) a = f (fold_left f l a) x.
Proof. now rewrite fold_left_app. Qed.

Lemma existsb_eqb_In n names : existsb (String.eqb n) names = true <-> In n names.
Proof.
  rewrite existsb_exists. split.
  - intros (m & Hm & E). apply String.eqb_eq in E. now subst.
  - intros H. exists n. split; [exact H|apply String.eqb_refl].
Qed.

Lemma group_loop_fold pattern (mcp_results : list Convergence.Result) :
  forall i acc,
    Convergence.group_loop pattern i mcp_results acc
    = fold_left (fun acc nr => Convergence.group_add acc (fst nr) (snd nr))
                (combine (Laws.names_from pattern i mcp_results) mcp_results) acc.
Proof.
  induction mcp_results as [|r rs IH]; intros i acc; [reflexivity|].
  cbn [Convergence.group_loop Laws.names_from combine fold_left fst snd].
  apply IH.
Qed.

Lemma grouping_by_tool (results : list (string * Convergence.Result)) :
  fold_left (fun acc nr => Convergence.group_add acc (fst nr) (snd nr)) results []
  = map (fun n => (n, Laws.results_of n results))
        (Laws.first_seen (map fst results)).
Proof.
  induction results as [|[n r] l IH] using rev_ind; [reflexivity|].
  rewrite fold_left_snoc, IH, map_app. cbn [map fst snd].
  rewrite first_seen_snoc.
  set (names := map fst l).
  assert (Hsplit : forall k,
             Laws.results_of k (l ++ [(n, r)])
             = if String.eqb k n then Laws.results_of k l ++ [r]
               else Laws.results_of k l).
  { intros k. unfold Laws.results_of. rewrite List.filter_app, map_app.
    cbn [List.filter fst]. rewrite (String.eqb_sym n k).
    destruct (String.eqb k n); [reflexivity|apply app_nil_r]. }
  destruct (existsb (String.eqb n) names) eqn:Hseen.
  - apply existsb_eqb_In in Hseen.
    rewrite group_add_known;
      [|apply first_seen_NoDup|now apply first_seen_In].
    apply map_ext. intros k. now rewrite Hsplit.
  - assert (Hnot : ~ In n names).
    { intros H. apply existsb_eqb_In in H. congruence. }
    rewrite group_add_new by (rewrite first_seen_In; exact Hnot).
    rewrite map_app. cbn [map]. f_equal.
    + apply map_ext_in. intros k Hk. rewrite Hsplit.
      destruct (String.eqb_spec k n) as [->|]; [|reflexivity].
      exfalso. apply Hnot. exact (proj1 (first_seen_In _ _) Hk).
    + rewrite Hsplit, String.eqb_refl.
      assert (Hempty : Laws.results_of n l = []).
      { unfold Laws.results_of.
        destruct (List.filter (fun nr => String.eqb (fst nr) n) l)
          as [|x xs] eqn:E; [reflexivity|].
        assert (Hx : In x (x :: xs)) by now left.
        rewrite <- E in Hx. apply List.filter_In in Hx. destruct Hx as [Hx Hn].
        apply String.eqb_eq in Hn. exfalso. apply Hnot. unfold names.
        rewrite <- Hn. now apply in_map. }
      now rewrite Hempty.
Qed.

Lemma results_of_readable pattern mcp_results name :
  Forall Spec.readable mcp_results ->
  Forall Spec.readable (Laws.results_of name (Laws.named pattern mcp_results)).
Proof.
  intros Hread. apply List.Forall_forall. intros x Hx.
  unfold Laws.results_of, Laws.named in Hx.
  apply in_map_iff in Hx. destruct Hx as ([n r] & <- & Hin).
  apply List.filter_In in Hin. destruct Hin as [Hin _].
  apply in_combine_r in Hin.
  exact (proj1 (List.Forall_forall _ _) Hread _ Hin).
Qed.

Lemma consensus_of_groups (g : string -> list Convergence.Result) ks :
  (forall k, Forall Spec.readable (g k)) ->
  Convergence.consensus_of (map (fun k => (k, g k)) ks)
  = inr (map (fun k => Spec.mean (Spec.successful_confidences (g k)))
             (List.filter
                (fun k => match Spec.successful_confidences (g k) with
                          | [] => false
                          | _ => true
                          end) ks)).
Proof.
  intros Hread.
  induction ks as [|k ks IH]; [reflexivity|].
  cbn [map Convergence.consensus_of List.filter]. rewrite IH.
  rewrite (confidences_of_readable _ (Hread k)). cbn [Py.bind].
  destruct (Spec.successful_confidences (g k)) as [|c cs] eqn:E.
  - destruct (1 <=? length (g k))%nat; reflexivity.
  - destruct (Nat.leb_spec 1 (length (g k))) as [_|Hlen].
    + rewrite mean_nonempty by discriminate.
      cbn [Py.bind Py.ret app map]. rewrite E. reflexivity.
    + destruct (g k); [discriminate E|cbn [length] in Hlen; lia].
Qed.

Lemma group_add_covers groups name r :
  (exists g, In g (Convergence.group_add groups name r) /\ In r (snd g))
  /\ (forall x, (exists g, In g groups /\ In x (snd g)) ->
                exists g, In g (Convergence.group_add groups name r) /\ In x (snd g))
  /\ (forall x, (exists g, In g (Convergence.group_add groups name r) /\ In x (snd g)) ->
                x = r \/ exists g, In g groups /\ In x (snd g)).
Proof.
  induction groups as [|[k rs] gs (IHr & IHkeep & IHfrom)];
    cbn [Convergence.group_add].
  - split; [exists (name, [r]); split; now left|].
    split; [intros x (g & [] & _)|].
    intros x (g & [<-|[]] & [->|[]]). now left.
  - destruct (String.eqb k name).
    + split.
      { exists (k, rs ++ [r]). split; [now left|]. cbn [snd]. apply in_or_app.
        right. now left. }
      split.
      { intros x (g & [<-|Hg] & Hx).
        - exists (k, rs ++ [r]). split; [now left|]. cbn [snd] in *.
          apply in_or_app. now left.
        - exists g. split; [now right|exact Hx]. }
      intros x (g & [<-|Hg] & Hx).
      * cbn [snd] in Hx. apply in_app_or in Hx. destruct Hx as [Hx|[->|[]]].
        -- right. exists (k, rs). split; [now left|exact Hx].
        -- now left.
      * right. exists g. split; [now right|exact Hx].
    + split.
      { destruct IHr as (g & Hg & Hx). exists g. split; [now right|exact Hx]. }
      split.
      { intros x (g & [<-|Hg] & Hx).
        - exists (k, rs). split; [now left|exact Hx].
        - destruct (IHkeep x (ex_intro _ g (conj Hg Hx))) as (g' & Hg' & Hx').
          exists g'. split; [now right|exact Hx']. }
      intros x (g & [<-|Hg] & Hx).
      * right. exists (k, rs). split; [now left|exact Hx].
      * destruct (IHfrom x (ex_intro _ g (conj Hg Hx))) as [->|(g' & Hg' & Hx')];
          [now left|].
        right. exists g'. split; [now right|exact Hx'].
Qed.

Lemma group_loop_covers pattern mcp_results :
  forall i groups x,
    (exists g, In g (Convergence.group_loop pattern i mcp_results groups)
               /\ In x (snd g))
    <-> (In x mcp_results \/ exists g, In g groups /\ In x (snd g)).
Proof.
  induction mcp_results as [|r rs IH]; intros i groups x;
    cbn [Convergence.group_loop In].
  - tauto.
  - rewrite IH.
    destruct (group_add_covers groups (Convergence.name_of pattern i r) r)
      as (Hr & Hkeep & Hfrom).
    split.
    + intros [H|H]; [tauto|]. destruct (Hfrom x H) as [->|H']; tauto.
    + intros [[<-|H]|H]; [right; exact Hr|now left|right; now apply Hkeep].
Qed.

Lemma consensus_of_unreadable groups :
  ~ Forall (fun g => Forall Spec.readable (snd g)) groups ->
  exists r,
    (exists g, In g groups /\ In r (snd g))
    /\ ~ Spec.readable r
    /\ Convergence.consensus_of groups
       = inl (Py.no_attribute (Convergence.type_name r) "success").
Proof.
  induction groups as [|[k rs] gs IH]; intros Hnot;
    [exfalso; apply Hnot; constructor|].
  cbn [Convergence.consensus_of].
  destruct (List.Forall_dec _ readable_dec rs) as [Hrs|Hrs].
  - destruct IH as (r & (g & Hg & Hin) & Hr & Heq).
    { intros H. apply Hnot. constructor; [exact Hrs|exact H]. }
    exists r. split; [exists g; split; [now right|exact Hin]|]. split; [exact Hr|].
    rewrite Heq, (confidences_of_readable rs Hrs). cbn [Py.bind].
    destruct (1 <=? length rs)%nat; [|reflexivity].
    destruct (Spec.successful_confidences rs) as [|c cs] eqn:E; [reflexivity|].
    rewrite mean_nonempty by discriminate. reflexivity.
  - destruct (confidences_of_unreadable rs Hrs) as (r & Hin & Hr & Heq).
    exists r. split; [exists (k, rs); split; [now left|exact Hin]|]. split; [exact Hr|].
    rewrite Heq.
    destruct rs as [|r0 rs']; [destruct Hin|]. reflexivity.
Qed.

(** X14. The consensus strategy counts every tool once, however often it ran:
    with a pattern and at least two results, each grouped under its tool
    name (or, when it has none, the name at its index in the pattern, or
    "unknown"), and readable, the scores it averages are the means of
    the successful confidences of each tool that succeeded at least once,
    in the order in which the tools first appear.  When no tool succeeded
    the answer is "No valid consensus data" with score 0; otherwise the
    overall consensus is the mean of these per-tool means, and the
    reported per-tool table pairs the tools in order of first appearance
    with these means in order, position by position.  When some result
    has a confidence and no success flag, the strategy raises
    [AttributeError] on such a result. *)
Theorem consensus_validation_by_tool
        (mcp_results : list Convergence.Result) (pattern : option (list string)) :
  Convergence.no_pattern pattern = false ->
  (2 <= length mcp_results)%nat ->
  let results :=
    Laws.named (match pattern with Some p => p | None => [] end) mcp_results in
  let tools := Laws.first_seen (map fst results) in
  let scores :=
    map (fun n => Spec.mean (Laws.confidences_of n results))
        (Laws.voters results) in
  (Forall Spec.readable mcp_results ->
   exists a,
    Convergence._analyze_consensus_validation mcp_results pattern = inr a
    /\ (scores = [] ->
        a = Convergence.mkAnalysis false Convergence.CONSENSUS_VALIDATION 0.0
              Convergence.NoMetrics (Convergence.Text "No valid consensus data"))
    /\ (scores <> [] ->
        exists stability,
          Convergence.metrics a
          = Convergence.ConsensusMetrics (combine tools scores)
                                         (Spec.mean scores) stability
          /\ Convergence.score a = Spec.mean scores * stability
          /\ Convergence.converged a
             = Py.Rleb 0.75 (Spec.mean scores) && Py.Rleb 0.8 stability
          /\ stability
             = if (1 <? length scores)%nat && Py.Rltb 0 (Spec.mean scores)
               then 1.0 - Spec.stdev scores / Spec.mean scores
               else 1.0))
  /\ (~ Forall Spec.readable mcp_results ->
      exists r,
        In r mcp_results
        /\ Convergence.confidence r <> None
        /\ Convergence.success r = None
        /\ Convergence._analyze_consensus_validation mcp_results pattern
           = inl (Py.AttributeError
                    ("'" +:+ Convergence.type_name r
                     +:+ "' object has no attribute 'success'"))).
Proof.
  intros Hpattern Hlen. cbv zeta.
  unfold Convergence._analyze_consensus_validation, Laws.voters, Laws.confidences_of.
  rewrite Hpattern. cbn [orb].
  destruct (Nat.ltb_spec (length mcp_results) 2) as [|_]; [lia|].
  set (p := match pattern with Some p => p | None => [] end).
  split.
  2: { intros Hnot.
       destruct (consensus_of_unreadable (Convergence.group_loop p 0 mcp_results []))
         as (r & Hcov & Hr & Heq).
       { intros Hall. apply Hnot. apply List.Forall_forall. intros x Hx.
         assert (Hc : exists g, In g (Convergence.group_loop p 0 mcp_results [])
                                /\ In x (snd g)).
         { apply group_loop_covers. now left. }
         destruct Hc as (g & Hg & Hxg).
         pose proof (proj1 (List.Forall_forall _ _) Hall g Hg) as Hgr. cbn beta in Hgr.
         exact (proj1 (List.Forall_forall _ _) Hgr x Hxg). }
       exists r. destruct (unreadable_record r Hr) as [Hc Hs].
       split.
       { apply group_loop_covers in Hcov. destruct Hcov as [H|(g & [] & _)]. exact H. }
       split; [exact Hc|]. split; [exact Hs|].
       rewrite Heq. reflexivity. }
  intros Hread.
  rewrite group_loop_fold.
  change (combine (Laws.names_from p 0 mcp_results) mcp_results)
    with (Laws.named p mcp_results).
  rewrite grouping_by_tool.
  rewrite (consensus_of_groups (fun n => Laws.results_of n (Laws.named p mcp_results)))
    by (intros k; now apply results_of_readable).
  rewrite map_map. cbn [fst]. rewrite map_id.
  set (tools := Laws.first_seen (map fst (Laws.named p mcp_results))).
  set (scores := map _ (List.filter _ tools)).
  cbn [Py.bind].
  destruct scores as [|s0 ss] eqn:Escores.
  { eexists. split; [reflexivity|]. split; [reflexivity|congruence]. }
  rewrite <- Escores in *. assert (Hne : scores <> []) by (rewrite Escores; discriminate).
  clear Escores.
  rewrite (mean_nonempty _ Hne). cbn [Py.bind].
  destruct (Nat.ltb_spec 1 (length scores)) as [Hmany|Hone]; cbn [andb].
  - destruct (Py.Rltb 0 (Spec.mean scores)) eqn:Hpos.
    + apply Rltb_true in Hpos.
      rewrite (stdev_two_points _ Hmany). cbn [Py.bind].
      rewrite truediv_nonzero by lra. cbn [Py.bind Py.ret].
      eexists. split; [reflexivity|]. split; [congruence|]. intros _.
      eexists. repeat split.
    + cbn [Py.bind Py.ret].
      eexists. split; [reflexivity|]. split; [congruence|]. intros _.
      eexists. repeat split.
  - cbn [Py.bind Py.ret].
    eexists. split; [reflexivity|]. split; [congruence|]. intros _.
    eexists. repeat split.
Qed.

End ConsensusByTool.

Lemma consensus_validation_by_tool_witness :
  let results :=
    [Convergence.mkResult "MockResult" (Some "brain_recall") (Some true) (Some 0.8);
     Convergence.mkResult "MockResult" (Some "web_search") (Some false) (Some 0.0);
     Convergence.mkResult "MockResult" None (Some true) (Some 0.9)] in
  Convergence.no_pattern (Some ["brain_recall"]) = false
  /\ (2 <= length results)%nat
  /\ exists a,
      Convergence._analyze_consensus_validation results (Some ["brain_recall"])
      = inr a.
Proof.
  intros results.
  assert (H1 : Convergence.no_pattern (Some ["brain_recall"]) = false) by reflexivity.
  assert (H2 : (2 <= length results)%nat) by (cbn; lia).
  split; [exact H1|]. split; [exact H2|].
  destruct (consensus_validation_by_tool results (Some ["brain_recall"]) H1 H2)
    as [Hok _].
  destruct Hok as (a & Ha & _).
  { repeat constructor; intros _; discriminate. }
  exists a. exact Ha.
Defined.

(** *** The report computed at the end of the history update *)

Section LearningReport.

Lemma split_once_append before after :
  exists c s, Learning.split_once ":" (before +:+ ":" +:+ after) = Some (c, s)
              /\ c +:+ ":" +:+ s = before +:+ ":" +:+ after.
Proof.
  induction before as [|ch before (c & s & IH & Heq)].
  - exists "", after. split; reflexivity.
  - change (String ch before +:+ ":" +:+ after)
      with (String ch (before +:+ ":" +:+ after)).
    cbn [Learning.split_once].
    destruct (Ascii.eqb ch ":") eqn:E.
    + apply Ascii.eqb_eq in E. subst ch.
      exists "", (before +:+ ":" +:+ after). split; reflexivity.
    + rewrite IH. exists (String ch c), s. split; [reflexivity|].
      change (String ch c +:+ ":" +:+ s) with (String ch (c +:+ ":" +:+ s)).
      now rewrite Heq.
Qed.

Lemma split_once_join key c s :
  Learning.split_once ":" key = Some (c, s) -> c +:+ ":" +:+ s = key.
Proof.
  revert c s. induction key as [|ch key IH]; intros c s; cbn [Learning.split_once];
    [discriminate|].
  destruct (Ascii.eqb ch ":") eqn:E.
  - intros [= <- <-]. apply Ascii.eqb_eq in E. now subst ch.
  - destruct (Learning.split_once ":" key) as [[c' s']|]; [|discriminate].
    intros [= <- <-].
    change (String ch c' +:+ ":" +:+ s') with (String ch (c' +:+ ":" +:+ s')).
    now rewrite (IH c' s' eq_refl).
Qed.

Lemma pattern_key_splits complexity pattern :
  Laws.splits (Convergence.pattern_key complexity pattern) = true.
Proof.
  unfold Laws.splits, Convergence.pattern_key.
  destruct (split_once_append complexity (Py.join "-" pattern)) as (c & s & H & _).
  now rewrite H.
Qed.

Lemma insert_desc_perm x l : Permutation (Learning.insert_desc x l) (x :: l).
Proof.
  induction l as [|y l IH]; cbn [Learning.insert_desc]; [reflexivity|].
  destruct (Py.Rltb _ _); [|reflexivity].
  rewrite IH. apply perm_swap.
Qed.

Lemma sorted_desc_perm items : Permutation (Learning.sorted_desc items) items.
Proof.
  unfold Learning.sorted_desc.
  induction items as [|x items IH]; cbn [fold_right]; [reflexivity|].
  rewrite insert_desc_perm. now constructor.
Qed.

Lemma insert_desc_descending x l :
  Laws.descending l -> Laws.descending (Learning.insert_desc x l).
Proof.
  induction l as [|y l IH]; cbn [Learning.insert_desc Laws.descending].
  - intros _. split; [constructor|exact I].
  - intros [Hy Hl].
    destruct (Py.Rltb _ _) eqn:E.
    + apply Rltb_true in E. cbn [Laws.descending]. split; [|now apply IH].
      rewrite (insert_desc_perm x l). constructor; [lra|exact Hy].
    + apply Rltb_false in E. cbn [Laws.descending].
      split; [|split; assumption].
      constructor; [exact E|].
      eapply List.Forall_impl; [|exact Hy]. cbn beta. intros z Hz. lra.
Qed.

Lemma sorted_desc_descending items : Laws.descending (Learning.sorted_desc items).
Proof.
  unfold Learning.sorted_desc.
  induction items as [|x items IH]; cbn [fold_right]; [exact I|].
  now apply insert_desc_descending.
Qed.

Lemma insights_loop_ok best :
  Forall (fun kp => Laws.splits (fst kp) = true) best ->
  exists insights,
    Learning.insights_loop best = inr insights
    /\ map (fun i => Learning.i_complexity i +:+ ":" +:+ Learning.i_pattern_str i)
           insights
       = map fst best
    /\ map Learning.i_avg_confidence insights
       = map (fun kp => Convergence.avg_confidence (snd kp)) best
    /\ map Learning.i_executions insights
       = map (fun kp => Convergence.executions (snd kp)) best.
Proof.
  induction 1 as [|[key perf] best Hkey _ (insights & Heq & H1 & H2 & H3)];
    cbn [Learning.insights_loop].
  - exists []. repeat split.
  - unfold Laws.splits in Hkey. cbn [fst] in Hkey.
    destruct (Learning.split_once ":" key) as [[c s]|] eqn:E; [|discriminate].
    rewrite Heq. eexists. split; [reflexivity|].
    cbn [map fst snd Learning.i_complexity Learning.i_pattern_str
         Learning.i_avg_confidence Learning.i_executions].
    rewrite H1, H2, H3, (split_once_join key c s E). repeat split.
Qed.

Lemma insights_loop_fails best :
  Exists (fun kp => Laws.splits (fst kp) = false) best ->
  Learning.insights_loop best = inl Learning.not_enough_values_to_unpack.
Proof.
  induction 1 as [[key perf] best Hkey|[key perf] best _ IH];
    cbn [Learning.insights_loop].
  - unfold Laws.splits in Hkey. cbn [fst] in Hkey.
    destruct (Learning.split_once ":" key) as [[c s]|]; [discriminate|reflexivity].
  - destruct (Learning.split_once ":" key) as [[c s]|]; [|reflexivity].
    now rewrite IH.
Qed.

(** X15. The report at the end of the history update ranks the tracked
    patterns by decreasing average confidence and keeps the first three:
    the ranking is a rearrangement of the items in which no entry has a
    larger average than an entry before it.  It fails, with the
    [ValueError] of the unpacking, exactly when one of these at most three
    best keys has no colon; otherwise it has one insight per best
    pattern, whose two parts joined by a colon give the key back, it
    counts all the patterns, and it gives its two recommendations exactly
    when there are at least three patterns. *)
Theorem learning_report_ranking (items : list (string * Convergence.Performance)) :
  let ranking := Learning.sorted_desc items in
  let best := firstn 3 ranking in
  Permutation ranking items
  /\ Laws.descending ranking
  /\ ((exists e, Learning.learning_report items = inl e)
      <-> Exists (fun kp => Laws.splits (fst kp) = false) best)
  /\ (forall report,
        items <> [] ->
        Learning.learning_report items = inr report ->
        Learning.best_patterns report = Some (map fst best)
        /\ map (fun i => Learning.i_complexity i +:+ ":" +:+ Learning.i_pattern_str i)
               (Learning.insights report)
           = map fst best
        /\ map Learning.i_avg_confidence (Learning.insights report)
           = map (fun kp => Convergence.avg_confidence (snd kp)) best
        /\ length (Learning.insights report) = Nat.min 3 (length items)
        /\ Learning.total_patterns_learned report = Some (length items)
        /\ (Learning.recommendations report <> [] <-> (3 <= length items)%nat)).
Proof.
  cbn zeta.
  split; [apply sorted_desc_perm|]. split; [apply sorted_desc_descending|].
  set (best := firstn 3 (Learning.sorted_desc items)).
  assert (Hlen : length best = Nat.min 3 (length items)).
  { unfold best. rewrite length_firstn.
    now rewrite (Permutation_length (sorted_desc_perm items)). }
  assert (Hcases :
            Forall (fun kp => Laws.splits (fst kp) = true) best
            \/ Exists (fun kp => Laws.splits (fst kp) = false) best).
  { clear. induction best as [|kp best [IH|IH]].
    - left. constructor.
    - destruct (Laws.splits (fst kp)) eqn:E.
      + left. now constructor.
      + right. now constructor.
    - right. now apply List.Exists_cons_tl. }
  unfold Learning.learning_report. fold best.
  destruct items as [|item more] eqn:Hitems.
  { split; [split|].
    - intros [e [=]].
    - intros H. inversion H.
    - intros report Hne. congruence. }
  rewrite <- Hitems in *. clear Hitems.
  destruct Hcases as [Hall|Hex].
  - destruct (insights_loop_ok best Hall) as (insights & Heq & H1 & H2 & H3).
    rewrite Heq. split; [split|].
    + intros [e [=]].
    + intros Hex. exfalso. apply List.Exists_exists in Hex.
      destruct Hex as (kp & Hin & Hkp).
      rewrite List.Forall_forall in Hall. specialize (Hall kp Hin). congruence.
    + intros report _ [= <-].
      cbn [Learning.best_patterns Learning.insights Learning.total_patterns_learned
           Learning.recommendations].
      split; [reflexivity|]. split; [exact H1|]. split; [exact H2|].
      split; [|split; [reflexivity|]].
      * rewrite <- Hlen, <- (length_map fst best), <- H1. now rewrite length_map.
      * destruct (length items) as [|[|[|n]]];
          (split; [intros Hrec; try lia; now contradiction Hrec
                  |intros Hthree; try lia; discriminate]).
  - rewrite (insights_loop_fails best Hex). split; [split|].
    + intros _. exact Hex.
    + intros _. eexists. reflexivity.
    + intros report _ [=].
Qed.

(** X16. The keys of the tracked patterns are always built by the analyzer with
    a colon between the tier and the pattern, so [analyze_convergence]
    keeps every key splittable; and for an analyzer whose keys are, the
    report at the end of the history update does not fail, whatever items
    of the tracked patterns it ranks. *)
Theorem learning_report_after_update
        (self : Convergence.AdvancedConvergenceAnalyzer)
        (mcp_results : list Convergence.Result) (iteration : nat)
        (complexity : string) (pattern : option (list string)) :
  Laws.keys_ok self ->
  let self' :=
    snd (Convergence.analyze_convergence self mcp_results iteration complexity
                                         pattern) in
  Laws.keys_ok self'
  /\ forall items,
       Laws.listed self' items ->
       exists report, Learning.learning_report items = inr report.
Proof.
  intros Hok self'.
  assert (Hok' : Laws.keys_ok self').
  { subst self'.
    destruct (analyze_convergence_outcome self mcp_results iteration complexity pattern)
      as [[_ Hsame]|(tool & rest & verdict & _ & _ & _ & Hsnd)]; cbn zeta in *.
    - now rewrite Hsame.
    - rewrite Hsnd. intros key p. cbn [Convergence.pattern_performance].
      destruct (decide (Convergence.pattern_key complexity (tool :: rest) = key))
        as [<-|Hkey].
      + intros _. apply pattern_key_splits.
      + rewrite lookup_insert_ne by exact Hkey. apply Hok. }
  split; [exact Hok'|].
  intros items Hlisted.
  unfold Learning.learning_report.
  destruct items as [|item more] eqn:Hitems; [eexists; reflexivity|].
  rewrite <- Hitems in *. clear Hitems.
  assert (Hall : Forall (fun kp => Laws.splits (fst kp) = true)
                        (firstn 3 (Learning.sorted_desc items))).
  { apply Forall_take.
    rewrite (sorted_desc_perm items).
    eapply List.Forall_impl; [|exact Hlisted].
    cbn beta. intros [key p] Hkp. cbn [fst snd] in *. exact (Hok' key p Hkp). }
  destruct (insights_loop_ok _ Hall) as (insights & Heq & _).
  rewrite Heq. eexists. reflexivity.
Qed.

End LearningReport.

Lemma learning_report_after_update_witness :
  let self := Convergence.mkAnalyzer 0.75 [] ∅ in
  let results := [Convergence.mkResult "MockResult" (Some "brain_recall") (Some true)
                                       (Some 0.8)] in
  let self' :=
    snd (Convergence.analyze_convergence self results 1 "simple"
                                         (Some ["brain_recall"])) in
  Laws.keys_ok self /\ Laws.keys_ok self'.
Proof.
  intros self results self'.
  assert (H : Laws.keys_ok self).
  { intros key p. cbn [Convergence.pattern_performance self].
    rewrite lookup_empty. discriminate. }
  split; [exact H|].
  exact (proj1 (learning_report_after_update self results 1 "simple"
                  (Some ["brain_recall"]) H)).
Defined.

(** *** The keys of the tracked patterns *)

Section PatternKeys.

Lemma split_once_lacks sep before after :
  Laws.lacks sep before = true ->
  Learning.split_once sep (before +:+ String sep after) = Some (before, after).
Proof.
  induction before as [|ch before IH]; cbn [Laws.lacks].
  - intros _. change ("" +:+ String sep after) with (String sep after).
    cbn [Learning.split_once]. now rewrite Ascii.eqb_refl.
  - intros H. apply andb_prop in H. destruct H as [Hch Hrest].
    change (String ch before +:+ String sep after)
      with (String ch (before +:+ String sep after)).
    cbn [Learning.split_once].
    apply negb_true_iff in Hch. rewrite Hch, (IH Hrest). reflexivity.
Qed.

Lemma split_once_none sep s :
  Laws.lacks sep s = true -> Learning.split_once sep s = None.
Proof.
  induction s as [|ch s IH]; cbn [Laws.lacks Learning.split_once]; [reflexivity|].
  intros H. apply andb_prop in H. destruct H as [Hch Hrest].
  apply negb_true_iff in Hch. now rewrite Hch, (IH Hrest).
Qed.

Lemma join_cons name next rest :
  Py.join "-" (name :: next :: rest)
  = name +:+ String "-" (Py.join "-" (next :: rest)).
Proof. reflexivity. Qed.

Lemma join_injective pattern :
  forall pattern',
    pattern <> [] -> pattern' <> [] ->
    Forall (fun name => Laws.lacks "-" name = true) pattern ->
    Forall (fun name => Laws.lacks "-" name = true) pattern' ->
    Py.join "-" pattern = Py.join "-" pattern' ->
    pattern = pattern'.
Proof.
  induction pattern as [|a p IH]; intros p' Hne Hne' Hall Hall' Heq; [congruence|].
  destruct p' as [|a' p']; [congruence|].
  inversion Hall as [|? ? Ha Hp]; subst.
  inversion Hall' as [|? ? Ha' Hp']; subst.
  destruct p as [|b p], p' as [|b' p'].
  - cbn [Py.join] in Heq. now subst.
  - exfalso. rewrite join_cons in Heq. change (Py.join "-" [a]) with a in Heq.
    pose proof (split_once_none "-" a Ha) as Hnone.
    rewrite Heq, (split_once_lacks "-" a' _ Ha') in Hnone. discriminate.
  - exfalso. rewrite join_cons in Heq. change (Py.join "-" [a']) with a' in Heq.
    pose proof (split_once_none "-" a' Ha') as Hnone.
    rewrite <- Heq, (split_once_lacks "-" a _ Ha) in Hnone. discriminate.
  - rewrite !join_cons in Heq.
    pose proof (split_once_lacks "-" a (Py.join "-" (b :: p)) Ha) as H1.
    rewrite Heq, (split_once_lacks "-" a' _ Ha') in H1.
    injection H1 as Hhead Htail. subst a'.
    f_equal. apply IH; [discriminate|discriminate|assumption|assumption|].
    symmetry. exact Htail.
Qed.

(** X17. When the tier has no colon, the key of a pattern splits back into the
    tier and the joined pattern; and when, besides, no tool name has a
    hyphen, two non-empty patterns share a key only if they are the same
    pattern of the same tier, so what is learnt for one pattern is never
    mixed with what is learnt for another. *)
Theorem pattern_key_round_trip (complexity complexity' : string)
        (pattern pattern' : list string) :
  Laws.lacks ":" complexity = true ->
  Laws.lacks ":" complexity' = true ->
  Learning.split_once ":" (Convergence.pattern_key complexity pattern)
  = Some (complexity, Py.join "-" pattern)
  /\ (pattern <> [] -> pattern' <> [] ->
      Forall (fun name => Laws.lacks "-" name = true) pattern ->
      Forall (fun name => Laws.lacks "-" name = true) pattern' ->
      Convergence.pattern_key complexity pattern
      = Convergence.pattern_key complexity' pattern' ->
      complexity = complexity' /\ pattern = pattern').
Proof.
  intros Hc Hc'.
  assert (Hsplit : forall c p,
             Laws.lacks ":" c = true ->
             Learning.split_once ":" (Convergence.pattern_key c p)
             = Some (c, Py.join "-" p)).
  { intros c p H. unfold Convergence.pattern_key.
    change (":" +:+ Py.join "-" p) with (String ":" (Py.join "-" p)).
    now apply split_once_lacks. }
  split; [now apply Hsplit|].
  intros Hne Hne' Hall Hall' Heq.
  pose proof (Hsplit complexity pattern Hc) as H1.
  rewrite Heq, (Hsplit complexity' pattern' Hc') in H1.
  injection H1 as Hcomplexity Hjoin. split; [now symmetry|].
  apply join_injective; try assumption. now symmetry.
Qed.

End PatternKeys.

Lemma pattern_key_round_trip_witness :
  Laws.lacks ":" "medium" = true
  /\ Laws.lacks ":" "complex" = true
  /\ Learning.split_once ":"
       (Convergence.pattern_key "medium"
          ["brain_recall"; "web_search"; "brain_remember"])
     = Some ("medium", "brain_recall-web_search-brain_remember").
Proof.
  assert (H1 : Laws.lacks ":" "medium" = true) by reflexivity.
  assert (H2 : Laws.lacks ":" "complex" = true) by reflexivity.
  split; [exact H1|]. split; [exact H2|].
  exact (proj1 (pattern_key_round_trip "medium" "complex"
                  ["brain_recall"; "web_search"; "brain_remember"]
                  ["brain_recall"] H1 H2)).
Defined.

(** *** The two classifiers *)

Section TwoClassifiers.

Lemma match_here_literal word s :
  String.prefix word (Py.lower s) = true ->
  Py.match_here (Laws.literal (Py.lower word)) s = true.
Proof.
  revert s. induction word as [|c word IH]; intros s; [reflexivity|].
  destruct s as [|d s]; cbn [Py.lower String.prefix]; [discriminate|].
  destruct (ascii_dec c (Py.lower_ascii d)) as [->|]; [|discriminate].
  intros H. unfold Laws.literal. cbn [list_ascii_of_string map Py.match_here].
  fold (Laws.literal (Py.lower word)). rewrite (IH s H), andb_true_r.
  apply Ascii.eqb_eq. now rewrite !lower_ascii_idem.
Qed.

Lemma search_literal (r : Py.regex) word s :
  In (Laws.literal (Py.lower word)) r ->
  Py.contains word (Py.lower s) = true ->
  Py.search r s = true.
Proof.
  intros Hin. induction s as [|d s IH]; cbn [Py.lower Py.contains Py.search].
  - rewrite orb_false_r. intros H. apply orb_true_intro. left.
    unfold Py.match_at. apply existsb_exists. eexists. split; [exact Hin|].
    now apply match_here_literal.
  - intros H. apply orb_prop in H. destruct H as [H|H].
    + apply orb_true_intro. left.
      unfold Py.match_at. apply existsb_exists. eexists. split; [exact Hin|].
      now apply match_here_literal.
    + apply orb_true_intro. right. now apply IH.
Qed.

(** X18. The two classifiers agree on the expert tier for the words they
    share: a query that contains, in any case, one of "consciousness",
    "emergent", "recursive", "bootstrap", "superintelligence" or
    "singularity" is classified as expert by [assess_complexity] of the
    core, whose patterns are regular expressions, as well as by [assess]
    of the engine, whose patterns are keywords. *)
Theorem classifiers_on_expert_words (query word : string) :
  In word Laws.shared_expert_words ->
  Py.contains word (Py.lower query) = true ->
  Core.assess_complexity query = inr "expert"
  /\ Engine.assess query = inr "expert".
Proof.
  intros Hword Hcontains.
  rewrite core_assess_first, engine_assess_first.
  split.
  - unfold Spec.first_matching_tier.
    assert (H : Spec.regex_match query "expert" = true); [|now rewrite H].
    unfold Spec.regex_match.
    assert (Hpats :
      Py.get Core.patterns "expert" []
      = [ Py.compile "consciousness|emergent|recursive|paradigm.*shift|bootstrap|self.*modifying";
          Py.compile "meta.*cognition|artificial.*general|superintelligence|singularity";
          Py.compile "recursive.*improvement|intelligence.*explosion|cognitive.*architecture" ])
      by (vm_compute; reflexivity).
    rewrite Hpats. cbn [existsb].
    unfold Laws.shared_expert_words in Hword. cbn [In] in Hword.
    destruct Hword as [<-|[<-|[<-|[<-|[<-|[<-|[]]]]]]].
    1-4: apply orb_true_intro; left;
         refine (search_literal _ _ query _ Hcontains); vm_compute; tauto.
    1-2: apply orb_true_intro; right; apply orb_true_intro; left;
         refine (search_literal _ _ query _ Hcontains); vm_compute; tauto.
  - unfold Spec.first_matching_tier.
    assert (H : Spec.keyword_match query "expert" = true); [|now rewrite H].
    unfold Spec.keyword_match.
    assert (Hkw :
      Py.get Engine.complexity_patterns "expert" []
      = ["consciousness"; "emergent"; "recursive"; "bootstrap"; "agi";
         "superintelligence"; "singularity"; "self-modification"])
      by (vm_compute; reflexivity).
    rewrite Hkw. apply existsb_exists. exists word. split; [|exact Hcontains].
    unfold Laws.shared_expert_words in Hword. cbn [In] in Hword |- *. tauto.
Qed.

End TwoClassifiers.

Lemma classifiers_on_expert_words_witness :
  In "recursive" Laws.shared_expert_words
  /\ Py.contains "recursive" (Py.lower "How might Recursive self-improvement work?")
     = true
  /\ Core.assess_complexity "How might Recursive self-improvement work?"
     = inr "expert".
Proof.
  assert (H1 : In "recursive" Laws.shared_expert_words) by (cbn; tauto).
  assert (H2 : Py.contains "recursive"
                 (Py.lower "How might Recursive self-improvement work?") = true)
    by (vm_compute; reflexivity).
  split; [exact H1|]. split; [exact H2|].
  exact (proj1 (classifiers_on_expert_words
                  "How might Recursive self-improvement work?" "recursive" H1 H2)).
Defined.
